(** * FP2 finance backend: ledger posting and currency rate resolution

    A shallow embedding of the Django backend under [src/backend]:

    - [currency/services.py]      ([CurrencyService])
    - [transactions/serializers.py] ([TransactionSerializer],
                                     [CardPurchaseSerializer])
    - [transactions/services.py]  ([TransactionService], [BalanceService])
    - [transactions/views.py]     (the actions of the three view sets)
    - [transactions/models.py], [accounts/models.py]

    Database tables are explicit values threaded through every operation;
    model instances are records that carry their own copy of the columns,
    as the ORM's Python objects do, and reach the tables only through
    explicit [save] operations.  Exceptions are values of a result type,
    and [transaction.atomic] is the combinator that discards the tables
    written by a body that raised. *)

From Stdlib Require Import ZArith List String Bool Lia.
From stdpp Require Import base option gmap strings list fin_maps pretty.

Open Scope Z_scope.

(* ===================================================================== *)
(** * Part I: definitions                                                 *)
(* ===================================================================== *)

(* --------------------------------------------------------------------- *)
(** ** Python's [decimal.Decimal] under the default context

    A finite decimal is a signed coefficient and an exponent, standing for
    [coef * 10 ^ exp].  The default context has 28 digits of precision and
    rounds half-even; [quantize] in the backend asks for half-up.  Signed
    zeros, NaN, infinities and the exponent limits (Emax = 999999) are
    outside the range the backend reaches and are not represented. *)

Module Decimal.

Record t : Type := mk { coef : Z; exp : Z }.

Definition prec : Z := 28.

(** [len(self._int)]: the number of decimal digits of the coefficient. *)
Fixpoint ndigits_aux (fuel : nat) (n : Z) : Z :=
  match fuel with
  | O => 1
  | S fuel' => if n <? 10 then 1 else 1 + ndigits_aux fuel' (n / 10)
  end.

Definition ndigits (c : Z) : Z :=
  ndigits_aux (Z.to_nat (Z.log2 (Z.abs c))) (Z.abs c).

(** Dropping the [k] low digits of [c], [k >= 1]. *)
Definition round_half_up (c k : Z) : Z :=
  let p := 10 ^ k in
  let q := Z.abs c / p in
  let r := Z.abs c mod p in
  Z.sgn c * (if 2 * r <? p then q else q + 1).

Definition round_half_even (c k : Z) : Z :=
  let p := 10 ^ k in
  let q := Z.abs c / p in
  let r := Z.abs c mod p in
  Z.sgn c * (if 2 * r <? p then q
             else if 2 * r =? p then (if Z.even q then q else q + 1)
             else q + 1).

(** [Decimal._fix]: round to the context precision. *)
Definition _fix (d : t) : t :=
  let n := ndigits (coef d) in
  if n <=? prec then d
  else
    let k := n - prec in
    let c := round_half_even (coef d) k in
    if ndigits c <=? prec then mk c (exp d + k)
    else mk (c / 10) (exp d + k + 1).

(** The coefficient of [d] at exponent [e], for [e <= exp d]. *)
Definition scaled (d : t) (e : Z) : Z := coef d * 10 ^ (exp d - e).

Definition of_int (n : Z) : t := mk n 0.

Definition add (x y : t) : t :=
  let e := Z.min (exp x) (exp y) in
  _fix (mk (scaled x e + scaled y e) e).

Definition sub (x y : t) : t :=
  let e := Z.min (exp x) (exp y) in
  _fix (mk (scaled x e - scaled y e) e).

Definition mul (x y : t) : t :=
  _fix (mk (coef x * coef y) (exp x + exp y)).

(** [Decimal.__pow__] with an integer exponent [0 <= n]: the power
    itself, at exponent [exp x * n], when its digits fit the precision,
    and the power rounded to the precision otherwise. *)
Definition pow (x : t) (n : Z) : t :=
  _fix (mk (coef x ^ n) (exp x * n)).

(** Exact quotients move towards the ideal exponent by shedding zeros. *)
Fixpoint strip_zeros (fuel : nat) (c e ideal : Z) : Z * Z :=
  match fuel with
  | O => (c, e)
  | S fuel' =>
      if (e <? ideal) && (c mod 10 =? 0)
      then strip_zeros fuel' (c / 10) (e + 1) ideal
      else (c, e)
  end.

(** [Decimal.__truediv__]; [None] is [DivisionByZero]/[InvalidOperation]. *)
Definition div (x y : t) : option t :=
  if coef y =? 0 then None
  else if coef x =? 0 then Some (_fix (mk 0 (exp x - exp y)))
  else
    let shift := ndigits (coef y) - ndigits (coef x) + prec + 1 in
    let e := exp x - exp y - shift in
    let a := Z.abs (coef x) in
    let b := Z.abs (coef y) in
    let num := if 0 <=? shift then a * 10 ^ shift else a in
    let den := if 0 <=? shift then b else b * 10 ^ (- shift) in
    let q := num / den in
    let r := num mod den in
    let '(q', e') :=
      if r =? 0 then strip_zeros (Z.to_nat shift) q e (exp x - exp y)
      else (if q mod 5 =? 0 then q + 1 else q, e) in
    Some (_fix (mk (Z.sgn (coef x) * Z.sgn (coef y) * q') e')).

(** Comparisons are numeric: [Decimal('1.0') == Decimal('1.00')]. *)
Definition cmp (x y : t) : comparison :=
  let e := Z.min (exp x) (exp y) in
  scaled x e ?= scaled y e.

Definition eqb (x y : t) : bool :=
  match cmp x y with Eq => true | _ => false end.
Definition ltb (x y : t) : bool :=
  match cmp x y with Lt => true | _ => false end.
Definition gtb (x y : t) : bool :=
  match cmp x y with Gt => true | _ => false end.

(** Python truthiness: a decimal is falsy exactly when it is zero. *)
Definition truthy (x : t) : bool := negb (coef x =? 0).

Definition adjusted (d : t) : Z := exp d + ndigits (coef d) - 1.

Definition _rescale_half_up (d : t) (e : Z) : t :=
  if e <=? exp d then mk (coef d * 10 ^ (exp d - e)) e
  else mk (round_half_up (coef d) (e - exp d)) e.

(** [Decimal._rescale] under the context's own rounding, half-even. *)
Definition _rescale_half_even (d : t) (e : Z) : t :=
  if e <=? exp d then mk (coef d * 10 ^ (exp d - e)) e
  else mk (round_half_even (coef d) (e - exp d)) e.

(** [d.quantize(Decimal(0, e), rounding=ROUND_HALF_UP)]; [None] is the
    [InvalidOperation] raised when the result needs more than [prec]
    digits. *)
Definition quantize_half_up (d : t) (e : Z) : option t :=
  if coef d =? 0 then Some (mk 0 e)
  else if prec <? adjusted d - e + 1 then None
  else
    let ans := _rescale_half_up d e in
    if prec <? ndigits (coef ans) then None else Some ans.

(** A value of a [DecimalField(max_digits=15, decimal_places=2)]: a
    whole number of hundredths, below [10 ^ 15] in absolute value. *)
Definition money (cents : Z) : t := mk cents (-2).

End Decimal.

(* --------------------------------------------------------------------- *)
(** ** [models.DecimalField(max_digits, decimal_places)] columns

    What a decimal column gives back for a value written to it: the
    value with [decimal_places] places, rounded half-even (a [quantize]
    under a context of [max_digits] digits).  A value that needs more
    than [max_digits] digits does not come back: that [quantize] raises
    [InvalidOperation].  The tables below hold a column's value as it
    comes back; [fits] tells whether it does. *)

Module DecimalField.

Definition stored (decimal_places : Z) (v : Decimal.t) : Decimal.t :=
  Decimal._rescale_half_even v (- decimal_places).

Definition fits (max_digits decimal_places : Z) (v : Decimal.t) : bool :=
  Decimal.ndigits (Decimal.coef (stored decimal_places v)) <=? max_digits.

End DecimalField.

(* --------------------------------------------------------------------- *)
(** ** Calendar dates and datetimes ([datetime.date], [timedelta],
       [dateutil.relativedelta]) *)

Module Dates.

Record date : Type := mkdate { year : Z; month : Z; day : Z }.

Definition is_leap (y : Z) : bool :=
  (y mod 4 =? 0) && (negb (y mod 100 =? 0) || (y mod 400 =? 0)).

(** [calendar.monthrange(y, m)[1]] *)
Definition days_in_month (y m : Z) : Z :=
  if m =? 2 then (if is_leap y then 29 else 28)
  else if (m =? 4) || (m =? 6) || (m =? 9) || (m =? 11) then 30
  else 31.

Definition next_day (d : date) : date :=
  if day d <? days_in_month (year d) (month d)
  then mkdate (year d) (month d) (day d + 1)
  else if month d <? 12 then mkdate (year d) (month d + 1) 1
  else mkdate (year d + 1) 1 1.

Definition prev_day (d : date) : date :=
  if 1 <? day d then mkdate (year d) (month d) (day d - 1)
  else if 1 <? month d
       then mkdate (year d) (month d - 1) (days_in_month (year d) (month d - 1))
  else mkdate (year d - 1) 12 31.

(** [d + timedelta(days=n)] *)
Definition add_days (d : date) (n : nat) : date := Nat.iter n next_day d.

(** [d + relativedelta(months=k)] for [1 <= k <= 12]: the month moves,
    the day is clamped to the length of the target month. *)
Definition add_months (d : date) (k : Z) : date :=
  let m := month d + k in
  let y' := if 12 <? m then year d + 1 else year d in
  let m' := if 12 <? m then m - 12 else m in
  mkdate y' m' (Z.min (days_in_month y' m') (day d)).

(** [d + relativedelta(years=k)] *)
Definition add_years (d : date) (k : Z) : date :=
  let y' := year d + k in
  mkdate y' (month d) (Z.min (days_in_month y' (month d)) (day d)).

(** [d.replace(day=n)]; [None] is the [ValueError] for a day out of range. *)
Definition replace_day (d : date) (n : Z) : option date :=
  if (1 <=? n) && (n <=? days_in_month (year d) (month d))
  then Some (mkdate (year d) (month d) n)
  else None.

Definition date_cmp (a b : date) : comparison :=
  match year a ?= year b with
  | Eq => match month a ?= month b with
          | Eq => day a ?= day b
          | c => c
          end
  | c => c
  end.

Definition date_leb (a b : date) : bool :=
  match date_cmp a b with Gt => false | _ => true end.
Definition date_ltb (a b : date) : bool :=
  match date_cmp a b with Lt => true | _ => false end.
Definition date_eqb (a b : date) : bool :=
  match date_cmp a b with Eq => true | _ => false end.

(** A point in time: a calendar day and the seconds elapsed in it. *)
Record datetime : Type := mkdatetime { dt_date : date; dt_secs : Z }.

(** [datetime.combine(d, datetime.min.time())] *)
Definition at_midnight (d : date) : datetime := mkdatetime d 0.

Definition datetime_cmp (a b : datetime) : comparison :=
  match date_cmp (dt_date a) (dt_date b) with
  | Eq => dt_secs a ?= dt_secs b
  | c => c
  end.

Definition datetime_leb (a b : datetime) : bool :=
  match datetime_cmp a b with Gt => false | _ => true end.
Definition datetime_ltb (a b : datetime) : bool :=
  match datetime_cmp a b with Lt => true | _ => false end.

(** [t - timedelta(hours=24)] *)
Definition minus_24h (t : datetime) : datetime :=
  mkdatetime (prev_day (dt_date t)) (dt_secs t).

(** [t + timedelta(seconds=s)] for [0 <= s] *)
Definition plus_seconds (t : datetime) (s : Z) : datetime :=
  let total := dt_secs t + s in
  mkdatetime (add_days (dt_date t) (Z.to_nat (total / 86400))) (total mod 86400).

End Dates.

(* --------------------------------------------------------------------- *)
(** ** Exceptions and results *)

Inductive exn : Type :=
| ValueError (msg : string)
| ValidationError (msg : string)
| InvalidOperation
| DivisionByZero
| DoesNotExist
| IntegrityError
| Http404
| OverflowError (msg : string).

(** [str(e)] *)
Definition exn_str (e : exn) : string :=
  match e with
  | ValueError msg => msg
  | ValidationError msg => msg
  | InvalidOperation => "[<class 'decimal.InvalidOperation'>]"
  | DivisionByZero => "[<class 'decimal.DivisionByZero'>]"
  | DoesNotExist => "Account matching query does not exist."
  | IntegrityError => "NOT NULL constraint failed"
  | Http404 => "Not found."
  | OverflowError msg => msg
  end.

Inductive result (A : Type) : Type :=
| Ok (a : A)
| Raise (e : exn).
Arguments Ok {A} a.
Arguments Raise {A} e.

(** Date arithmetic at the end of the calendar: [datetime.date] has no
    year after [MAXYEAR], and a sum that would pass it raises instead,
    [OverflowError] from [timedelta] and [ValueError] from
    [relativedelta]. *)
Module DateArith.

Definition MAXYEAR : Z := 9999.

(** [d + timedelta(days=n)] *)
Definition plus_days (d : Dates.date) (n : nat) : result Dates.date :=
  let r := Dates.add_days d n in
  if Dates.year r <=? MAXYEAR then Ok r
  else Raise (OverflowError "date value out of range").

Definition out_of_range (r : Dates.date) : exn :=
  ValueError ("year " +:+ pretty (Dates.year r) +:+ " is out of range").

(** [d + relativedelta(months=k)] and [d + relativedelta(years=k)] *)
Definition plus_months (d : Dates.date) (k : Z) : result Dates.date :=
  let r := Dates.add_months d k in
  if Dates.year r <=? MAXYEAR then Ok r else Raise (out_of_range r).

Definition plus_years (d : Dates.date) (k : Z) : result Dates.date :=
  let r := Dates.add_years d k in
  if Dates.year r <=? MAXYEAR then Ok r else Raise (out_of_range r).

End DateArith.

Definition is_ok {A} (r : result A) : bool :=
  match r with Ok _ => true | Raise _ => false end.

(** Python's [if x:] on a value that is a [Decimal] or [None]. *)
Definition truthy_opt (o : option Decimal.t) : bool :=
  match o with
  | Some d => Decimal.truthy d
  | None => false
  end.

(* --------------------------------------------------------------------- *)
(** ** currency/models.py *)

Module Currency.
Record t : Type := mk {
  code : string;
  name : string;
  symbol : string;
  decimal_places : Z;
  is_active : bool;
  is_base : bool
}.
(** The row [get_or_create(code=c)] inserts: every other column at its
    model default. *)
Definition default (c : string) : t := mk c "" "" 2 true false.
End Currency.

Module ExchangeRate.
Record t : Type := mk {
  from_currency : string;
  to_currency : string;
  rate : Decimal.t;
  date : Dates.datetime;
  source : string;
  provider : string
}.
End ExchangeRate.

Module ConversionLog.
Record t : Type := mk {
  from_currency : string;
  to_currency : string;
  original_amount : Decimal.t;
  converted_amount : Decimal.t;
  exchange_rate : Decimal.t;
  source : string;
  user_id : string;
  context : string
}.
End ConversionLog.

(* --------------------------------------------------------------------- *)
(** ** currency/services.py: [CurrencyService] *)

Module CurrencyService.

(** An entry of Django's cache: the value and the instant it expires. *)
Record cache_entry : Type := mk_entry {
  value : Decimal.t;
  expires_at : Dates.datetime
}.

(** What the service reads and writes: three tables and the cache. *)
Record state : Type := mk_state {
  currencies : gmap string Currency.t;
  exchange_rates : list ExchangeRate.t;
  conversion_logs : list ConversionLog.t;
  cache : gmap string cache_entry
}.

(** What one HTTP round trip to the provider ([_fetch_single_rate]) comes
    to: a quote, [None] (request error or a payload without the rate), or
    an exception other than [requests.RequestException]. *)
Inductive api_reply : Type :=
| Quote (d : Decimal.t)
| NoQuote
| Crash.

(** The service's configuration and surroundings: the clock, the settings
    read by [__init__], and the provider behind [requests.get]. *)
Record env : Type := mk_env {
  now : Dates.datetime;
  cache_ttl : Z;
  api_key : string;
  http : string -> string -> api_reply
}.

Definition set_cache (s : state) (c : gmap string cache_entry) : state :=
  mk_state (currencies s) (exchange_rates s) (conversion_logs s) c.
Definition set_exchange_rates (s : state) (r : list ExchangeRate.t) : state :=
  mk_state (currencies s) r (conversion_logs s) (cache s).
Definition set_currencies (s : state) (c : gmap string Currency.t) : state :=
  mk_state c (exchange_rates s) (conversion_logs s) (cache s).
Definition set_conversion_logs (s : state) (l : list ConversionLog.t) : state :=
  mk_state (currencies s) (exchange_rates s) l (cache s).

Definition cache_key (from_currency to_currency : string) : string :=
  "exchange_rate_" +:+ from_currency +:+ "_" +:+ to_currency.

(** [cache.get(cache_key)]: an expired entry reads as absent. *)
Definition _get_cached_rate (e : env) (s : state)
    (from_currency to_currency : string) : option Decimal.t :=
  match cache s !! cache_key from_currency to_currency with
  | Some ce =>
      if Dates.datetime_ltb (now e) (expires_at ce) then Some (value ce)
      else None
  | None => None
  end.

(** When an entry set now expires: [cache_ttl] seconds from now; a
    timeout that is not positive stores an entry that is already stale. *)
Definition expiry (e : env) : Dates.datetime :=
  if cache_ttl e <=? 0 then now e
  else Dates.plus_seconds (now e) (cache_ttl e).

(** [cache.set(cache_key, rate, self.cache_ttl)] *)
Definition _cache_rate (e : env) (s : state)
    (from_currency to_currency : string) (rate : Decimal.t) : state :=
  set_cache s
    (<[cache_key from_currency to_currency := mk_entry rate (expiry e)]>
       (cache s)).

(** [queryset.first()] under [ordering = ['-date']]: the latest row. *)
Fixpoint latest (rows : list ExchangeRate.t) : option ExchangeRate.t :=
  match rows with
  | [] => None
  | r :: rs =>
      match latest rs with
      | None => Some r
      | Some r' =>
          if Dates.datetime_ltb (ExchangeRate.date r) (ExchangeRate.date r')
          then Some r' else Some r
      end
  end.

Definition for_pair (from_currency to_currency : string)
    (r : ExchangeRate.t) : bool :=
  String.eqb (ExchangeRate.from_currency r) from_currency
  && String.eqb (ExchangeRate.to_currency r) to_currency.

Definition _get_db_rate (e : env) (s : state)
    (from_currency to_currency : string) : option Decimal.t :=
  let cutoff_time := Dates.minus_24h (now e) in
  let rate_obj :=
    latest (List.filter
              (fun r => for_pair from_currency to_currency r
                        && Dates.datetime_leb cutoff_time (ExchangeRate.date r))
              (exchange_rates s)) in
  match rate_obj with
  | Some r => Some (ExchangeRate.rate r)
  | None => None
  end.

Definition _fetch_single_rate (e : env)
    (from_currency to_currency : string) : api_reply :=
  http e from_currency to_currency.

Definition reply_value (r : api_reply) : option Decimal.t :=
  match r with
  | Quote d => Some d
  | _ => None
  end.

Definition _fetch_rate_from_api (e : env)
    (from_currency to_currency : string) : option Decimal.t :=
  if String.eqb (api_key e) "" then None
  else
    let direct := reply_value (_fetch_single_rate e from_currency to_currency) in
    if String.eqb to_currency "ARS" then
      match _fetch_single_rate e "USD" "ARS" with
      | Crash => None
      | usd_to_ars =>
          match _fetch_single_rate e from_currency "USD" with
          | Crash => None
          | from_to_usd =>
              match reply_value usd_to_ars, reply_value from_to_usd with
              | Some u, Some f =>
                  if Decimal.truthy u && Decimal.truthy f
                  then Some (Decimal.mul f u)
                  else direct
              | _, _ => direct
              end
          end
      end
    else direct.

Definition _get_inverse_rate (s : state)
    (from_currency to_currency : string) : option Decimal.t :=
  let rate_obj :=
    latest (List.filter (for_pair to_currency from_currency) (exchange_rates s)) in
  match rate_obj with
  | Some r =>
      if Decimal.gtb (ExchangeRate.rate r) (Decimal.of_int 0)
      then Decimal.div (Decimal.of_int 1) (ExchangeRate.rate r)
      else None
  | None => None
  end.

(** [Currency.objects.get_or_create(code=c)] *)
Definition get_or_create_currency (c : string)
    (m : gmap string Currency.t) : gmap string Currency.t :=
  match m !! c with
  | Some _ => m
  | None => <[c := Currency.default c]> m
  end.

Definition same_day (from_currency to_currency : string) (today : Dates.date)
    (r : ExchangeRate.t) : bool :=
  for_pair from_currency to_currency r
  && Dates.date_eqb (Dates.dt_date (ExchangeRate.date r)) today.

(** The [defaults] of [update_or_create] written over a matching row. *)
Definition with_api_rate (rate : Decimal.t) (r : ExchangeRate.t) : ExchangeRate.t :=
  ExchangeRate.mk (ExchangeRate.from_currency r) (ExchangeRate.to_currency r)
    rate (ExchangeRate.date r) "api" "exchangeratesapi".

(** [update_or_create(from, to, date__date=today, defaults=...)]: no match
    inserts, one match is overwritten, several matches raise
    [MultipleObjectsReturned], which [_save_rate_to_db] logs and drops.
    The [rate] column is a [DecimalField(15, 6)]: the row holds the rate
    with six places.  (The tables themselves do not fail: a lost
    connection, which the same handler would swallow, is not
    represented.) *)
Definition _save_rate_to_db (e : env) (s : state)
    (from_currency to_currency : string) (rate : Decimal.t) : state :=
  let s1 := set_currencies s
              (get_or_create_currency to_currency
                 (get_or_create_currency from_currency (currencies s))) in
  let today := Dates.dt_date (now e) in
  let hit := same_day from_currency to_currency today in
  let rate_column := DecimalField.stored 6 rate in
  match List.filter hit (exchange_rates s1) with
  | [] =>
      set_exchange_rates s1
        (exchange_rates s1 ++
           [ExchangeRate.mk from_currency to_currency rate_column (now e)
              "api" "exchangeratesapi"])
  | [_] =>
      set_exchange_rates s1
        (List.map (fun r => if hit r then with_api_rate rate_column r else r)
           (exchange_rates s1))
  | _ => s1
  end.

Definition get_exchange_rate (e : env) (s : state)
    (from_currency to_currency : string) : option Decimal.t * state :=
  if String.eqb from_currency to_currency then (Some (Decimal.mk 100 (-2)), s)
  else
    let cached_rate := _get_cached_rate e s from_currency to_currency in
    if truthy_opt cached_rate then (cached_rate, s)
    else
      let db_rate := _get_db_rate e s from_currency to_currency in
      if truthy_opt db_rate then
        match db_rate with
        | Some r => (db_rate, _cache_rate e s from_currency to_currency r)
        | None => (None, s)
        end
      else
        let api_rate := _fetch_rate_from_api e from_currency to_currency in
        if truthy_opt api_rate then
          match api_rate with
          | Some r =>
              let s1 := _save_rate_to_db e s from_currency to_currency r in
              (api_rate, _cache_rate e s1 from_currency to_currency r)
          | None => (None, s)
          end
        else
          let inverse_rate := _get_inverse_rate s from_currency to_currency in
          if truthy_opt inverse_rate then (inverse_rate, s)
          else (None, s).

Definition _get_currency_decimal_places (s : state) (currency_code : string) : Z :=
  match currencies s !! currency_code with
  | Some c => Currency.decimal_places c
  | None => 2
  end.

(** [ConversionLog.objects.create(...)].  The two amounts go to
    [DecimalField(15, 2)] columns and the rate to a [DecimalField(15, 6)]
    column: the row holds them with two and six places.  The source wraps
    the insert in a handler that logs and drops any exception; the insert
    here always succeeds. *)
Definition _log_conversion (s : state) (from_currency to_currency : string)
    (original_amount converted_amount exchange_rate : Decimal.t)
    (context : string) (user_id : option string) : state :=
  set_conversion_logs s
    (conversion_logs s ++
       [ConversionLog.mk from_currency to_currency
          (DecimalField.stored 2 original_amount)
          (DecimalField.stored 2 converted_amount)
          (DecimalField.stored 6 exchange_rate) "api"
          (match user_id with Some u => u | None => "" end)
          context]).

(** The exponent of [Decimal('0.' + '0' * decimal_places)]. *)
Definition quantum_exp (decimal_places : Z) : Z := - Z.max 0 decimal_places.

Definition convert_amount (e : env) (s : state) (amount : Decimal.t)
    (from_currency to_currency : string)
    (context : string) (user_id : option string)
  : result Decimal.t * state :=
  if String.eqb from_currency to_currency then (Ok amount, s)
  else
    let '(rate, s1) := get_exchange_rate e s from_currency to_currency in
    match rate with
    | Some r =>
        if negb (Decimal.truthy r)
        then (Raise (ValueError ("No se pudo obtener la tasa de cambio de "
                                  +:+ from_currency +:+ " a " +:+ to_currency)), s1)
        else
          let converted_amount := Decimal.mul amount r in
          let decimal_places := _get_currency_decimal_places s1 to_currency in
          match Decimal.quantize_half_up converted_amount
                  (quantum_exp decimal_places) with
          | None => (Raise InvalidOperation, s1)
          | Some converted =>
              (Ok converted,
               _log_conversion s1 from_currency to_currency amount converted r
                 context user_id)
          end
    | None =>
        (Raise (ValueError ("No se pudo obtener la tasa de cambio de "
                             +:+ from_currency +:+ " a " +:+ to_currency)), s1)
    end.

End CurrencyService.

(* --------------------------------------------------------------------- *)
(** ** accounts/models.py *)

Module AccountType.
Record t : Type := mk {
  name : string;
  code : string;
  allows_negative_balance : bool;
  is_credit_account : bool
}.
End AccountType.

Module Account.
Record t : Type := mk {
  id : Z;
  user : Z;
  account_type : AccountType.t;
  name : string;
  currency : string;
  balance : Decimal.t;
  credit_limit : option Decimal.t;
  is_active : bool;
  include_in_total : bool
}.

Definition set_balance (a : t) (b : Decimal.t) : t :=
  mk (id a) (user a) (account_type a) (name a) (currency a) b
     (credit_limit a) (is_active a) (include_in_total a).

(** [Account.clean]: the model's own statement of the balance invariant. *)
Definition clean (a : t) : result unit :=
  if Decimal.ltb (balance a) (Decimal.of_int 0)
     && negb (AccountType.allows_negative_balance (account_type a))
  then Raise (ValidationError
                ("El tipo de cuenta " +:+ AccountType.name (account_type a)
                 +:+ " no permite balance negativo"))
  else Ok tt.
End Account.

Module TxType.
Inductive t : Type := income | expense | transfer.
Definition eqb (a b : t) : bool :=
  match a, b with
  | income, income | expense, expense | transfer, transfer => true
  | _, _ => false
  end.
End TxType.

Module Category.
Record t : Type := mk {
  id : Z;
  user : Z;
  name : string;
  transaction_type : TxType.t;
  description : string;
  color : string
}.
End Category.

(* --------------------------------------------------------------------- *)
(** ** transactions/models.py *)

Module Origin.
Inductive t : Type :=
  manual | card | auto_debit | installment | transfer | import.
Definition eqb (a b : t) : bool :=
  match a, b with
  | manual, manual | card, card | auto_debit, auto_debit
  | installment, installment | transfer, transfer | import, import => true
  | _, _ => false
  end.
End Origin.

Module Transaction.
(** A row of the [transactions] table; foreign keys are primary keys. *)
Record t : Type := mk {
  id : Z;
  user : Z;
  account : Z;
  category : Z;
  date : Dates.datetime;
  amount : Decimal.t;
  currency : string;
  transaction_type : TxType.t;
  description : string;
  target_account : option Z;
  origin : Origin.t;
  reference_number : string;
  location : string;
  tags : list string;
  metadata : list (string * string);
  card_purchase : option Z;
  auto_debit : option Z;
  is_confirmed : bool;
  is_recurring : bool
}.

Definition set_is_confirmed (x : t) (b : bool) : t :=
  mk (id x) (user x) (account x) (category x) (date x) (amount x)
     (currency x) (transaction_type x) (description x) (target_account x)
     (origin x) (reference_number x) (location x) (tags x) (metadata x)
     (card_purchase x) (auto_debit x) b (is_recurring x).

Definition set_amount (x : t) (a : Decimal.t) : t :=
  mk (id x) (user x) (account x) (category x) (date x) a
     (currency x) (transaction_type x) (description x) (target_account x)
     (origin x) (reference_number x) (location x) (tags x) (metadata x)
     (card_purchase x) (auto_debit x) (is_confirmed x) (is_recurring x).

(** The row an instance is written as: [amount] is a
    [DecimalField(15, 2)] and the row holds it with two places. *)
Definition as_stored (x : t) : t :=
  set_amount x (DecimalField.stored 2 (amount x)).
Arguments as_stored : simpl never.
End Transaction.

Module PurchaseStatus.
Inductive t : Type := active | completed | cancelled.
Definition eqb (a b : t) : bool :=
  match a, b with
  | active, active | completed, completed | cancelled, cancelled => true
  | _, _ => false
  end.
End PurchaseStatus.

Module CardPurchase.
Record t : Type := mk {
  id : Z;
  user : Z;
  account : Z;
  original_transaction : Z;
  total_amount : Decimal.t;
  currency : string;
  total_installments : Z;
  installment_amount : Decimal.t;
  interest_rate : Decimal.t;
  total_with_interest : Decimal.t;
  first_installment_date : Dates.date;
  purchase_date : Dates.date;
  current_installment : Z;
  status : PurchaseStatus.t;
  description : string
}.

(** The row an instance is written as: the three amounts and the
    interest rate are decimal columns of two places. *)
Definition as_stored (x : t) : t :=
  mk (id x) (user x) (account x) (original_transaction x)
     (DecimalField.stored 2 (total_amount x)) (currency x)
     (total_installments x)
     (DecimalField.stored 2 (installment_amount x))
     (DecimalField.stored 2 (interest_rate x))
     (DecimalField.stored 2 (total_with_interest x))
     (first_installment_date x) (purchase_date x) (current_installment x)
     (status x) (description x).
Arguments as_stored : simpl never.
End CardPurchase.

Module Frequency.
Inductive t : Type := daily | weekly | biweekly | monthly | quarterly | yearly.
Definition eqb (a b : t) : bool :=
  match a, b with
  | daily, daily | weekly, weekly | biweekly, biweekly
  | monthly, monthly | quarterly, quarterly | yearly, yearly => true
  | _, _ => false
  end.
End Frequency.

Module DebitStatus.
Inductive t : Type := active | paused | cancelled.
Definition eqb (a b : t) : bool :=
  match a, b with
  | active, active | paused, paused | cancelled, cancelled => true
  | _, _ => false
  end.
End DebitStatus.

Module AutoDebit.
Record t : Type := mk {
  id : Z;
  user : Z;
  account : Z;
  category : Z;
  name : string;
  description : string;
  amount : Decimal.t;
  currency : string;
  frequency : Frequency.t;
  start_date : Dates.date;
  end_date : option Dates.date;
  next_execution : Dates.date;
  last_execution : option Dates.date;
  status : DebitStatus.t;
  execution_count : Z;
  failed_attempts : Z;
  day_of_month : option Z
}.

Definition set_failed_attempts (a : t) (n : Z) : t :=
  mk (id a) (user a) (account a) (category a) (name a) (description a)
     (amount a) (currency a) (frequency a) (start_date a) (end_date a)
     (next_execution a) (last_execution a) (status a) (execution_count a)
     n (day_of_month a).

Definition set_last_execution (a : t) (d : option Dates.date) : t :=
  mk (id a) (user a) (account a) (category a) (name a) (description a)
     (amount a) (currency a) (frequency a) (start_date a) (end_date a)
     (next_execution a) d (status a) (execution_count a)
     (failed_attempts a) (day_of_month a).

Definition set_execution_count (a : t) (n : Z) : t :=
  mk (id a) (user a) (account a) (category a) (name a) (description a)
     (amount a) (currency a) (frequency a) (start_date a) (end_date a)
     (next_execution a) (last_execution a) (status a) n
     (failed_attempts a) (day_of_month a).

Definition set_next_execution (a : t) (d : Dates.date) : t :=
  mk (id a) (user a) (account a) (category a) (name a) (description a)
     (amount a) (currency a) (frequency a) (start_date a) (end_date a)
     d (last_execution a) (status a) (execution_count a)
     (failed_attempts a) (day_of_month a).

(** [AutoDebit.calculate_next_execution]; the exceptions in reach are
    those of a date past the end of the calendar and the [ValueError] of
    [date.replace]. *)
Definition calculate_next_execution (a : t) : result Dates.date :=
  match last_execution a with
  | None => Ok (start_date a)
  | Some last =>
      match frequency a with
      | Frequency.daily => DateArith.plus_days last 1
      | Frequency.weekly => DateArith.plus_days last 7
      | Frequency.biweekly => DateArith.plus_days last 14
      | Frequency.monthly =>
          match DateArith.plus_months last 1 with
          | Raise e => Raise e
          | Ok next_date =>
              match day_of_month a with
              | Some dom =>
                  if dom =? 0 then Ok next_date
                  else
                    match Dates.replace_day next_date (Z.min dom 28) with
                    | Some d => Ok d
                    | None => Raise (ValueError "day is out of range for month")
                    end
              | None => Ok next_date
              end
          end
      | Frequency.quarterly => DateArith.plus_months last 3
      | Frequency.yearly => DateArith.plus_years last 1
      end
  end.

(** [AutoDebit.can_execute], with [today = timezone.now().date()]. *)
Definition can_execute (a : t) (today : Dates.date) : bool :=
  DebitStatus.eqb (status a) DebitStatus.active
  && Dates.date_leb (next_execution a) today
  && match end_date a with
     | None => true
     | Some e => Dates.date_leb today e
     end.
End AutoDebit.

(* --------------------------------------------------------------------- *)
(** ** The database

    One table per model.  The decimal columns of transactions, card
    purchases, exchange rates and conversion logs hold their values with
    the places of the column ([DecimalField.stored]); what a column does
    with a value of more digits than it has is not represented, and the
    properties below say nothing of such values. *)

Record db : Type := mk_db {
  accounts : gmap Z Account.t;
  categories : list Category.t;
  transactions : list Transaction.t;
  card_purchases : list CardPurchase.t;
  auto_debits : list AutoDebit.t;
  next_id : Z           (** the source of fresh primary keys ([uuid4]) *)
}.

Definition set_accounts (d : db) (a : gmap Z Account.t) : db :=
  mk_db a (categories d) (transactions d) (card_purchases d) (auto_debits d)
        (next_id d).
Definition set_categories (d : db) (c : list Category.t) : db :=
  mk_db (accounts d) c (transactions d) (card_purchases d) (auto_debits d)
        (next_id d).
Definition set_transactions (d : db) (t : list Transaction.t) : db :=
  mk_db (accounts d) (categories d) t (card_purchases d) (auto_debits d)
        (next_id d).
Definition set_card_purchases (d : db) (c : list CardPurchase.t) : db :=
  mk_db (accounts d) (categories d) (transactions d) c (auto_debits d)
        (next_id d).
Definition set_auto_debits (d : db) (a : list AutoDebit.t) : db :=
  mk_db (accounts d) (categories d) (transactions d) (card_purchases d) a
        (next_id d).
Definition set_next_id (d : db) (n : Z) : db :=
  mk_db (accounts d) (categories d) (transactions d) (card_purchases d)
        (auto_debits d) n.

(** [@transaction.atomic]: the writes of a body that raised are undone. *)
Definition atomic {A : Type} (body : db -> result A * db) (d : db)
  : result A * db :=
  match body d with
  | (Ok v, d') => (Ok v, d')
  | (Raise e, _) => (Raise e, d)
  end.

(** [account.save(update_fields=['balance'])]: one column of one row. *)
Definition save_balance (a : Account.t) (d : db) : db :=
  set_accounts d
    (alter (fun row => Account.set_balance row (Account.balance a))
           (Account.id a) (accounts d)).

(** [Transaction.objects.create(...)] and [instance.save()].  The
    object in memory keeps the amount it was given; the row holds it with
    the two places of its column. *)
Definition insert_transaction (t : Transaction.t) (d : db) : db :=
  set_transactions d (transactions d ++ [Transaction.as_stored t]).

Definition save_transaction (t : Transaction.t) (d : db) : db :=
  set_transactions d
    (List.map (fun row => if Transaction.id row =? Transaction.id t
                          then Transaction.as_stored t else row)
              (transactions d)).

(** [Category.objects.get_or_create(user, name, transaction_type,
    defaults)], also the [try: get / except DoesNotExist: create] of the
    transfer counterpart. *)
Definition get_or_create_category (user : Z) (name : string)
    (ty : TxType.t) (description color : string) (d : db) : Category.t * db :=
  match List.find (fun c => (Category.user c =? user)
                            && String.eqb (Category.name c) name
                            && TxType.eqb (Category.transaction_type c) ty)
                  (categories d) with
  | Some c => (c, d)
  | None =>
      let c := Category.mk (next_id d) user name ty description color in
      (c, set_next_id (set_categories d (categories d ++ [c])) (next_id d + 1))
  end.

(* --------------------------------------------------------------------- *)
(** ** transactions/serializers.py: [TransactionSerializer] *)

Module TransactionSerializer.

(** The serializer's [validated_data].  Related fields hold the model
    instances the primary keys were resolved to during validation; a field
    that is not required is [None] when the request left it out. *)
Record validated_data : Type := mk_data {
  account : Account.t;
  category : Category.t;
  target_account : option (option Account.t);
  date : option Dates.datetime;
  amount : Decimal.t;
  currency : string;
  transaction_type : TxType.t;
  description : string;
  origin : option Origin.t;
  reference_number : option string;
  location : option string;
  tags : option (list string);
  metadata : option (list (string * string));
  is_confirmed : option bool;
  is_recurring : option bool
}.

(** A [Transaction] instance in memory: its columns and the related
    objects cached on it.  Each account object carries the balance it
    was loaded with. *)
Record instance : Type := mk_instance {
  row : Transaction.t;
  account_obj : Account.t;
  target_account_obj : option Account.t
}.

Definition validate (request_user : Z) (data : validated_data)
  : result validated_data :=
  if negb (Account.user (account data) =? request_user)
  then Raise (ValidationError "La cuenta debe pertenecerte")
  else if negb (Category.user (category data) =? request_user)
  then Raise (ValidationError "La categoría debe pertenecerte")
  else
    let transfer_check :=
      if TxType.eqb (transaction_type data) TxType.transfer then
        match target_account data with
        | Some (Some target) =>
            if negb (Account.user target =? request_user)
            then Raise (ValidationError "La cuenta destino debe pertenecerte")
            else if Account.id target =? Account.id (account data)
            then Raise (ValidationError "No se puede transferir a la misma cuenta")
            else Ok tt
        | _ => Raise (ValidationError
                        "Las transferencias requieren una cuenta destino")
        end
      else Ok tt in
    match transfer_check with
    | Raise e => Raise e
    | Ok _ =>
        if (TxType.eqb (transaction_type data) TxType.income
            || TxType.eqb (transaction_type data) TxType.expense)
           && negb (TxType.eqb (Category.transaction_type (category data))
                               (transaction_type data))
        then Raise (ValidationError
                      ("La categoría debe ser de tipo "
                       +:+ match transaction_type data with
                           | TxType.income => "income"
                           | TxType.expense => "expense"
                           | TxType.transfer => "transfer"
                           end))
        else Ok data
    end.

Definition set_account_obj (i : instance) (a : Account.t) : instance :=
  mk_instance (row i) a (target_account_obj i).
Definition set_target_account_obj (i : instance) (a : option Account.t)
  : instance :=
  mk_instance (row i) (account_obj i) a.

Definition _update_account_balance (transaction_obj : instance)
    (operation : string) (d : db) : instance * db :=
  let account := account_obj transaction_obj in
  let amount := Transaction.amount (row transaction_obj) in
  let ty := Transaction.transaction_type (row transaction_obj) in
  let balance :=
    if String.eqb operation "add" then
      match ty with
      | TxType.income => Decimal.add (Account.balance account) amount
      | TxType.expense | TxType.transfer =>
          Decimal.sub (Account.balance account) amount
      end
    else if String.eqb operation "subtract" then
      match ty with
      | TxType.income => Decimal.sub (Account.balance account) amount
      | TxType.expense | TxType.transfer =>
          Decimal.add (Account.balance account) amount
      end
    else Account.balance account in
  let account' := Account.set_balance account balance in
  (set_account_obj transaction_obj account', save_balance account' d).

Definition _create_transfer_counterpart (transaction_obj : instance) (d : db)
  : result instance * db :=
  let src := row transaction_obj in
  let '(transfer_category, d1) :=
    get_or_create_category (Transaction.user src) "Transferencia"
      TxType.income "Transferencias entre cuentas" "#28a745" d in
  match target_account_obj transaction_obj with
  | None => (Raise IntegrityError, d1)
  | Some target =>
      let mirror :=
        Transaction.mk (next_id d1) (Transaction.user src) (Account.id target)
          (Category.id transfer_category) (Transaction.date src)
          (Transaction.amount src) (Transaction.currency src) TxType.income
          ("Transferencia desde " +:+ Account.name (account_obj transaction_obj))
          None Origin.transfer (Transaction.reference_number src) "" []
          [("transfer_source", pretty (Transaction.id src))]
          None None true false in
      let d2 := set_next_id (insert_transaction mirror d1) (next_id d1 + 1) in
      let target' :=
        Account.set_balance target
          (Decimal.add (Account.balance target) (Transaction.amount src)) in
      (Ok (set_target_account_obj transaction_obj (Some target')),
       save_balance target' d2)
  end.

(** [ModelSerializer.create]: the validated fields become a new row,
    with the model defaults for what the request left out. *)
Definition super_create (request_user : Z) (now : Dates.datetime)
    (data : validated_data) (d : db) : instance * db :=
  let target := match target_account data with
                | Some t => t
                | None => None
                end in
  let r :=
    Transaction.mk (next_id d) request_user (Account.id (account data))
      (Category.id (category data))
      (default now (date data)) (amount data) (currency data)
      (transaction_type data) (description data)
      (Account.id <$> target)
      (default Origin.manual (origin data))
      (default "" (reference_number data))
      (default "" (location data))
      (default [] (tags data))
      (default [] (metadata data))
      None None
      (default true (is_confirmed data))
      (default false (is_recurring data)) in
  (mk_instance r (account data) target,
   set_next_id (insert_transaction r d) (next_id d + 1)).

Definition create (request_user : Z) (now : Dates.datetime)
    (data : validated_data) : db -> result instance * db :=
  atomic (fun d =>
    let '(transaction_obj, d1) := super_create request_user now data d in
    let '(transaction_obj, d2) :=
      _update_account_balance transaction_obj "add" d1 in
    if TxType.eqb (Transaction.transaction_type (row transaction_obj))
                  TxType.transfer
    then _create_transfer_counterpart transaction_obj d2
    else (Ok transaction_obj, d2)).

(** [ModelSerializer.update]: [setattr] for every validated field, then
    [instance.save()].  The related objects cached on the instance are
    replaced by the ones validation resolved.  This is the full update; a
    partial one must still carry [account], [category] and
    [transaction_type], which [validate] reads unconditionally. *)
Definition super_update (i : instance) (data : validated_data) (d : db)
  : instance * db :=
  let old := row i in
  let target := match target_account data with
                | Some t => t
                | None => target_account_obj i
                end in
  let r :=
    Transaction.mk (Transaction.id old) (Transaction.user old)
      (Account.id (account data)) (Category.id (category data))
      (default (Transaction.date old) (date data))
      (amount data) (currency data) (transaction_type data)
      (description data)
      (match target_account data with
       | Some t => Account.id <$> t
       | None => Transaction.target_account old
       end)
      (default (Transaction.origin old) (origin data))
      (default (Transaction.reference_number old) (reference_number data))
      (default (Transaction.location old) (location data))
      (default (Transaction.tags old) (tags data))
      (default (Transaction.metadata old) (metadata data))
      (Transaction.card_purchase old) (Transaction.auto_debit old)
      (default (Transaction.is_confirmed old) (is_confirmed data))
      (default (Transaction.is_recurring old) (is_recurring data)) in
  (mk_instance r (account data) target, save_transaction r d).

Definition update (i : instance) (data : validated_data)
  : db -> result instance * db :=
  atomic (fun d =>
    let '(i1, d1) := _update_account_balance i "subtract" d in
    let '(updated_instance, d2) := super_update i1 data d1 in
    let '(updated_instance, d3) :=
      _update_account_balance updated_instance "add" d2 in
    (Ok updated_instance, d3)).

End TransactionSerializer.

(* --------------------------------------------------------------------- *)
(** ** The query string of a request ([DjangoFilterBackend])

    [get_object] of a view set looks the key up in
    [filter_queryset(get_queryset())]: the query parameters of the
    request narrow the rows a detail action can reach.  A parameter
    named in [filterset_fields] is read by the filter of the field's
    type: a related field takes the key of an existing row, a field with
    choices one of its choices, a text field any text (none when empty),
    a boolean field a truth value (none when it reads as neither).  A
    value its filter does not take makes the request a 400; the text of
    that answer, which quotes the value, is not represented. *)

Module Filters.

(** A parameter as its filter reads it: left out or empty, not a value
    of the field's type, or a value. *)
Inductive param (A : Type) : Type :=
| Absent
| Invalid
| Given (a : A).
Arguments Absent {A}.
Arguments Invalid {A}.
Arguments Given {A} a.

(** The form field of the filter accepts the parameter. *)
Definition valid {A : Type} (known : A -> bool) (p : param A) : bool :=
  match p with
  | Absent => true
  | Invalid => false
  | Given a => known a
  end.

(** The row, whose column holds [v], stays in the queryset. *)
Definition keeps {A : Type} (eqb : A -> A -> bool) (p : param A) (v : A)
  : bool :=
  match p with
  | Given a => eqb v a
  | _ => true
  end.

Definition keeps_text (p v : string) : bool :=
  String.eqb p "" || String.eqb v p.

Definition keeps_bool (p : option bool) (v : bool) : bool :=
  match p with
  | Some b => Bool.eqb v b
  | None => true
  end.

(** [ModelChoiceFilter]: the key of a row of the related table. *)
Definition known_account (d : db) (k : Z) : bool :=
  match accounts d !! k with
  | Some _ => true
  | None => false
  end.
Definition known_category (d : db) (k : Z) : bool :=
  List.existsb (fun c => Category.id c =? k) (categories d).

(** [ChoiceFilter]: every value of the enumeration is a choice. *)
Definition any_choice {A : Type} (_ : A) : bool := true.

(** What [filter_queryset] raises for a parameter its form rejects, and
    what [QuerySet.filter] raises for a date it cannot parse. *)
Definition invalid_filter : exn := ValidationError "Select a valid choice.".
Definition invalid_date : exn :=
  ValidationError "value has an invalid format.".

(** [icontains]: the needle occurs in the text, letters A to Z of either
    taken as a to z. *)
Definition lower (c : Ascii.ascii) : Ascii.ascii :=
  let n := Ascii.nat_of_ascii c in
  if ((65 <=? n) && (n <=? 90))%nat then Ascii.ascii_of_nat (n + 32) else c.

Fixpoint lower_all (s : string) : string :=
  match s with
  | EmptyString => EmptyString
  | String c s' => String (lower c) (lower_all s')
  end.

Fixpoint starts_with (needle text : string) : bool :=
  match needle, text with
  | EmptyString, _ => true
  | String _ _, EmptyString => false
  | String a needle', String b text' =>
      Ascii.eqb a b && starts_with needle' text'
  end.

Fixpoint contains (needle text : string) : bool :=
  starts_with needle text
  || match text with
     | EmptyString => false
     | String _ text' => contains needle text'
     end.

Definition icontains (text needle : string) : bool :=
  contains (lower_all needle) (lower_all text).

End Filters.

(* --------------------------------------------------------------------- *)
(** ** transactions/views.py: [TransactionViewSet.confirm] *)

Module TransactionViewSet.

(** The query parameters the view set reads: [date_from], [date_to] and
    [search] in [get_queryset], and one per entry of
    [filterset_fields]. *)
Record query : Type := mk_query {
  date_from : Filters.param Dates.datetime;
  date_to : Filters.param Dates.datetime;
  search : string;
  account : Filters.param Z;
  category : Filters.param Z;
  transaction_type : Filters.param TxType.t;
  currency : string;
  origin : Filters.param Origin.t;
  is_confirmed : option bool
}.

(** A request without query parameters. *)
Definition no_query : query :=
  mk_query Filters.Absent Filters.Absent "" Filters.Absent Filters.Absent
    Filters.Absent "" Filters.Absent None.

Definition in_window (q : query) (t : Transaction.t) : bool :=
  match date_from q with
  | Filters.Given dt => Dates.datetime_leb dt (Transaction.date t)
  | _ => true
  end
  && match date_to q with
     | Filters.Given dt => Dates.datetime_leb (Transaction.date t) dt
     | _ => true
     end.

Definition found_by_search (q : query) (t : Transaction.t) : bool :=
  String.eqb (search q) ""
  || Filters.icontains (Transaction.description t) (search q)
  || Filters.icontains (Transaction.reference_number t) (search q)
  || Filters.icontains (Transaction.location t) (search q).

(** [get_queryset]: the caller's own rows, from [date_from] to [date_to]
    and matching [search] where the request gives them. *)
Definition get_queryset (q : query) (request_user : Z) (d : db)
  : result (list Transaction.t) :=
  let queryset :=
    List.filter (fun t => Transaction.user t =? request_user)
      (transactions d) in
  match date_from q, date_to q with
  | Filters.Invalid, _ | _, Filters.Invalid => Raise Filters.invalid_date
  | _, _ =>
      Ok (List.filter (found_by_search q)
            (List.filter (in_window q) queryset))
  end.

Definition filterset_valid (q : query) (d : db) : bool :=
  Filters.valid (Filters.known_account d) (account q)
  && Filters.valid (Filters.known_category d) (category q)
  && Filters.valid Filters.any_choice (transaction_type q)
  && Filters.valid Filters.any_choice (origin q).

Definition filterset_keeps (q : query) (t : Transaction.t) : bool :=
  Filters.keeps Z.eqb (account q) (Transaction.account t)
  && Filters.keeps Z.eqb (category q) (Transaction.category t)
  && Filters.keeps TxType.eqb (transaction_type q)
       (Transaction.transaction_type t)
  && Filters.keeps_text (currency q) (Transaction.currency t)
  && Filters.keeps Origin.eqb (origin q) (Transaction.origin t)
  && Filters.keeps_bool (is_confirmed q) (Transaction.is_confirmed t).

(** [filter_queryset]: the filterset of [filterset_fields]. *)
Definition filter_queryset (q : query) (d : db)
    (queryset : list Transaction.t) : result (list Transaction.t) :=
  if filterset_valid q d
  then Ok (List.filter (filterset_keeps q) queryset)
  else Raise Filters.invalid_filter.

(** [get_object()]: the row with that primary key among
    [filter_queryset(get_queryset())], or a 404. *)
Definition get_object_with (q : query) (request_user pk : Z) (d : db)
  : result Transaction.t :=
  match get_queryset q request_user d with
  | Raise e => Raise e
  | Ok queryset =>
      match filter_queryset q d queryset with
      | Raise e => Raise e
      | Ok queryset =>
          match List.find (fun t => Transaction.id t =? pk) queryset with
          | Some t => Ok t
          | None => Raise Http404
          end
      end
  end.

Definition confirm_with (q : query) (request_user pk : Z) (d : db)
  : result Transaction.t * db :=
  match get_object_with q request_user pk d with
  | Raise e => (Raise e, d)
  | Ok transaction =>
      let transaction := Transaction.set_is_confirmed transaction true in
      (Ok transaction,
       set_transactions d
         (List.map (fun r => if Transaction.id r =? Transaction.id transaction
                             then Transaction.set_is_confirmed r true else r)
                   (transactions d)))
  end.

(** The lookup and the action for a request without query parameters. *)
Definition get_object : Z -> Z -> db -> result Transaction.t :=
  get_object_with no_query.

Definition confirm : Z -> Z -> db -> result Transaction.t * db :=
  confirm_with no_query.

(** The rows a request can reach, and the requests the lookup takes. *)
Definition reaches (q : query) (request_user : Z) (t : Transaction.t)
  : bool :=
  (Transaction.user t =? request_user)
  && in_window q t && found_by_search q t && filterset_keeps q t.

Definition well_formed (q : query) (d : db) : bool :=
  Filters.valid (fun _ => true) (date_from q)
  && Filters.valid (fun _ => true) (date_to q)
  && filterset_valid q d.

End TransactionViewSet.

(* --------------------------------------------------------------------- *)
(** ** transactions/serializers.py: [CardPurchaseSerializer] *)

Module CardPurchaseSerializer.

Record validated_data : Type := mk_data {
  account : Account.t;
  total_amount : Decimal.t;
  currency : string;
  total_installments : Z;
  interest_rate : option Decimal.t;
  first_installment_date : Dates.date;
  purchase_date : Dates.date;
  status : option PurchaseStatus.t;
  description : string
}.

(** The field validators of [CardPurchase.total_installments]
    ([MinValueValidator(2)], [MaxValueValidator(60)]) followed by the
    serializer's own [validate]. *)
Definition validate (request_user : Z) (data : validated_data)
  : result validated_data :=
  if total_installments data <? 2
  then Raise (ValidationError "Ensure this value is greater than or equal to 2.")
  else if 60 <? total_installments data
  then Raise (ValidationError "Ensure this value is less than or equal to 60.")
  else if negb (Account.user (account data) =? request_user)
  then Raise (ValidationError "La cuenta debe pertenecerte")
  else if negb (AccountType.is_credit_account (Account.account_type (account data)))
  then Raise (ValidationError "Solo se pueden crear cuotas en cuentas de crédito")
  else if Dates.date_ltb (first_installment_date data) (purchase_date data)
  then Raise (ValidationError
                "La primera cuota no puede ser anterior a la fecha de compra")
  else Ok data.

Definition _get_or_create_credit_category (user : Z) (d : db) : Category.t * db :=
  get_or_create_category user "Compras con Tarjeta" TxType.expense
    "Compras realizadas con tarjeta de crédito" "#dc3545" d.

Definition _get_or_create_installment_category (user : Z) (d : db)
  : Category.t * db :=
  get_or_create_category user "Cuotas de Tarjeta" TxType.expense
    "Cuotas de compras con tarjeta de crédito" "#ffc107" d.

(** The body of [for i in range(total_installments)], [count] iterations
    from index [i]. *)
Fixpoint installment_loop (card_purchase : CardPurchase.t)
    (installment_category : Category.t) (count : nat) (i : Z)
    (current_date : Dates.date) (d : db) : db :=
  match count with
  | O => d
  | S count' =>
      let t :=
        Transaction.mk (next_id d) (CardPurchase.user card_purchase)
          (CardPurchase.account card_purchase)
          (Category.id installment_category)
          (Dates.at_midnight current_date)
          (CardPurchase.installment_amount card_purchase)
          (CardPurchase.currency card_purchase) TxType.expense
          ("Cuota " +:+ pretty (i + 1) +:+ "/"
           +:+ pretty (CardPurchase.total_installments card_purchase)
           +:+ " - " +:+ CardPurchase.description card_purchase)
          None Origin.installment "" "" [] []
          (Some (CardPurchase.id card_purchase)) None false false in
      installment_loop card_purchase installment_category count' (i + 1)
        (Dates.add_months current_date 1)
        (set_next_id (insert_transaction t d) (next_id d + 1))
  end.

Definition _generate_installment_transactions (card_purchase : CardPurchase.t)
    (d : db) : db :=
  let '(installment_category, d1) :=
    _get_or_create_installment_category (CardPurchase.user card_purchase) d in
  installment_loop card_purchase installment_category
    (Z.to_nat (CardPurchase.total_installments card_purchase)) 0
    (CardPurchase.first_installment_date card_purchase) d1.

Section WithPower.

(** [Decimal.__pow__] with an integer exponent.  The library rounds a
    power that does not fit the precision by an algorithm of its own,
    which is not part of the repository: the serializer is embedded over
    whatever the operator computes, and [Decimal.pow] is the operator
    wherever the power fits. *)
Variable decimal_pow : Decimal.t -> Z -> Decimal.t.

(** The amounts computed at the top of [create]. *)
Definition total_with_interest_of (total_amount interest_rate : Decimal.t)
    (installments : Z) : Decimal.t :=
  if Decimal.gtb interest_rate (Decimal.of_int 0) then
    match Decimal.div interest_rate (Decimal.of_int 100) with
    | Some monthly_rate =>
        Decimal.mul total_amount
          (decimal_pow (Decimal.add (Decimal.of_int 1) monthly_rate) installments)
    | None => total_amount
    end
  else total_amount.

Definition create (request_user : Z) (data : validated_data)
  : db -> result CardPurchase.t * db :=
  atomic (fun d =>
    let total_amount := total_amount data in
    let installments := total_installments data in
    let interest_rate := default (Decimal.mk 0 (-2)) (interest_rate data) in
    let total_with_interest :=
      total_with_interest_of total_amount interest_rate installments in
    match Decimal.div total_with_interest (Decimal.of_int installments) with
    | None => (Raise DivisionByZero, d)
    | Some installment_amount =>
        let '(credit_category, d1) :=
          _get_or_create_credit_category request_user d in
        let original_transaction :=
          Transaction.mk (next_id d1) request_user (Account.id (account data))
            (Category.id credit_category)
            (Dates.at_midnight (purchase_date data))
            total_amount (currency data) TxType.expense
            ("Compra en " +:+ pretty installments +:+ " cuotas: "
             +:+ description data)
            None Origin.card "" "" [] [] None None true false in
        let d2 := set_next_id (insert_transaction original_transaction d1)
                    (next_id d1 + 1) in
        let card_purchase :=
          CardPurchase.mk (next_id d2) request_user (Account.id (account data))
            (Transaction.id original_transaction)
            total_amount (currency data) installments installment_amount
            interest_rate total_with_interest
            (first_installment_date data) (purchase_date data)
            0 (default PurchaseStatus.active (status data))
            (description data) in
        let d3 := set_next_id
                    (set_card_purchases d2
                       (card_purchases d2
                          ++ [CardPurchase.as_stored card_purchase]))
                    (next_id d2 + 1) in
        (Ok card_purchase, _generate_installment_transactions card_purchase d3)
    end).

End WithPower.

End CardPurchaseSerializer.

(* --------------------------------------------------------------------- *)
(** ** transactions/services.py: [TransactionService] *)

Module TransactionService.

(** [auto_debit.save(update_fields=['failed_attempts'])] *)
Definition save_failed_attempts (a : AutoDebit.t) (d : db) : db :=
  set_auto_debits d
    (List.map (fun r => if AutoDebit.id r =? AutoDebit.id a
                        then AutoDebit.set_failed_attempts r
                               (AutoDebit.failed_attempts a)
                        else r)
              (auto_debits d)).

(** [auto_debit.save(update_fields=['last_execution', 'execution_count',
    'failed_attempts', 'next_execution'])] *)
Definition save_execution_fields (a : AutoDebit.t) (d : db) : db :=
  set_auto_debits d
    (List.map (fun r => if AutoDebit.id r =? AutoDebit.id a
                        then AutoDebit.set_next_execution
                               (AutoDebit.set_failed_attempts
                                  (AutoDebit.set_execution_count
                                     (AutoDebit.set_last_execution r
                                        (AutoDebit.last_execution a))
                                     (AutoDebit.execution_count a))
                                  (AutoDebit.failed_attempts a))
                               (AutoDebit.next_execution a)
                        else r)
              (auto_debits d)).

(** The [try] block of [execute_auto_debit].  Besides the outcome and the
    tables it returns the [auto_debit] object as the block left it. *)
Definition try_block (now : Dates.datetime) (auto_debit : AutoDebit.t) (d : db)
  : result Transaction.t * AutoDebit.t * db :=
  match accounts d !! AutoDebit.account auto_debit with
  | None => (Raise DoesNotExist, auto_debit, d)
  | Some account =>
      if Decimal.ltb (Account.balance account) (AutoDebit.amount auto_debit)
         && negb (AccountType.allows_negative_balance
                    (Account.account_type account))
      then
        let auto_debit :=
          AutoDebit.set_failed_attempts auto_debit
            (AutoDebit.failed_attempts auto_debit + 1) in
        (Raise (ValueError "Saldo insuficiente para ejecutar el débito"),
         auto_debit, save_failed_attempts auto_debit d)
      else
        let transaction_obj :=
          Transaction.mk (next_id d) (AutoDebit.user auto_debit)
            (AutoDebit.account auto_debit) (AutoDebit.category auto_debit)
            now (AutoDebit.amount auto_debit) (AutoDebit.currency auto_debit)
            TxType.expense
            ("Débito automático: " +:+ AutoDebit.name auto_debit)
            None Origin.auto_debit "" "" [] []
            None (Some (AutoDebit.id auto_debit)) true false in
        let d1 := set_next_id (insert_transaction transaction_obj d)
                    (next_id d + 1) in
        let account :=
          Account.set_balance account
            (Decimal.sub (Account.balance account)
                         (AutoDebit.amount auto_debit)) in
        let d2 := save_balance account d1 in
        let auto_debit :=
          AutoDebit.set_last_execution auto_debit (Some (Dates.dt_date now)) in
        let auto_debit :=
          AutoDebit.set_execution_count auto_debit
            (AutoDebit.execution_count auto_debit + 1) in
        let auto_debit := AutoDebit.set_failed_attempts auto_debit 0 in
        match AutoDebit.calculate_next_execution auto_debit with
        | Raise e => (Raise e, auto_debit, d2)
        | Ok next =>
            let auto_debit := AutoDebit.set_next_execution auto_debit next in
            (Ok transaction_obj, auto_debit, save_execution_fields auto_debit d2)
        end
  end.

(** The method body: the guard, the [try] block and its [except Exception]
    handler. *)
Definition execute_auto_debit_body (now : Dates.datetime)
    (auto_debit : AutoDebit.t) (d : db)
  : result Transaction.t * AutoDebit.t * db :=
  if negb (AutoDebit.can_execute auto_debit (Dates.dt_date now))
  then (Raise (ValueError "El débito no puede ejecutarse"), auto_debit, d)
  else
    match try_block now auto_debit d with
    | (Ok t, auto_debit, d1) => (Ok t, auto_debit, d1)
    | (Raise e, auto_debit, d1) =>
        let auto_debit :=
          AutoDebit.set_failed_attempts auto_debit
            (AutoDebit.failed_attempts auto_debit + 1) in
        (Raise e, auto_debit, save_failed_attempts auto_debit d1)
    end.

(** [@transaction.atomic] around the body: an exception leaves the tables
    as they were; the Python object keeps what was assigned to it. *)
Definition execute_auto_debit (now : Dates.datetime)
    (auto_debit : AutoDebit.t) (d : db)
  : result Transaction.t * AutoDebit.t * db :=
  match execute_auto_debit_body now auto_debit d with
  | (Ok t, auto_debit, d') => (Ok t, auto_debit, d')
  | (Raise e, auto_debit, _) => (Raise e, auto_debit, d)
  end.

Record results : Type := mk_results {
  executed : Z;
  failed : Z;
  errors : list (string * string)    (** [auto_debit] name, [error] text *)
}.

(** The queryset of [execute_pending_debits]. *)
Definition pending_debits (today : Dates.date) (d : db) : list AutoDebit.t :=
  List.filter (fun a => DebitStatus.eqb (AutoDebit.status a) DebitStatus.active
                        && Dates.date_leb (AutoDebit.next_execution a) today)
              (auto_debits d).

(** One iteration of the [for] loop. *)
Definition pending_step (now : Dates.datetime) (acc : results * db)
    (auto_debit : AutoDebit.t) : results * db :=
  let '(res, d) := acc in
  match execute_auto_debit now auto_debit d with
  | (Ok _, _, d') =>
      (mk_results (executed res + 1) (failed res) (errors res), d')
  | (Raise e, _, d') =>
      (mk_results (executed res) (failed res + 1)
         (errors res ++ [(AutoDebit.name auto_debit, exn_str e)]), d')
  end.

Definition execute_pending_debits (now : Dates.datetime) (d : db)
  : results * db :=
  let today := Dates.dt_date now in
  List.fold_left (pending_step now) (pending_debits today d)
    (mk_results 0 0 [], d).

End TransactionService.

(* --------------------------------------------------------------------- *)
(** ** Specification vocabulary *)

(** An account object agrees with its row: it was read from the table and
    the row has not been written since. *)
Definition in_sync (d : db) (a : Account.t) : Prop :=
  accounts d !! Account.id a = Some a.

(** Rows of the [accounts] table sit under their own primary key. *)
Definition keyed_by_id (d : db) : Prop :=
  forall k a, accounts d !! k = Some a -> Account.id a = k.

(** The stored balance of the account with primary key [k]. *)
Definition balance_of (d : db) (k : Z) : option Decimal.t :=
  Account.balance <$> accounts d !! k.

(** [m] is the counterpart row of the transfer [t]: an income on the
    transfer's target account, tagged [transfer], for the same amount and
    currency. *)
Definition mirror_of (t m : Transaction.t) : Prop :=
  Transaction.transaction_type t = TxType.transfer
  /\ Transaction.target_account t = Some (Transaction.account m)
  /\ Transaction.transaction_type m = TxType.income
  /\ Transaction.origin m = Origin.transfer
  /\ Decimal.eqb (Transaction.amount m) (Transaction.amount t) = true
  /\ Transaction.currency m = Transaction.currency t.

(** The frequency rule in the words of the design: daily +1 day, weekly
    +7 days, biweekly +14 days, monthly +1 month (the day set to
    min(anchor, 28) when an anchor is given), quarterly +3 months, yearly
    +1 year, all counted from [last]. *)
Definition frequency_rule (f : Frequency.t) (anchor : option Z)
    (last : Dates.date) : Dates.date :=
  match f with
  | Frequency.daily => Dates.add_days last 1
  | Frequency.weekly => Dates.add_days last 7
  | Frequency.biweekly => Dates.add_days last 14
  | Frequency.monthly =>
      let next := Dates.add_months last 1 in
      match anchor with
      | Some k => Dates.mkdate (Dates.year next) (Dates.month next) (Z.min k 28)
      | None => next
      end
  | Frequency.quarterly => Dates.add_months last 3
  | Frequency.yearly => Dates.add_years last 1
  end.

(** The stored retry counter of the auto-debit with primary key [k]. *)
Definition failed_attempts_of (d : db) (k : Z) : option Z :=
  AutoDebit.failed_attempts
    <$> List.find (fun a => AutoDebit.id a =? k) (auto_debits d).

(** The four sources of a rate for the ordered pair, in the order
    [get_exchange_rate] consults them.  Each holds of a non-zero rate only:
    the service tests every candidate with [if rate:]. *)

(** 1. The cache holds an entry for the pair that has not expired. *)
Definition cache_hit (e : CurrencyService.env) (s : CurrencyService.state)
    (f t : string) (r : Decimal.t) : Prop :=
  exists ce,
    CurrencyService.cache s !! CurrencyService.cache_key f t = Some ce
    /\ Dates.datetime_ltb (CurrencyService.now e)
         (CurrencyService.expires_at ce) = true
    /\ CurrencyService.value ce = r
    /\ Decimal.truthy r = true.

(** 2. [row] is the latest stored rate of the pair dated within the last
    24 hours. *)
Definition recent_rate (e : CurrencyService.env) (s : CurrencyService.state)
    (f t : string) (r : Decimal.t) : Prop :=
  exists row,
    CurrencyService.latest
      (List.filter
         (fun x => CurrencyService.for_pair f t x
                   && Dates.datetime_leb
                        (Dates.minus_24h (CurrencyService.now e))
                        (ExchangeRate.date x))
         (CurrencyService.exchange_rates s)) = Some row
    /\ ExchangeRate.rate row = r
    /\ Decimal.truthy r = true.


(** 4. [r] is the reciprocal of the latest stored rate of the reversed
    pair, which is strictly positive. *)
Definition inverse_rate (s : CurrencyService.state) (f t : string)
    (r : Decimal.t) : Prop :=
  exists row,
    CurrencyService.latest
      (List.filter (CurrencyService.for_pair t f)
         (CurrencyService.exchange_rates s)) = Some row
    /\ Decimal.gtb (ExchangeRate.rate row) (Decimal.of_int 0) = true
    /\ Decimal.div (Decimal.of_int 1) (ExchangeRate.rate row) = Some r
    /\ Decimal.truthy r = true.




(** The data-model invariant of the rate history: at most one rate per
    ordered pair and day. *)
Definition one_rate_per_day (rows : list ExchangeRate.t) : Prop :=
  forall f t day,
    (length (List.filter (CurrencyService.same_day f t day) rows) <= 1)%nat.

(** Months counted from year 0: a calendar month on is one more. *)
Definition month_index (d : Dates.date) : Z :=
  Dates.year d * 12 + Dates.month d.

(** The date of the installment with index [k] (from 0): [k] calendar
    months after the first. *)
Definition installment_date (first : Dates.date) (k : nat) : Dates.date :=
  Nat.iter k (fun d => Dates.add_months d 1) first.

(** What every generated installment row of [purchase] looks like; the
    amount is the purchase's installment amount as the row's column
    holds it. *)
Definition installment_of (purchase : CardPurchase.t) (k : nat)
    (tx : Transaction.t) : Prop :=
  Transaction.transaction_type tx = TxType.expense
  /\ Transaction.origin tx = Origin.installment
  /\ Transaction.is_confirmed tx = false
  /\ Transaction.amount tx
     = DecimalField.stored 2 (CardPurchase.installment_amount purchase)
  /\ Transaction.card_purchase tx = Some (CardPurchase.id purchase)
  /\ Transaction.account tx = CardPurchase.account purchase
  /\ Transaction.date tx
     = Dates.at_midnight
         (installment_date (CardPurchase.first_installment_date purchase) k).

(* --------------------------------------------------------------------- *)
(** ** Sample data, after the fixtures of [conftest.py] *)

Module Sample.

Definition test_user : Z := 1.

Definition bank : AccountType.t :=
  AccountType.mk "Cuenta Bancaria" "bank_account" false false.
Definition credit : AccountType.t :=
  AccountType.mk "Tarjeta de Crédito" "credit_card" true true.

(** [test_account]: a bank account holding 10000.00 ARS. *)
Definition test_account : Account.t :=
  Account.mk 10 test_user bank "Cuenta Test" "ARS" (Decimal.money 1000000)
    None true true.
Definition savings_account : Account.t :=
  Account.mk 11 test_user bank "Caja de Ahorro" "ARS" (Decimal.money 5000)
    None true true.
Definition credit_account : Account.t :=
  Account.mk 12 test_user credit "Tarjeta" "ARS" (Decimal.money 0)
    (Some (Decimal.money 50000000)) true true.

Definition income_cat : Category.t :=
  Category.mk 20 test_user "Sueldo" TxType.income "" "#4caf50".
Definition expense_cat : Category.t :=
  Category.mk 21 test_user "Alimentación" TxType.expense "" "#f44336".

Definition today : Dates.date := Dates.mkdate 2024 1 31.
Definition noon : Dates.datetime := Dates.mkdatetime today 43200.

Definition tables : db :=
  mk_db {[ 10 := test_account; 11 := savings_account; 12 := credit_account ]}
        [income_cat; expense_cat] [] [] [] 100.

(** A request body for the transaction endpoint. *)
Definition request (ty : TxType.t) (category : Category.t) (cents : Z)
    (target : option Account.t) : TransactionSerializer.validated_data :=
  TransactionSerializer.mk_data test_account category
    (match target with Some t => Some (Some t) | None => None end)
    None (Decimal.money cents) "ARS" ty "test" None None None None None
    None None.

(** The tables after a posted transfer of 100.00 from [test_account] to
    [savings_account]: the outgoing row has key 100, its mirror key 102. *)
Definition after_transfer : db :=
  Eval vm_compute in
    (TransactionSerializer.create test_user noon
       (request TxType.transfer expense_cat 10000 (Some savings_account))
       tables).2.

(** The outgoing transfer as [get_object] loads it from [after_transfer],
    with its related accounts. *)
Definition posted_transfer : TransactionSerializer.instance :=
  TransactionSerializer.mk_instance
    (Transaction.mk 100 test_user 10 21 noon (Decimal.money 10000) "ARS"
       TxType.transfer "test" (Some 11) Origin.manual "" "" [] []
       None None true false)
    (Account.set_balance test_account (Decimal.money 990000))
    (Some (Account.set_balance savings_account (Decimal.money 15000))).

Definition posted_mirror : Transaction.t :=
  Transaction.mk 102 test_user 11 101 noon (Decimal.money 10000) "ARS"
    TxType.income "Transferencia desde Cuenta Test" None Origin.transfer
    "" "" [] [("transfer_source", "100")] None None true false.

(** A full update of that transfer that only changes the amount, to
    250.00; the related objects are resolved against [after_transfer]. *)
Definition amount_change : TransactionSerializer.validated_data :=
  TransactionSerializer.mk_data
    (Account.set_balance test_account (Decimal.money 990000)) expense_cat
    (Some (Some (Account.set_balance savings_account (Decimal.money 15000))))
    None (Decimal.money 25000) "ARS" TxType.transfer "test" None None None
    None None None None.

(** The tables with one generated, unconfirmed installment of 100.00 on
    the credit card. *)
Definition pending_installment : Transaction.t :=
  Transaction.mk 50 test_user 12 21 (Dates.at_midnight today)
    (Decimal.money 10000) "ARS" TxType.expense "Cuota 1/12 - test" None
    Origin.installment "" "" [] [] (Some 40) None false false.

Definition with_installment : db :=
  set_transactions tables [pending_installment].

(** Three active auto-debits that the batch of 2024-01-31 selects:
    [rent_debit] draws 100.00 on the savings account, which holds 50.00;
    [gym_debit] draws 100.00 on [test_account], anchored on day 31;
    [lapsed_debit] ended on 2024-01-20. *)
Definition rent_debit : AutoDebit.t :=
  AutoDebit.mk 60 test_user 11 21 "Alquiler" "" (Decimal.money 10000) "ARS"
    Frequency.monthly (Dates.mkdate 2024 1 1) None today None
    DebitStatus.active 0 0 None.
Definition gym_debit : AutoDebit.t :=
  AutoDebit.mk 61 test_user 10 21 "Gimnasio" "" (Decimal.money 10000) "ARS"
    Frequency.monthly (Dates.mkdate 2023 12 31) None today
    (Some (Dates.mkdate 2023 12 31)) DebitStatus.active 1 0 (Some 31).
Definition lapsed_debit : AutoDebit.t :=
  AutoDebit.mk 62 test_user 10 21 "Revista" "" (Decimal.money 10000) "ARS"
    Frequency.weekly (Dates.mkdate 2023 12 1) (Some (Dates.mkdate 2024 1 20))
    (Dates.mkdate 2024 1 15) (Some (Dates.mkdate 2024 1 8))
    DebitStatus.active 5 0 None.

Definition with_debits : db :=
  set_auto_debits tables [rent_debit; gym_debit; lapsed_debit].

(** The currency fixtures: ARS and USD, and the two stored rates. *)
Definition ars : Currency.t := Currency.mk "ARS" "Peso Argentino" "$" 2 true true.
Definition usd : Currency.t := Currency.mk "USD" "Dólar" "US$" 2 true false.

Definition usd_ars : ExchangeRate.t :=
  ExchangeRate.mk "USD" "ARS" (Decimal.mk 85000 (-2)) noon "test" "".
Definition ars_usd : ExchangeRate.t :=
  ExchangeRate.mk "ARS" "USD" (Decimal.mk 1176 (-6)) noon "test" "".

(** A provider that never answers, behind a configured key. *)
Definition offline : CurrencyService.env :=
  CurrencyService.mk_env noon 900 "test-key" (fun _ _ => CurrencyService.NoQuote).

Definition empty_store : CurrencyService.state :=
  CurrencyService.mk_state ∅ [] [] ∅.
Definition store : CurrencyService.state :=
  CurrencyService.mk_state {[ "ARS" := ars; "USD" := usd ]}
    [usd_ars; ars_usd] [] ∅.

(** A purchase of 1200.00 in 12 installments without interest, made on
    2024-01-31 on the credit card, first installment on 2024-02-29. *)
Definition purchase_request : CardPurchaseSerializer.validated_data :=
  CardPurchaseSerializer.mk_data credit_account (Decimal.money 120000) "ARS"
    12 (Some (Decimal.mk 0 (-2))) (Dates.mkdate 2024 2 29) today None "TV".

End Sample.

(* --------------------------------------------------------------------- *)
(** ** The rest of the serializers, views and services

    The functions around the ones above: the auto-debit serializer and
    its view actions, the bulk endpoint, installment payment and early
    payoff, and the rate refresh job. *)

(** What a view answers with: a body, or a 400 with its error text. *)
Inductive response (A : Type) : Type :=
| Http200 (body : A)
| Http400 (error : string).
Arguments Http200 {A} body.
Arguments Http400 {A} error.

(* --------------------------------------------------------------------- *)
(** *** transactions/serializers.py: [AutoDebitSerializer] *)

Module AutoDebitSerializer.

Record validated_data : Type := mk_data {
  account : Account.t;
  category : Category.t;
  name : string;
  description : option string;
  amount : Decimal.t;
  currency : string;
  frequency : Frequency.t;
  start_date : Dates.date;
  end_date : option Dates.date;
  status : option DebitStatus.t;
  day_of_month : option Z
}.

(** The field validators of [AutoDebit.day_of_month]
    ([MinValueValidator(1)], [MaxValueValidator(31)]) followed by the
    serializer's own [validate]. *)
Definition validate (request_user : Z) (data : validated_data)
  : result validated_data :=
  let field_check :=
    match day_of_month data with
    | Some k =>
        if k <? 1
        then Raise (ValidationError
                      "Ensure this value is greater than or equal to 1.")
        else if 31 <? k
        then Raise (ValidationError
                      "Ensure this value is less than or equal to 31.")
        else Ok tt
    | None => Ok tt
    end in
  match field_check with
  | Raise e => Raise e
  | Ok _ =>
      if negb (Account.user (account data) =? request_user)
      then Raise (ValidationError "La cuenta debe pertenecerte")
      else if negb (Category.user (category data) =? request_user)
      then Raise (ValidationError "La categoría debe pertenecerte")
      else if negb (TxType.eqb (Category.transaction_type (category data))
                               TxType.expense)
      then Raise (ValidationError "La categoría debe ser de tipo egreso")
      else
        match end_date data with
        | Some e =>
            if Dates.date_leb e (start_date data)
            then Raise (ValidationError
                          "La fecha de fin debe ser posterior al inicio")
            else Ok data
        | None => Ok data
        end
  end.

(** [create]: the owner and [next_execution = start_date] are filled in,
    the read-only columns take their model defaults. *)
Definition create (request_user : Z) (data : validated_data) (d : db)
  : AutoDebit.t * db :=
  let a :=
    AutoDebit.mk (next_id d) request_user (Account.id (account data))
      (Category.id (category data)) (name data)
      (default "" (description data)) (amount data) (currency data)
      (frequency data) (start_date data) (end_date data) (start_date data)
      None (default DebitStatus.active (status data)) 0 0
      (day_of_month data) in
  (a, set_next_id (set_auto_debits d (auto_debits d ++ [a])) (next_id d + 1)).

End AutoDebitSerializer.

(* --------------------------------------------------------------------- *)
(** *** transactions/views.py: [AutoDebitViewSet] *)

Module AutoDebitViewSet.

(** One parameter per entry of [filterset_fields]. *)
Record query : Type := mk_query {
  account : Filters.param Z;
  category : Filters.param Z;
  frequency : Filters.param Frequency.t;
  status : Filters.param DebitStatus.t
}.

Definition no_query : query :=
  mk_query Filters.Absent Filters.Absent Filters.Absent Filters.Absent.

Definition get_queryset (request_user : Z) (d : db) : list AutoDebit.t :=
  List.filter (fun a => AutoDebit.user a =? request_user) (auto_debits d).

Definition filterset_valid (q : query) (d : db) : bool :=
  Filters.valid (Filters.known_account d) (account q)
  && Filters.valid (Filters.known_category d) (category q)
  && Filters.valid Filters.any_choice (frequency q)
  && Filters.valid Filters.any_choice (status q).

Definition filterset_keeps (q : query) (a : AutoDebit.t) : bool :=
  Filters.keeps Z.eqb (account q) (AutoDebit.account a)
  && Filters.keeps Z.eqb (category q) (AutoDebit.category a)
  && Filters.keeps Frequency.eqb (frequency q) (AutoDebit.frequency a)
  && Filters.keeps DebitStatus.eqb (status q) (AutoDebit.status a).

Definition filter_queryset (q : query) (d : db)
    (queryset : list AutoDebit.t) : result (list AutoDebit.t) :=
  if filterset_valid q d
  then Ok (List.filter (filterset_keeps q) queryset)
  else Raise Filters.invalid_filter.

(** [get_object()]: the row with that primary key among
    [filter_queryset(get_queryset())], or a 404. *)
Definition get_object (q : query) (request_user pk : Z) (d : db)
  : result AutoDebit.t :=
  match filter_queryset q d (get_queryset request_user d) with
  | Raise e => Raise e
  | Ok queryset =>
      match List.find (fun a => AutoDebit.id a =? pk) queryset with
      | Some a => Ok a
      | None => Raise Http404
      end
  end.

Definition with_status (a : AutoDebit.t) (s : DebitStatus.t) : AutoDebit.t :=
  AutoDebit.mk (AutoDebit.id a) (AutoDebit.user a) (AutoDebit.account a)
    (AutoDebit.category a) (AutoDebit.name a) (AutoDebit.description a)
    (AutoDebit.amount a) (AutoDebit.currency a) (AutoDebit.frequency a)
    (AutoDebit.start_date a) (AutoDebit.end_date a)
    (AutoDebit.next_execution a) (AutoDebit.last_execution a) s
    (AutoDebit.execution_count a) (AutoDebit.failed_attempts a)
    (AutoDebit.day_of_month a).

(** [auto_debit.save(update_fields=['status'])] *)
Definition save_status (a : AutoDebit.t) (d : db) : db :=
  set_auto_debits d
    (List.map (fun r => if AutoDebit.id r =? AutoDebit.id a
                        then with_status r (AutoDebit.status a) else r)
              (auto_debits d)).

Definition set_status_action (s : DebitStatus.t) (q : query)
    (request_user pk : Z) (d : db) : result AutoDebit.t * db :=
  match get_object q request_user pk d with
  | Raise e => (Raise e, d)
  | Ok auto_debit =>
      let auto_debit := with_status auto_debit s in
      (Ok auto_debit, save_status auto_debit d)
  end.

Definition pause : query -> Z -> Z -> db -> result AutoDebit.t * db :=
  set_status_action DebitStatus.paused.

Definition resume : query -> Z -> Z -> db -> result AutoDebit.t * db :=
  set_status_action DebitStatus.active.

(** The [execute] action: the view's own guard, then the service, whose
    exceptions become a 400. *)
Definition execute (now : Dates.datetime) (q : query) (request_user pk : Z)
    (d : db) : result (response Transaction.t) * db :=
  match get_object q request_user pk d with
  | Raise e => (Raise e, d)
  | Ok auto_debit =>
      if negb (AutoDebit.can_execute auto_debit (Dates.dt_date now))
      then (Ok (Http400 "El débito no puede ejecutarse en este momento"), d)
      else
        match TransactionService.execute_auto_debit now auto_debit d with
        | (Ok transaction, _, d') => (Ok (Http200 transaction), d')
        | (Raise e, _, d') =>
            (Ok (Http400 ("Error al ejecutar débito: " +:+ exn_str e)), d')
        end
  end.

(** The rows a request can reach. *)
Definition reaches (q : query) (request_user : Z) (a : AutoDebit.t) : bool :=
  (AutoDebit.user a =? request_user) && filterset_keeps q a.

End AutoDebitViewSet.

(* --------------------------------------------------------------------- *)
(** *** transactions/views.py: [TransactionViewSet.bulk_create] *)

Module TransactionBulk.

(** [serializer.save()] of a list serializer: the items are created one
    after the other; an exception stops the run where it is. *)
Fixpoint save_all (request_user : Z) (now : Dates.datetime)
    (items : list TransactionSerializer.validated_data) (d : db)
  : result (list TransactionSerializer.instance) * db :=
  match items with
  | [] => (Ok [], d)
  | item :: rest =>
      match TransactionSerializer.create request_user now item d with
      | (Raise e, d1) => (Raise e, d1)
      | (Ok i, d1) =>
          match save_all request_user now rest d1 with
          | (Raise e, d2) => (Raise e, d2)
          | (Ok created, d2) => (Ok (i :: created), d2)
          end
      end
  end.

(** [bulk_create]: every item is validated (and its related objects are
    resolved) before the first one is created; one invalid item answers
    400 with the per-item outcomes ([inl]) and creates nothing, otherwise
    the created instances come back ([inr]).  [items] are the request's
    entries as validation resolved them. *)
Definition bulk_create (request_user : Z) (now : Dates.datetime)
    (items : list TransactionSerializer.validated_data) (d : db)
  : result (list (result TransactionSerializer.validated_data)
            + list TransactionSerializer.instance) * db :=
  if List.forallb
       (fun item => is_ok (TransactionSerializer.validate request_user item))
       items
  then
    match save_all request_user now items d with
    | (Ok created, d') => (Ok (inr created), d')
    | (Raise e, d') => (Raise e, d')
    end
  else
    (Ok (inl (List.map (TransactionSerializer.validate request_user) items)), d).

End TransactionBulk.

(* --------------------------------------------------------------------- *)
(** *** transactions/models.py: the derived columns of [CardPurchase];
        transactions/services.py: [process_installment_payment] *)

Module Installments.

Definition remaining_installments (p : CardPurchase.t) : Z :=
  CardPurchase.total_installments p - CardPurchase.current_installment p.

Definition remaining_amount (p : CardPurchase.t) : Decimal.t :=
  Decimal.mul (CardPurchase.installment_amount p)
    (Decimal.of_int (remaining_installments p)).

Definition is_active (s : PurchaseStatus.t) : bool :=
  match s with
  | PurchaseStatus.active => true
  | _ => false
  end.

Definition with_progress (p : CardPurchase.t) (current : Z)
    (s : PurchaseStatus.t) : CardPurchase.t :=
  CardPurchase.mk (CardPurchase.id p) (CardPurchase.user p)
    (CardPurchase.account p) (CardPurchase.original_transaction p)
    (CardPurchase.total_amount p) (CardPurchase.currency p)
    (CardPurchase.total_installments p) (CardPurchase.installment_amount p)
    (CardPurchase.interest_rate p) (CardPurchase.total_with_interest p)
    (CardPurchase.first_installment_date p) (CardPurchase.purchase_date p)
    current s (CardPurchase.description p).

(** [queryset.order_by('date').first()]: the earliest row. *)
Fixpoint earliest (rows : list Transaction.t) : option Transaction.t :=
  match rows with
  | [] => None
  | r :: rs =>
      match earliest rs with
      | None => Some r
      | Some r' =>
          if Dates.datetime_ltb (Transaction.date r') (Transaction.date r)
          then Some r' else Some r
      end
  end.

(** The filter of the payment: the purchase's unconfirmed installments. *)
Definition pending (p : CardPurchase.t) (t : Transaction.t) : bool :=
  match Transaction.card_purchase t with
  | Some k => k =? CardPurchase.id p
  | None => false
  end
  && Origin.eqb (Transaction.origin t) Origin.installment
  && negb (Transaction.is_confirmed t).

(** [installment_transaction.save(update_fields=['is_confirmed'])] *)
Definition save_is_confirmed (t : Transaction.t) (d : db) : db :=
  set_transactions d
    (List.map (fun r => if Transaction.id r =? Transaction.id t
                        then Transaction.set_is_confirmed r
                               (Transaction.is_confirmed t)
                        else r)
              (transactions d)).

(** [card_purchase.save(update_fields=['current_installment', 'status'])] *)
Definition save_progress (p : CardPurchase.t) (d : db) : db :=
  set_card_purchases d
    (List.map (fun r => if CardPurchase.id r =? CardPurchase.id p
                        then with_progress r (CardPurchase.current_installment p)
                               (CardPurchase.status p)
                        else r)
              (card_purchases d)).

(** [TransactionService.process_installment_payment].  It answers with
    the confirmed row; the purchase object, which it mutates, is returned
    beside it. *)
Definition process_installment_payment (card_purchase : CardPurchase.t)
    (installment_number : Z)
  : db -> result (Transaction.t * CardPurchase.t) * db :=
  atomic (fun d =>
    if negb (is_active (CardPurchase.status card_purchase))
    then (Raise (ValueError "La compra no está activa"), d)
    else if installment_number <=? CardPurchase.current_installment card_purchase
    then (Raise (ValueError "Esta cuota ya fue pagada"), d)
    else if CardPurchase.total_installments card_purchase <? installment_number
    then (Raise (ValueError "Número de cuota inválido"), d)
    else
      match earliest (List.filter (pending card_purchase) (transactions d)) with
      | None => (Raise (ValueError "No hay cuotas pendientes"), d)
      | Some installment_transaction =>
          let installment_transaction :=
            Transaction.set_is_confirmed installment_transaction true in
          let d1 := save_is_confirmed installment_transaction d in
          let card_purchase :=
            with_progress card_purchase installment_number
              (if installment_number
                  =? CardPurchase.total_installments card_purchase
               then PurchaseStatus.completed
               else CardPurchase.status card_purchase) in
          (Ok (installment_transaction, card_purchase),
           save_progress card_purchase d1)
      end).

End Installments.

(* --------------------------------------------------------------------- *)
(** *** transactions/views.py: [CardPurchaseViewSet.pay_early] *)

Module CardPurchaseViewSet.

(** One parameter per entry of [filterset_fields]. *)
Record query : Type := mk_query {
  account : Filters.param Z;
  status : Filters.param PurchaseStatus.t;
  currency : string
}.

Definition no_query : query := mk_query Filters.Absent Filters.Absent "".

Definition get_queryset (request_user : Z) (d : db) : list CardPurchase.t :=
  List.filter (fun p => CardPurchase.user p =? request_user)
    (card_purchases d).

Definition filterset_valid (q : query) (d : db) : bool :=
  Filters.valid (Filters.known_account d) (account q)
  && Filters.valid Filters.any_choice (status q).

Definition filterset_keeps (q : query) (p : CardPurchase.t) : bool :=
  Filters.keeps Z.eqb (account q) (CardPurchase.account p)
  && Filters.keeps PurchaseStatus.eqb (status q) (CardPurchase.status p)
  && Filters.keeps_text (currency q) (CardPurchase.currency p).

Definition filter_queryset (q : query) (d : db)
    (queryset : list CardPurchase.t) : result (list CardPurchase.t) :=
  if filterset_valid q d
  then Ok (List.filter (filterset_keeps q) queryset)
  else Raise Filters.invalid_filter.

(** [get_object()]: the row with that primary key among
    [filter_queryset(get_queryset())], or a 404. *)
Definition get_object (q : query) (request_user pk : Z) (d : db)
  : result CardPurchase.t :=
  match filter_queryset q d (get_queryset request_user d) with
  | Raise e => Raise e
  | Ok queryset =>
      match List.find (fun p => CardPurchase.id p =? pk) queryset with
      | Some p => Ok p
      | None => Raise Http404
      end
  end.

(** The rows a request can reach. *)
Definition reaches (q : query) (request_user : Z) (p : CardPurchase.t)
  : bool :=
  (CardPurchase.user p =? request_user) && filterset_keeps q p.

Definition mem (k : Z) (ks : list Z) : bool := List.existsb (Z.eqb k) ks.

(** A transaction not yet collected that goes with a purchase whose
    [original_transaction] is collected ([on_delete=CASCADE] twice:
    transaction to purchase, purchase to its transactions). *)
Definition dragged (d : db) (collected : list Z) (t : Transaction.t) : bool :=
  negb (mem (Transaction.id t) collected)
  && match Transaction.card_purchase t with
     | Some k =>
         List.existsb
           (fun p => (CardPurchase.id p =? k)
                     && mem (CardPurchase.original_transaction p) collected)
           (card_purchases d)
     | None => false
     end.

(** The deletion collector: the keys of the rows to delete and of all the
    transactions the cascade drags along. *)
Fixpoint collect (fuel : nat) (d : db) (collected : list Z) : list Z :=
  match fuel with
  | O => collected
  | S fuel' =>
      match List.filter (dragged d collected) (transactions d) with
      | [] => collected
      | more => collect fuel' d (collected ++ List.map Transaction.id more)
      end
  end.

(** [queryset.delete()] on transactions. *)
Definition delete_transactions (doomed : Transaction.t -> bool) (d : db) : db :=
  let collected :=
    collect (length (transactions d)) d
      (List.map Transaction.id (List.filter doomed (transactions d))) in
  set_card_purchases
    (set_transactions d
       (List.filter (fun t => negb (mem (Transaction.id t) collected))
          (transactions d)))
    (List.filter
       (fun p => negb (mem (CardPurchase.original_transaction p) collected))
       (card_purchases d)).

(** [purchase.save()]: every column of the row. *)
Definition save_purchase (p : CardPurchase.t) (d : db) : db :=
  set_card_purchases d
    (List.map (fun r => if CardPurchase.id r =? CardPurchase.id p then p else r)
       (card_purchases d)).

Definition pay_early (q : query) (request_user pk : Z) (d : db)
  : result (response CardPurchase.t) * db :=
  match get_object q request_user pk d with
  | Raise e => (Raise e, d)
  | Ok purchase =>
      if negb (Installments.is_active (CardPurchase.status purchase))
      then (Ok (Http400 "Solo se puede pagar anticipadamente compras activas"),
            d)
      else
        let purchase :=
          Installments.with_progress purchase
            (CardPurchase.total_installments purchase)
            PurchaseStatus.completed in
        let d1 := save_purchase purchase d in
        let d2 :=
          delete_transactions
            (fun t => match Transaction.card_purchase t with
                      | Some k => k =? CardPurchase.id purchase
                      | None => false
                      end
                      && negb (Transaction.is_confirmed t))
            d1 in
        (Ok (Http200 purchase), d2)
  end.

End CardPurchaseViewSet.

(* --------------------------------------------------------------------- *)
(** *** currency/services.py: [refresh_all_rates] *)

Module RateRefresh.

Definition base_currency : string := "ARS".

Fixpoint insert_by_code (c : Currency.t) (l : list Currency.t)
  : list Currency.t :=
  match l with
  | [] => [c]
  | x :: xs =>
      if String.leb (Currency.code c) (Currency.code x) then c :: l
      else x :: insert_by_code c xs
  end.

(** [Currency.objects.filter(is_active=True).order_by('code')] *)
Definition get_supported_currencies (s : CurrencyService.state)
  : list Currency.t :=
  List.fold_right insert_by_code []
    (List.filter Currency.is_active
       (List.map snd (map_to_list (CurrencyService.currencies s)))).

(** One half of the loop body: fetch, and store what came. *)
Definition refresh_pair (e : CurrencyService.env) (f t : string)
    (acc : Z * CurrencyService.state) : Z * CurrencyService.state :=
  let '(updated, s) := acc in
  match CurrencyService._fetch_rate_from_api e f t with
  | Some rate =>
      if Decimal.truthy rate
      then (updated + 1, CurrencyService._save_rate_to_db e s f t rate)
      else (updated, s)
  | None => (updated, s)
  end.

Definition refresh_step (e : CurrencyService.env)
    (acc : Z * CurrencyService.state) (currency : Currency.t)
  : Z * CurrencyService.state :=
  if String.eqb (Currency.code currency) base_currency then acc
  else
    refresh_pair e base_currency (Currency.code currency)
      (refresh_pair e (Currency.code currency) base_currency acc).

(** [refresh_all_rates]: the count of rates stored and the [errors] list,
    which stays empty since both helpers swallow their exceptions. *)
Definition refresh_all_rates (e : CurrencyService.env)
    (s : CurrencyService.state) : (Z * list string) * CurrencyService.state :=
  let '(updated, s') :=
    List.fold_left (refresh_step e) (get_supported_currencies s) (0, s) in
  ((updated, []), s').

End RateRefresh.

(* --------------------------------------------------------------------- *)
(** *** transactions/services.py: [get_balance_projection] *)

Module Projection.

(** The ['type'] tag of an event: ['auto_debit'] or ['installment']. *)
Inductive event_type : Type := auto_debit_event | installment_event.

(** An entry of the [events] list. *)
Record event : Type := mk_event {
  date : Dates.date;
  type : event_type;
  description : string;
  amount : Decimal.t;
  balance : Decimal.t
}.

(** [Decimal.__neg__]: the sign is flipped and the result rounded to the
    context precision. *)
Definition neg (x : Decimal.t) : Decimal.t :=
  Decimal._fix (Decimal.mk (- Decimal.coef x) (Decimal.exp x)).

(** [max(a, b)] on dates. *)
Definition date_max (a b : Dates.date) : Dates.date :=
  if Dates.date_ltb a b then b else a.

(** The [while current_date <= projection_date] loop of one debit.  The
    [break] on [execution_count > 365] bounds it by 366 iterations, which
    is the fuel it is run with. *)
Fixpoint debit_loop (fuel : nat) (debit : AutoDebit.t)
    (projection_date current_date : Dates.date) (execution_count : Z)
    (projected_balance : Decimal.t) (events : list event)
  : result (Decimal.t * list event) :=
  match fuel with
  | O => Ok (projected_balance, events)
  | S fuel' =>
      if Dates.date_leb current_date projection_date then
        let projected_balance :=
          Decimal.sub projected_balance (AutoDebit.amount debit) in
        let events :=
          events ++ [mk_event current_date auto_debit_event (AutoDebit.name debit)
                       (neg (AutoDebit.amount debit)) projected_balance] in
        let execution_count := execution_count + 1 in
        match AutoDebit.calculate_next_execution debit with
        | Raise e => Raise e
        | Ok current_date =>
            if 365 <? execution_count then Ok (projected_balance, events)
            else debit_loop fuel' debit projection_date current_date
                   execution_count projected_balance events
        end
      else Ok (projected_balance, events)
  end.

Definition loop_bound : nat := 366.

(** [for debit in future_debits] *)
Fixpoint debits_loop (today projection_date : Dates.date)
    (debits : list AutoDebit.t) (projected_balance : Decimal.t)
    (events : list event) : result (Decimal.t * list event) :=
  match debits with
  | [] => Ok (projected_balance, events)
  | debit :: rest =>
      let current_date := date_max (AutoDebit.next_execution debit) today in
      match debit_loop loop_bound debit projection_date current_date 0
              projected_balance events with
      | Raise e => Raise e
      | Ok (projected_balance, events) =>
          debits_loop today projection_date rest projected_balance events
      end
  end.

(** [for installment in pending_installments] *)
Fixpoint installments_loop (rows : list Transaction.t)
    (projected_balance : Decimal.t) (events : list event)
  : Decimal.t * list event :=
  match rows with
  | [] => (projected_balance, events)
  | installment :: rest =>
      let projected_balance :=
        Decimal.sub projected_balance (Transaction.amount installment) in
      installments_loop rest projected_balance
        (events ++ [mk_event (Dates.dt_date (Transaction.date installment))
                      installment_event
                      (Transaction.description installment)
                      (neg (Transaction.amount installment))
                      projected_balance])
  end.

(** [order_by('date')] and [events.sort(key=...)]: stable, ascending. *)
Fixpoint insert_row (t : Transaction.t) (l : list Transaction.t)
  : list Transaction.t :=
  match l with
  | [] => [t]
  | x :: xs =>
      if Dates.datetime_ltb (Transaction.date t) (Transaction.date x)
      then t :: l else x :: insert_row t xs
  end.

Definition order_by_date (l : list Transaction.t) : list Transaction.t :=
  List.fold_left (fun acc t => insert_row t acc) l [].

Fixpoint insert_event (ev : event) (l : list event) : list event :=
  match l with
  | [] => [ev]
  | x :: xs =>
      if Dates.date_ltb (date ev) (date x) then ev :: l
      else x :: insert_event ev xs
  end.

Definition sort_events (l : list event) : list event :=
  List.fold_left (fun acc ev => insert_event ev acc) l [].

Definition future_debits (account : Account.t) (projection_date : Dates.date)
    (d : db) : list AutoDebit.t :=
  List.filter
    (fun a => (AutoDebit.account a =? Account.id account)
              && DebitStatus.eqb (AutoDebit.status a) DebitStatus.active
              && Dates.date_leb (AutoDebit.next_execution a) projection_date)
    (auto_debits d).

Definition pending_installments (account : Account.t)
    (projection_date : Dates.date) (d : db) : list Transaction.t :=
  order_by_date
    (List.filter
       (fun t => (Transaction.account t =? Account.id account)
                 && Origin.eqb (Transaction.origin t) Origin.installment
                 && negb (Transaction.is_confirmed t)
                 && Dates.date_leb (Dates.dt_date (Transaction.date t))
                      projection_date)
       (transactions d)).

(** The answer.  The two balances are the decimals the source hands to
    [float]; that conversion is not represented. *)
Record projection : Type := mk_projection {
  current_balance : Decimal.t;
  projected_balance : Decimal.t;
  projection_date : Dates.date;
  events : list event
}.

(** [timedelta(days=days_ahead)]: the constructor takes up to 999999999
    days. *)
Definition timedelta (days : nat) : result nat :=
  if 999999999 <? Z.of_nat days
  then Raise (OverflowError ("days=" +:+ pretty (Z.of_nat days)
                             +:+ "; must have magnitude <= 999999999"))
  else Ok days.

(** [get_balance_projection(account, days_ahead)], for [days_ahead]
    counted as a natural number. *)
Definition get_balance_projection (now : Dates.datetime) (account : Account.t)
    (days_ahead : nat) (d : db) : result projection :=
  let today := Dates.dt_date now in
  let current_balance := Account.balance account in
  match timedelta days_ahead with
  | Raise e => Raise e
  | Ok days =>
      match DateArith.plus_days today days with
      | Raise e => Raise e
      | Ok projection_date =>
          match debits_loop today projection_date
                  (future_debits account projection_date d)
                  current_balance [] with
          | Raise e => Raise e
          | Ok (projected_balance, events) =>
              let '(projected_balance, events) :=
                installments_loop
                  (pending_installments account projection_date d)
                  projected_balance events in
              Ok (mk_projection current_balance projected_balance
                    projection_date (sort_events events))
          end
      end
  end.

End Projection.

(* --------------------------------------------------------------------- *)
(** *** transactions/services.py: [BalanceService.get_user_total_balance] *)

Module BalanceService.





End BalanceService.

(* --------------------------------------------------------------------- *)
(** *** transactions/models.py: [Transaction.clean] *)

Module TransactionModel.

(** What [clean] reads of a transaction: its owner, its type and the
    related objects. *)
Record loaded : Type := mk_loaded {
  user : Z;
  account : Account.t;
  category : Category.t;
  transaction_type : TxType.t;
  target_account : option Account.t
}.

Definition type_name (ty : TxType.t) : string :=
  match ty with
  | TxType.income => "income"
  | TxType.expense => "expense"
  | TxType.transfer => "transfer"
  end.

Definition clean (self : loaded) : result unit :=
  if negb (Account.user (account self) =? user self)
  then Raise (ValidationError "La cuenta debe pertenecer al usuario")
  else if negb (Category.user (category self) =? user self)
  then Raise (ValidationError "La categoría debe pertenecer al usuario")
  else
    let type_check :=
      if TxType.eqb (transaction_type self) TxType.income
         || TxType.eqb (transaction_type self) TxType.expense
      then
        let expected_cat_type :=
          if TxType.eqb (transaction_type self) TxType.income
          then TxType.income else TxType.expense in
        if negb (TxType.eqb (Category.transaction_type (category self))
                            expected_cat_type)
        then Raise (ValidationError
                      ("La categoría debe ser de tipo "
                       +:+ type_name expected_cat_type
                       +:+ " para esta transacción"))
        else Ok tt
      else Ok tt in
    match type_check with
    | Raise e => Raise e
    | Ok _ =>
        if TxType.eqb (transaction_type self) TxType.transfer then
          match target_account self with
          | None =>
              Raise (ValidationError
                       "Las transferencias requieren una cuenta destino")
          | Some target =>
              if negb (Account.user target =? user self)
              then Raise (ValidationError
                            "La cuenta destino debe pertenecer al usuario")
              else if Account.id target =? Account.id (account self)
              then Raise (ValidationError
                            "No se puede transferir a la misma cuenta")
              else Ok tt
          end
        else Ok tt
    end.

(** The transaction that [TransactionSerializer.create] builds from
    validated data for the requesting user, as [clean] sees it. *)
Definition of_data (request_user : Z)
    (data : TransactionSerializer.validated_data) : loaded :=
  mk_loaded request_user (TransactionSerializer.account data)
    (TransactionSerializer.category data)
    (TransactionSerializer.transaction_type data)
    (match TransactionSerializer.target_account data with
     | Some (Some target) => Some target
     | _ => None
     end).

End TransactionModel.

(** How many events the projection emits for [debit]: after the first
    event its loop moves to the date [calculate_next_execution] gives,
    which stays the same while the loop runs; the loop then stops at once
    or runs into its bound. *)
Definition projected_runs (projection_date : Dates.date)
    (debit : AutoDebit.t) : nat :=
  match AutoDebit.calculate_next_execution debit with
  | Ok next =>
      if Dates.date_leb next projection_date then Projection.loop_bound
      else 1%nat
  | Raise _ => 0%nat
  end.


(* --------------------------------------------------------------------- *)
(** *** More sample data *)

Module Sample2.

(** A monthly debit on [test_account] from 2024-02-01 to 2024-12-31. *)
Definition debit_request : AutoDebitSerializer.validated_data :=
  AutoDebitSerializer.mk_data Sample.test_account Sample.expense_cat
    "Internet" None (Decimal.money 10000) "ARS" Frequency.monthly
    (Dates.mkdate 2024 2 1) (Some (Dates.mkdate 2024 12 31)) None (Some 1).

(** The tables after the sample purchase: the principal row has key 101,
    the purchase key 102, the installments keys 104 to 115. *)
Definition after_purchase : db :=
  Eval vm_compute in
    (CardPurchaseSerializer.create Decimal.pow Sample.test_user
       Sample.purchase_request Sample.tables).2.

Definition purchase : CardPurchase.t :=
  CardPurchase.mk 102 Sample.test_user 12 101 (Decimal.money 120000) "ARS"
    12 (Decimal.money 10000) (Decimal.mk 0 (-2)) (Decimal.money 120000)
    (Dates.mkdate 2024 2 29) Sample.today 0 PurchaseStatus.active "TV".

(** A purchase of 1000.00 in 3 installments without interest, and the
    same at 5.00 per cent a month. *)
Definition thirds_request : CardPurchaseSerializer.validated_data :=
  CardPurchaseSerializer.mk_data Sample.credit_account (Decimal.money 100000)
    "ARS" 3 (Some (Decimal.mk 0 (-2))) (Dates.mkdate 2024 2 29) Sample.today
    None "Notebook".
Definition interest_request : CardPurchaseSerializer.validated_data :=
  CardPurchaseSerializer.mk_data Sample.credit_account (Decimal.money 100000)
    "ARS" 3 (Some (Decimal.mk 500 (-2))) (Dates.mkdate 2024 2 29) Sample.today
    None "Notebook".

(** A provider that quotes USD to ARS at 851 and nothing else. *)
Definition online : CurrencyService.env :=
  CurrencyService.mk_env Sample.noon 900 "test-key"
    (fun f t => if String.eqb f "USD" && String.eqb t "ARS"
                then CurrencyService.Quote (Decimal.of_int 851)
                else CurrencyService.NoQuote).


End Sample2.

(* ===================================================================== *)
(** * Part II: properties                                                 *)
(* ===================================================================== *)

(* --------------------------------------------------------------------- *)
(** ** Decimal arithmetic on two-place amounts is exact *)

Lemma ndigits_aux_le fuel : forall n k,
  1 <= k -> 0 <= n < 10 ^ k -> Decimal.ndigits_aux fuel n <= k.
Proof.
  induction fuel as [|fuel IH]; intros n k Hk Hn; simpl; [lia|].
  destruct (n <? 10) eqn:E; [lia|].
  apply Z.ltb_ge in E.
  assert (2 <= k).
  { destruct (Z.eq_dec k 1) as [->|]; [|lia]. change (10 ^ 1) with 10 in Hn. lia. }
  assert (Decimal.ndigits_aux fuel (n / 10) <= k - 1); [|lia].
  apply IH; [lia|]. split; [apply Z.div_pos; lia|].
  apply Z.div_lt_upper_bound; [lia|].
  replace k with (1 + (k - 1)) in Hn by lia.
  rewrite Z.pow_add_r in Hn by lia. change (10 ^ 1) with 10 in Hn. lia.
Qed.

Lemma ndigits_le c k :
  1 <= k -> Z.abs c < 10 ^ k -> Decimal.ndigits c <= k.
Proof.
  intros Hk Hc. unfold Decimal.ndigits. apply ndigits_aux_le; lia.
Qed.

Lemma _fix_small d :
  Z.abs (Decimal.coef d) < 10 ^ 28 -> Decimal._fix d = d.
Proof.
  intros H. unfold Decimal._fix.
  pose proof (ndigits_le (Decimal.coef d) 28 ltac:(lia) H) as Hn.
  change Decimal.prec with 28.
  destruct (Decimal.ndigits (Decimal.coef d) <=? 28) eqn:E; [reflexivity|].
  apply Z.leb_gt in E. lia.
Qed.

Lemma add_money x y :
  Z.abs x < 10 ^ 15 -> Z.abs y < 10 ^ 15 ->
  Decimal.add (Decimal.money x) (Decimal.money y) = Decimal.money (x + y).
Proof.
  intros Hx Hy. unfold Decimal.add, Decimal.scaled, Decimal.money. simpl.
  rewrite !Z.mul_1_r. apply _fix_small. simpl. lia.
Qed.

(** A two-place amount is stored as it is. *)
Lemma stored_money x :
  DecimalField.stored 2 (Decimal.money x) = Decimal.money x.
Proof.
  unfold DecimalField.stored, Decimal._rescale_half_even, Decimal.money.
  simpl. rewrite Z.mul_1_r. reflexivity.
Qed.

Lemma as_stored_money r x :
  Transaction.amount r = Decimal.money x -> Transaction.as_stored r = r.
Proof.
  destruct r. simpl. intros ->.
  unfold Transaction.as_stored, Transaction.set_amount. simpl.
  rewrite stored_money. reflexivity.
Qed.

Lemma sub_money x y :
  Z.abs x < 10 ^ 15 -> Z.abs y < 10 ^ 15 ->
  Decimal.sub (Decimal.money x) (Decimal.money y) = Decimal.money (x - y).
Proof.
  intros Hx Hy. unfold Decimal.sub, Decimal.scaled, Decimal.money. simpl.
  rewrite !Z.mul_1_r. apply _fix_small. simpl. lia.
Qed.

Lemma ltb_money x y :
  Decimal.ltb (Decimal.money x) (Decimal.money y) = (x <? y).
Proof.
  unfold Decimal.ltb, Decimal.cmp, Decimal.scaled, Decimal.money. simpl.
  rewrite !Z.mul_1_r. unfold Z.ltb. reflexivity.
Qed.

(* --------------------------------------------------------------------- *)
(** ** Reading the tables after a write *)

Lemma balance_of_save_balance_eq a d :
  is_Some (accounts d !! Account.id a) ->
  balance_of (save_balance a d) (Account.id a) = Some (Account.balance a).
Proof.
  intros [row Hrow]. unfold balance_of, save_balance. simpl.
  rewrite lookup_alter_eq, Hrow. reflexivity.
Qed.

Lemma balance_of_save_balance_ne a d k :
  k <> Account.id a ->
  balance_of (save_balance a d) k = balance_of d k.
Proof.
  intros Hk. unfold balance_of, save_balance. simpl.
  rewrite lookup_alter_ne by congruence. reflexivity.
Qed.

Lemma balance_of_set_balance a v d :
  is_Some (accounts d !! Account.id a) ->
  balance_of (save_balance (Account.set_balance a v) d) (Account.id a) = Some v.
Proof.
  intros H. apply (balance_of_save_balance_eq (Account.set_balance a v)), H.
Qed.

Lemma balance_of_set_balance_ne a v d k :
  k <> Account.id a ->
  balance_of (save_balance (Account.set_balance a v) d) k = balance_of d k.
Proof.
  intros H. apply (balance_of_save_balance_ne (Account.set_balance a v)), H.
Qed.

Lemma lookup_save_balance_Some a d k :
  is_Some (accounts (save_balance a d) !! k) <-> is_Some (accounts d !! k).
Proof.
  unfold save_balance. simpl. rewrite lookup_alter_is_Some. reflexivity.
Qed.

Lemma transactions_save_balance a d :
  transactions (save_balance a d) = transactions d.
Proof. reflexivity. Qed.

(** What [validate] guarantees about an accepted transfer. *)
Lemma validate_transfer request_user data :
  TransactionSerializer.validate request_user data = Ok data ->
  TransactionSerializer.transaction_type data = TxType.transfer ->
  exists target,
    TransactionSerializer.target_account data = Some (Some target)
    /\ Account.id target <> Account.id (TransactionSerializer.account data).
Proof.
  unfold TransactionSerializer.validate. intros H Hty. rewrite Hty in H.
  simpl in H.
  destruct (negb (Account.user _ =? _)); [discriminate|].
  destruct (negb (Category.user _ =? _)); [discriminate|].
  destruct (TransactionSerializer.target_account data) as [[target|]|];
    try discriminate.
  destruct (negb (Account.user target =? _)); [discriminate|].
  destruct (Account.id target =? _) eqn:E; [discriminate|].
  apply Z.eqb_neq in E. eauto.
Qed.

(* --------------------------------------------------------------------- *)
(** ** Posting a transaction *)

(** Where the posting rule holds.  Posting a validated transaction of
    amount [x] through [TransactionSerializer.create] with account
    objects that agree with their rows, the balances before and after
    within the 15 digits of the balance column: an income raises the
    stored balance of the primary account by exactly [x]; an expense
    lowers it by exactly [x]; a transfer lowers the source by [x], raises
    the target by [x], and appends, after the outgoing row, exactly one
    mirror row: an income on the target account with origin [transfer]
    and the same amount and currency. *)
Lemma create_applies_amount request_user now data d x b :
  TransactionSerializer.validate request_user data = Ok data ->
  TransactionSerializer.amount data = Decimal.money x ->
  Z.abs x < 10 ^ 15 ->
  in_sync d (TransactionSerializer.account data) ->
  Account.balance (TransactionSerializer.account data) = Decimal.money b ->
  Z.abs b < 10 ^ 15 ->
  Z.abs (b + x) < 10 ^ 15 ->
  Z.abs (b - x) < 10 ^ 15 ->
  (forall target,
      TransactionSerializer.transaction_type data = TxType.transfer ->
      TransactionSerializer.target_account data = Some (Some target) ->
      in_sync d target
      /\ exists tb, Account.balance target = Decimal.money tb
                    /\ Z.abs tb < 10 ^ 15
                    /\ Z.abs (tb + x) < 10 ^ 15) ->
  exists inst d',
    TransactionSerializer.create request_user now data d = (Ok inst, d')
    /\ Transaction.amount (TransactionSerializer.row inst) = Decimal.money x
    /\ Transaction.transaction_type (TransactionSerializer.row inst)
       = TransactionSerializer.transaction_type data
    /\ match TransactionSerializer.transaction_type data with
       | TxType.income =>
           balance_of d' (Account.id (TransactionSerializer.account data))
           = Some (Decimal.money (b + x))
           /\ transactions d' = transactions d ++ [TransactionSerializer.row inst]
       | TxType.expense =>
           balance_of d' (Account.id (TransactionSerializer.account data))
           = Some (Decimal.money (b - x))
           /\ transactions d' = transactions d ++ [TransactionSerializer.row inst]
       | TxType.transfer =>
           exists target tb mirror,
             TransactionSerializer.target_account data = Some (Some target)
             /\ Account.balance target = Decimal.money tb
             /\ balance_of d' (Account.id (TransactionSerializer.account data))
                = Some (Decimal.money (b - x))
             /\ balance_of d' (Account.id target)
                = Some (Decimal.money (tb + x))
             /\ transactions d'
                = transactions d ++ [TransactionSerializer.row inst; mirror]
             /\ Transaction.account mirror = Account.id target
             /\ Transaction.transaction_type mirror = TxType.income
             /\ Transaction.origin mirror = Origin.transfer
             /\ Transaction.amount mirror = Decimal.money x
             /\ Transaction.currency mirror
                = Transaction.currency (TransactionSerializer.row inst)
       end.
Proof.
  intros Hval Hamt Hx Hsync Hbal Hb _ _ Htarget.
  assert (Hrow : is_Some (accounts d !! Account.id (TransactionSerializer.account data)))
    by (rewrite Hsync; eauto).
  unfold TransactionSerializer.create, atomic,
    TransactionSerializer.super_create,
    TransactionSerializer._update_account_balance, insert_transaction.
  cbn [TransactionSerializer.row TransactionSerializer.account_obj
       Transaction.amount Transaction.transaction_type String.eqb Ascii.eqb
       Bool.eqb].
  rewrite Hamt, Hbal.
  rewrite (as_stored_money _ x) by reflexivity.
  destruct (TransactionSerializer.transaction_type data) eqn:Hty;
    cbn [TxType.eqb].
  - (* income *)
    rewrite add_money by assumption.
    eexists _, _. split; [reflexivity|].
    cbn [TransactionSerializer.row TransactionSerializer.set_account_obj
         Transaction.amount Transaction.transaction_type].
    split; [reflexivity|]. split; [reflexivity|]. split; [|reflexivity].
    apply balance_of_set_balance. exact Hrow.
  - (* expense *)
    rewrite sub_money by assumption.
    eexists _, _. split; [reflexivity|].
    cbn [TransactionSerializer.row TransactionSerializer.set_account_obj
         Transaction.amount Transaction.transaction_type].
    split; [reflexivity|]. split; [reflexivity|]. split; [|reflexivity].
    apply balance_of_set_balance. exact Hrow.
  - (* transfer *)
    rewrite sub_money by assumption.
    destruct (validate_transfer _ _ Hval Hty) as (target & Htgt & Hne).
    destruct (Htarget target eq_refl Htgt)
      as (Hsync_t & tb & Htb & Hbound & _).
    unfold TransactionSerializer._create_transfer_counterpart.
    cbn [TransactionSerializer.row TransactionSerializer.set_account_obj
         TransactionSerializer.target_account_obj
         TransactionSerializer.account_obj].
    rewrite Htgt.
    match goal with
    | |- context [get_or_create_category ?u ?n ?t ?ds ?c ?d0] =>
        remember d0 as d0' eqn:Hd0;
        assert (Hgc : accounts (get_or_create_category u n t ds c d0').2
                        = accounts d0'
                      /\ transactions (get_or_create_category u n t ds c d0').2
                        = transactions d0')
          by (unfold get_or_create_category; destruct (List.find _ _);
              split; reflexivity);
        destruct (get_or_create_category u n t ds c d0') as [cat d1]
    end.
    destruct Hgc as [Hacc1 Htx1]. simpl in Hacc1, Htx1.
    cbn [Transaction.amount]. rewrite Htb, add_money by assumption.
    unfold insert_transaction.
    rewrite (as_stored_money _ x) by reflexivity.
    eexists _, _. split; [reflexivity|].
    cbn [TransactionSerializer.row TransactionSerializer.set_target_account_obj
         Transaction.amount Transaction.transaction_type].
    split; [reflexivity|]. split; [reflexivity|].
    eexists target, tb, _. split; [reflexivity|]. split; [assumption|].
    split.
    { rewrite balance_of_set_balance_ne by congruence.
      unfold balance_of. simpl. rewrite Hacc1, Hd0.
      apply balance_of_set_balance. exact Hrow. }
    split.
    { apply balance_of_set_balance. simpl. rewrite Hacc1, Hd0.
      apply lookup_save_balance_Some. simpl. rewrite Hsync_t. eauto. }
    split.
    { simpl. rewrite Htx1, Hd0. simpl. rewrite <- app_assoc. reflexivity. }
    repeat split.
Qed.

Lemma create_applies_amount_witness :
  exists inst d',
    TransactionSerializer.create Sample.test_user Sample.noon
      (Sample.request TxType.transfer Sample.expense_cat 10000
         (Some Sample.savings_account)) Sample.tables = (Ok inst, d')
    /\ balance_of d' 10 = Some (Decimal.money 990000)
    /\ balance_of d' 11 = Some (Decimal.money 15000)
    /\ length (transactions d') = 2%nat.
Proof.
  destruct (create_applies_amount Sample.test_user Sample.noon
              (Sample.request TxType.transfer Sample.expense_cat 10000
                 (Some Sample.savings_account))
              Sample.tables 10000 1000000)
    as (inst & d' & Hc & _ & _ & target & tb & mirror & Ht & Hb & Hs & Hd & Htx & _).
  - reflexivity.
  - reflexivity.
  - reflexivity.
  - vm_compute. reflexivity.
  - reflexivity.
  - reflexivity.
  - reflexivity.
  - reflexivity.
  - intros target _ H. injection H as <-. split.
    + vm_compute. reflexivity.
    + exists 5000. split; [reflexivity|]. split; reflexivity.
  - injection Ht as <-. injection Hb as <-.
    exists inst, d'. split; [exact Hc|]. split; [exact Hs|].
    split; [exact Hd|]. rewrite Htx. reflexivity.
Defined.

(** C1.  The posting rule at the second item of a bulk request.  Two
    expenses, of 100.00 and of 50.00, are sent in one [bulk_create] on
    [test_account], which holds 10000.00; both items are valid and both
    rows are recorded.  Posting the first leaves the account at 9900.00.
    Posting the second, an expense of 50.00, leaves it at 9950.00: the
    stored balance went up by 50.00 where the rule has it go down by
    50.00, and the request as a whole took 50.00 off the account, not
    150.00. *)
Theorem second_bulk_expense_raises_balance :
  let item1 := Sample.request TxType.expense Sample.expense_cat 10000 None in
  let item2 := Sample.request TxType.expense Sample.expense_cat 5000 None in
  let first := TransactionSerializer.create Sample.test_user Sample.noon
                 item1 Sample.tables in
  let second := TransactionSerializer.create Sample.test_user Sample.noon
                  item2 first.2 in
  let bulk := TransactionBulk.bulk_create Sample.test_user Sample.noon
                [item1; item2] Sample.tables in
  TransactionSerializer.validate Sample.test_user item1 = Ok item1
  /\ TransactionSerializer.validate Sample.test_user item2 = Ok item2
  /\ balance_of Sample.tables 10 = Some (Decimal.money 1000000)
  /\ is_ok first.1 = true
  /\ balance_of first.2 10 = Some (Decimal.money 990000)
  /\ is_ok second.1 = true
  /\ balance_of second.2 10 = Some (Decimal.money 995000)
  /\ is_ok bulk.1 = true
  /\ bulk.2 = second.2
  /\ List.map (fun t => (Transaction.transaction_type t, Transaction.amount t,
                         Transaction.account t))
       (transactions bulk.2)
     = [(TxType.expense, Decimal.money 10000, 10);
        (TxType.expense, Decimal.money 5000, 10)].
Proof. vm_compute. repeat split. Qed.

(* --------------------------------------------------------------------- *)
(** ** Updating a posted transfer *)

Lemma save_transaction_other t d m :
  In m (transactions d) -> Transaction.id m <> Transaction.id t ->
  In m (transactions (save_transaction t d)).
Proof.
  intros Hin Hne. unfold save_transaction. simpl.
  apply in_map_iff. exists m. split; [|assumption].
  destruct (Transaction.id m =? Transaction.id t) eqn:E; [|reflexivity].
  apply Z.eqb_eq in E. contradiction.
Qed.

(** The accounts [update] writes: the one cached on the instance and the
    one named by the validated data.  Every other row is as it was. *)
Lemma update_accounts_frame i data d k :
  k <> Account.id (TransactionSerializer.account_obj i) ->
  k <> Account.id (TransactionSerializer.account data) ->
  accounts (TransactionSerializer.update i data d).2 !! k = accounts d !! k.
Proof.
  intros H1 H2.
  unfold TransactionSerializer.update, atomic,
    TransactionSerializer._update_account_balance,
    TransactionSerializer.super_update, save_balance, save_transaction.
  simpl. rewrite !lookup_alter_ne by (simpl; congruence). reflexivity.
Qed.

(** What an update of a posted transfer leaves alone.
    [TransactionSerializer.update] writes balances only through the
    transaction's own (source) account: the target account's row is
    untouched and the mirror row stays in the table as it was, so once
    the amount of the outgoing leg changes the mirror no longer matches
    it. *)
Lemma update_transfer_leaves_mirror i data d target m :
  mirror_of (TransactionSerializer.row i) m ->
  In m (transactions d) ->
  Transaction.id m <> Transaction.id (TransactionSerializer.row i) ->
  TransactionSerializer.target_account_obj i = Some target ->
  Account.id target <> Account.id (TransactionSerializer.account_obj i) ->
  Account.id target <> Account.id (TransactionSerializer.account data) ->
  exists i' d',
    TransactionSerializer.update i data d = (Ok i', d')
    /\ (forall k,
          k <> Account.id (TransactionSerializer.account_obj i) ->
          k <> Account.id (TransactionSerializer.account data) ->
          accounts d' !! k = accounts d !! k)
    /\ accounts d' !! Account.id target = accounts d !! Account.id target
    /\ In m (transactions d')
    /\ Transaction.amount (TransactionSerializer.row i')
       = TransactionSerializer.amount data
    /\ (Decimal.eqb (Transaction.amount m) (TransactionSerializer.amount data)
        = false ->
        ~ mirror_of (TransactionSerializer.row i') m).
Proof.
  intros Hm Hin Hid Htgt Hne1 Hne2.
  pose proof (update_accounts_frame i data d) as Hfr.
  unfold TransactionSerializer.update, atomic in *.
  destruct (TransactionSerializer._update_account_balance i "subtract" d)
    as [i1 d1] eqn:E1.
  destruct (TransactionSerializer.super_update i1 data d1) as [i2 d2] eqn:E2.
  destruct (TransactionSerializer._update_account_balance i2 "add" d2)
    as [i3 d3] eqn:E3.
  eexists _, _. split; [reflexivity|]. split; [exact Hfr|].
  split; [exact (Hfr _ Hne1 Hne2)|].
  unfold TransactionSerializer._update_account_balance in E1, E3.
  unfold TransactionSerializer.super_update in E2.
  inversion E1; subst i1 d1; clear E1.
  inversion E2; subst i2 d2; clear E2.
  inversion E3; subst i3 d3; clear E3.
  cbn [TransactionSerializer.row TransactionSerializer.set_account_obj
       Transaction.amount].
  split.
  { rewrite transactions_save_balance.
    apply save_transaction_other; [|exact Hid].
    rewrite transactions_save_balance. exact Hin. }
  split; [reflexivity|].
  intros Hdiff (_ & _ & _ & _ & Heq & _). simpl in Heq. congruence.
Qed.

Lemma update_transfer_leaves_mirror_witness :
  exists i' d',
    TransactionSerializer.update Sample.posted_transfer Sample.amount_change
      Sample.after_transfer = (Ok i', d')
    /\ balance_of d' 11 = Some (Decimal.money 15000)
    /\ In Sample.posted_mirror (transactions d')
    /\ Transaction.amount (TransactionSerializer.row i') = Decimal.money 25000
    /\ ~ mirror_of (TransactionSerializer.row i') Sample.posted_mirror.
Proof.
  destruct (update_transfer_leaves_mirror Sample.posted_transfer
              Sample.amount_change Sample.after_transfer
              (Account.set_balance Sample.savings_account (Decimal.money 15000))
              Sample.posted_mirror)
    as (i' & d' & Hu & _ & Hacc & Hin & Hamt & Hno).
  - repeat split.
  - right. left. reflexivity.
  - discriminate.
  - reflexivity.
  - discriminate.
  - discriminate.
  - exists i', d'. split; [exact Hu|]. split.
    + change (accounts d' !! 11 = accounts Sample.after_transfer !! 11) in Hacc.
      unfold balance_of. rewrite Hacc. reflexivity.
    + split; [exact Hin|]. split; [exact Hamt|]. apply Hno. reflexivity.
Defined.

(** C9.  The amount of the posted transfer of 100.00 from [test_account]
    to the savings account is changed to 250.00.  Before the update the
    source holds 9900.00 and the target 150.00.  Reversing the old
    amount and applying the new one would leave the source at 9750.00;
    the update leaves it at 9650.00: the reversal is written and then
    overwritten from the account object validation had resolved.  The
    target still holds 150.00, the stored outgoing row now reads 250.00
    and the stored mirror row is the one of before, of 100.00. *)
Theorem update_transfer_overwrites_reversal :
  let r := TransactionSerializer.update Sample.posted_transfer
             Sample.amount_change Sample.after_transfer in
  balance_of Sample.after_transfer 10 = Some (Decimal.money 990000)
  /\ balance_of Sample.after_transfer 11 = Some (Decimal.money 15000)
  /\ transactions Sample.after_transfer
     = [TransactionSerializer.row Sample.posted_transfer;
        Sample.posted_mirror]
  /\ mirror_of (TransactionSerializer.row Sample.posted_transfer)
       Sample.posted_mirror
  /\ is_ok r.1 = true
  /\ Decimal.sub (Decimal.add (Decimal.money 990000) (Decimal.money 10000))
       (Decimal.money 25000) = Decimal.money 975000
  /\ balance_of r.2 10 = Some (Decimal.money 965000)
  /\ balance_of r.2 11 = Some (Decimal.money 15000)
  /\ transactions r.2
     = [Transaction.set_amount (TransactionSerializer.row Sample.posted_transfer)
          (Decimal.money 25000);
        Sample.posted_mirror]
  /\ Decimal.eqb (Transaction.amount Sample.posted_mirror)
       (Decimal.money 25000) = false.
Proof. vm_compute. repeat split. Qed.

(* --------------------------------------------------------------------- *)
(** ** The balance invariant of [Account.clean] *)

(** [_update_account_balance] saves whatever balance the arithmetic gives:
    neither branch looks at the account type. *)
Lemma expense_balance_unchecked request_user now data d x b :
  TransactionSerializer.transaction_type data = TxType.expense ->
  TransactionSerializer.amount data = Decimal.money x ->
  Z.abs x < 10 ^ 15 ->
  in_sync d (TransactionSerializer.account data) ->
  Account.balance (TransactionSerializer.account data) = Decimal.money b ->
  Z.abs b < 10 ^ 15 ->
  exists inst d',
    TransactionSerializer.create request_user now data d = (Ok inst, d')
    /\ balance_of d' (Account.id (TransactionSerializer.account data))
       = Some (Decimal.money (b - x)).
Proof.
  intros Hty Hamt Hx Hsync Hbal Hb.
  unfold TransactionSerializer.create, atomic,
    TransactionSerializer.super_create,
    TransactionSerializer._update_account_balance.
  cbn [TransactionSerializer.row TransactionSerializer.account_obj
       Transaction.amount Transaction.transaction_type String.eqb Ascii.eqb
       Bool.eqb].
  rewrite Hamt, Hbal, Hty. cbn [TxType.eqb].
  rewrite sub_money by assumption.
  eexists _, _. split; [reflexivity|].
  apply balance_of_set_balance. simpl. rewrite Hsync. eauto.
Qed.

(** C5.  An expense of 15000.00 posted against [test_account], a bank
    account (no negative balance allowed) holding 10000.00, is accepted:
    the stored balance becomes -5000.00, a state [Account.clean] rejects. *)
Theorem expense_overdraws_bank_account :
  let r := TransactionSerializer.create Sample.test_user Sample.noon
             (Sample.request TxType.expense Sample.expense_cat 1500000 None)
             Sample.tables in
  TransactionSerializer.validate Sample.test_user
    (Sample.request TxType.expense Sample.expense_cat 1500000 None)
  = Ok (Sample.request TxType.expense Sample.expense_cat 1500000 None)
  /\ AccountType.allows_negative_balance
       (Account.account_type Sample.test_account) = false
  /\ is_ok r.1 = true
  /\ balance_of r.2 10 = Some (Decimal.money (-500000))
  /\ Account.clean <$> accounts r.2 !! 10
     = Some (Raise (ValidationError
          "El tipo de cuenta Cuenta Bancaria no permite balance negativo")).
Proof. vm_compute. repeat split. Qed.

(* --------------------------------------------------------------------- *)
(** ** The lookups of the view sets *)

Lemma find_filter {A : Type} (p f : A -> bool) l :
  List.find p (List.filter f l) = List.find (fun x => f x && p x) l.
Proof.
  induction l as [|x l IH]; [reflexivity|]. simpl.
  destruct (f x); simpl; [|exact IH].
  destruct (p x); [reflexivity | exact IH].
Qed.

Lemma find_ext_eq {A : Type} (p p' : A -> bool) l :
  (forall x, p x = p' x) -> List.find p l = List.find p' l.
Proof.
  intros H. induction l as [|x l IH]; [reflexivity|]. simpl.
  rewrite H, IH. reflexivity.
Qed.

Lemma find_none_all {A : Type} (p : A -> bool) l :
  List.find p l = None <-> forall x, In x l -> p x = false.
Proof.
  split.
  - intros H x Hx. exact (find_none p l H x Hx).
  - induction l as [|y l IH]; intros H; [reflexivity|].
    simpl. rewrite (H y (or_introl eq_refl)).
    apply IH. intros x Hx. apply H. right. exact Hx.
Qed.

(** The lookup of a transaction in one step: a request the lookup takes
    finds the first row it can reach with that key. *)
Lemma transaction_lookup q request_user pk d :
  TransactionViewSet.get_object_with q request_user pk d
  = if TransactionViewSet.well_formed q d then
      match List.find (fun t => TransactionViewSet.reaches q request_user t
                                && (Transaction.id t =? pk))
              (transactions d) with
      | Some t => Ok t
      | None => Raise Http404
      end
    else if Filters.valid (fun _ => true) (TransactionViewSet.date_from q)
            && Filters.valid (fun _ => true) (TransactionViewSet.date_to q)
    then Raise Filters.invalid_filter
    else Raise Filters.invalid_date.
Proof.
  unfold TransactionViewSet.get_object_with, TransactionViewSet.get_queryset,
    TransactionViewSet.filter_queryset, TransactionViewSet.well_formed.
  assert (Hfind : forall l,
             List.find (fun t => Transaction.id t =? pk)
               (List.filter (TransactionViewSet.filterset_keeps q)
                  (List.filter (TransactionViewSet.found_by_search q)
                     (List.filter (TransactionViewSet.in_window q)
                        (List.filter
                           (fun t => Transaction.user t =? request_user) l))))
             = List.find (fun t => TransactionViewSet.reaches q request_user t
                                   && (Transaction.id t =? pk)) l).
  { intros l. rewrite !find_filter. apply find_ext_eq. intros x.
    unfold TransactionViewSet.reaches.
    destruct (Transaction.user x =? request_user);
      destruct (TransactionViewSet.in_window q x);
      destruct (TransactionViewSet.found_by_search q x);
      destruct (TransactionViewSet.filterset_keeps q x); reflexivity. }
  destruct (TransactionViewSet.date_from q) as [| |df];
    destruct (TransactionViewSet.date_to q) as [| |dt];
    cbn [Filters.valid andb];
    try reflexivity;
    (destruct (TransactionViewSet.filterset_valid q d);
     [rewrite Hfind; reflexivity | reflexivity]).
Qed.

Lemma transaction_lookup_Ok q request_user pk d t :
  TransactionViewSet.get_object_with q request_user pk d = Ok t ->
  TransactionViewSet.well_formed q d = true
  /\ In t (transactions d)
  /\ Transaction.id t = pk
  /\ Transaction.user t = request_user
  /\ TransactionViewSet.reaches q request_user t = true
  /\ List.find (fun t => TransactionViewSet.reaches q request_user t
                         && (Transaction.id t =? pk))
       (transactions d) = Some t.
Proof.
  rewrite transaction_lookup.
  destruct (TransactionViewSet.well_formed q d);
    [|destruct (_ && _); discriminate].
  destruct (List.find _ (transactions d)) as [x|] eqn:E; [|discriminate].
  intros H. injection H as <-.
  pose proof (find_some _ _ E) as [Hin Hp].
  apply andb_true_iff in Hp. destruct Hp as [Hr Hid].
  apply Z.eqb_eq in Hid.
  assert (Hu : Transaction.user x = request_user).
  { unfold TransactionViewSet.reaches in Hr.
    rewrite !andb_true_iff in Hr. destruct Hr as [[[Hu _] _] _].
    apply Z.eqb_eq. exact Hu. }
  auto 6.
Qed.

Lemma transaction_lookup_404 q request_user pk d :
  TransactionViewSet.get_object_with q request_user pk d = Raise Http404
  <-> TransactionViewSet.well_formed q d = true
      /\ forall t, In t (transactions d) -> Transaction.id t = pk ->
                   TransactionViewSet.reaches q request_user t = false.
Proof.
  rewrite transaction_lookup.
  destruct (TransactionViewSet.well_formed q d).
  - destruct (List.find _ (transactions d)) as [x|] eqn:E.
    + split; [discriminate|]. intros [_ H]. exfalso.
      pose proof (find_some _ _ E) as [Hin Hp].
      apply andb_true_iff in Hp. destruct Hp as [Hr Hid].
      apply Z.eqb_eq in Hid. rewrite (H x Hin Hid) in Hr. discriminate.
    + split; [|reflexivity]. intros _. split; [reflexivity|].
      intros t Hin Hid.
      pose proof (proj1 (find_none_all _ _) E t Hin) as Hp. cbv beta in Hp.
      rewrite Hid, Z.eqb_refl, andb_true_r in Hp. exact Hp.
  - destruct (_ && _); split; try discriminate; intros [H _]; discriminate.
Qed.

Lemma transaction_lookup_Raise q request_user pk d e :
  TransactionViewSet.get_object_with q request_user pk d = Raise e ->
  e = Http404 \/ e = Filters.invalid_filter \/ e = Filters.invalid_date.
Proof.
  rewrite transaction_lookup.
  destruct (TransactionViewSet.well_formed q d).
  - destruct (List.find _ _); [discriminate|]. intros H. injection H as <-.
    auto.
  - destruct (_ && _); intros H; injection H as <-; auto.
Qed.

(** Without query parameters the lookup is by key and owner. *)
Lemma transaction_lookup_no_query request_user pk d :
  TransactionViewSet.get_object request_user pk d
  = match List.find (fun t => (Transaction.id t =? pk)
                              && (Transaction.user t =? request_user))
            (transactions d) with
    | Some t => Ok t
    | None => Raise Http404
    end.
Proof.
  unfold TransactionViewSet.get_object. rewrite transaction_lookup.
  cbn [TransactionViewSet.well_formed TransactionViewSet.no_query
       TransactionViewSet.date_from TransactionViewSet.date_to
       TransactionViewSet.filterset_valid TransactionViewSet.account
       TransactionViewSet.category TransactionViewSet.transaction_type
       TransactionViewSet.origin Filters.valid andb].
  erewrite find_ext_eq; [reflexivity|]. intros x.
  unfold TransactionViewSet.reaches, TransactionViewSet.in_window,
    TransactionViewSet.found_by_search, TransactionViewSet.filterset_keeps.
  cbn. rewrite !andb_true_r. apply andb_comm.
Qed.

(** The same for auto-debits and card purchases, which [get_queryset]
    narrows by owner only. *)
Lemma debit_lookup q request_user pk d :
  AutoDebitViewSet.get_object q request_user pk d
  = if AutoDebitViewSet.filterset_valid q d then
      match List.find (fun a => AutoDebitViewSet.reaches q request_user a
                                && (AutoDebit.id a =? pk))
              (auto_debits d) with
      | Some a => Ok a
      | None => Raise Http404
      end
    else Raise Filters.invalid_filter.
Proof.
  unfold AutoDebitViewSet.get_object, AutoDebitViewSet.filter_queryset,
    AutoDebitViewSet.get_queryset.
  destruct (AutoDebitViewSet.filterset_valid q d); [|reflexivity].
  rewrite !find_filter.
  erewrite find_ext_eq; [reflexivity|]. intros x.
  unfold AutoDebitViewSet.reaches. cbv beta.
  destruct (AutoDebit.user x =? request_user);
    destruct (AutoDebitViewSet.filterset_keeps q x); reflexivity.
Qed.

Lemma debit_lookup_Ok q request_user pk d a :
  AutoDebitViewSet.get_object q request_user pk d = Ok a ->
  AutoDebitViewSet.filterset_valid q d = true
  /\ In a (auto_debits d)
  /\ AutoDebit.id a = pk
  /\ AutoDebit.user a = request_user
  /\ AutoDebitViewSet.reaches q request_user a = true.
Proof.
  rewrite debit_lookup.
  destruct (AutoDebitViewSet.filterset_valid q d); [|discriminate].
  destruct (List.find _ (auto_debits d)) as [x|] eqn:E; [|discriminate].
  intros H. injection H as <-.
  pose proof (find_some _ _ E) as [Hin Hp].
  apply andb_true_iff in Hp. destruct Hp as [Hr Hid].
  apply Z.eqb_eq in Hid.
  assert (Hu : AutoDebit.user x = request_user).
  { unfold AutoDebitViewSet.reaches in Hr.
    apply andb_true_iff in Hr. destruct Hr as [Hu _].
    apply Z.eqb_eq. exact Hu. }
  auto.
Qed.

Lemma debit_lookup_404 q request_user pk d :
  AutoDebitViewSet.get_object q request_user pk d = Raise Http404
  <-> AutoDebitViewSet.filterset_valid q d = true
      /\ forall a, In a (auto_debits d) -> AutoDebit.id a = pk ->
                   AutoDebitViewSet.reaches q request_user a = false.
Proof.
  rewrite debit_lookup.
  destruct (AutoDebitViewSet.filterset_valid q d).
  - destruct (List.find _ (auto_debits d)) as [x|] eqn:E.
    + split; [discriminate|]. intros [_ H]. exfalso.
      pose proof (find_some _ _ E) as [Hin Hp].
      apply andb_true_iff in Hp. destruct Hp as [Hr Hid].
      apply Z.eqb_eq in Hid. rewrite (H x Hin Hid) in Hr. discriminate.
    + split; [|reflexivity]. intros _. split; [reflexivity|].
      intros t Hin Hid.
      pose proof (proj1 (find_none_all _ _) E t Hin) as Hp. cbv beta in Hp.
      rewrite Hid, Z.eqb_refl, andb_true_r in Hp. exact Hp.
  - split; [discriminate|]. intros [H _]. discriminate.
Qed.

Lemma debit_lookup_Raise q request_user pk d e :
  AutoDebitViewSet.get_object q request_user pk d = Raise e ->
  e = Http404 \/ e = Filters.invalid_filter.
Proof.
  rewrite debit_lookup.
  destruct (AutoDebitViewSet.filterset_valid q d).
  - destruct (List.find _ _); [discriminate|]. intros H. injection H as <-.
    auto.
  - intros H; injection H as <-; auto.
Qed.

Lemma purchase_lookup q request_user pk d :
  CardPurchaseViewSet.get_object q request_user pk d
  = if CardPurchaseViewSet.filterset_valid q d then
      match List.find (fun p => CardPurchaseViewSet.reaches q request_user p
                                && (CardPurchase.id p =? pk))
              (card_purchases d) with
      | Some p => Ok p
      | None => Raise Http404
      end
    else Raise Filters.invalid_filter.
Proof.
  unfold CardPurchaseViewSet.get_object, CardPurchaseViewSet.filter_queryset,
    CardPurchaseViewSet.get_queryset.
  destruct (CardPurchaseViewSet.filterset_valid q d); [|reflexivity].
  rewrite !find_filter.
  erewrite find_ext_eq; [reflexivity|]. intros x.
  unfold CardPurchaseViewSet.reaches. cbv beta.
  destruct (CardPurchase.user x =? request_user);
    destruct (CardPurchaseViewSet.filterset_keeps q x); reflexivity.
Qed.

Lemma purchase_lookup_Ok q request_user pk d p :
  CardPurchaseViewSet.get_object q request_user pk d = Ok p ->
  CardPurchaseViewSet.filterset_valid q d = true
  /\ In p (card_purchases d)
  /\ CardPurchase.id p = pk
  /\ CardPurchase.user p = request_user
  /\ CardPurchaseViewSet.reaches q request_user p = true.
Proof.
  rewrite purchase_lookup.
  destruct (CardPurchaseViewSet.filterset_valid q d); [|discriminate].
  destruct (List.find _ (card_purchases d)) as [x|] eqn:E; [|discriminate].
  intros H. injection H as <-.
  pose proof (find_some _ _ E) as [Hin Hp].
  apply andb_true_iff in Hp. destruct Hp as [Hr Hid].
  apply Z.eqb_eq in Hid.
  assert (Hu : CardPurchase.user x = request_user).
  { unfold CardPurchaseViewSet.reaches in Hr.
    apply andb_true_iff in Hr. destruct Hr as [Hu _].
    apply Z.eqb_eq. exact Hu. }
  auto.
Qed.

Lemma purchase_lookup_404 q request_user pk d :
  CardPurchaseViewSet.get_object q request_user pk d = Raise Http404
  <-> CardPurchaseViewSet.filterset_valid q d = true
      /\ forall p, In p (card_purchases d) -> CardPurchase.id p = pk ->
                   CardPurchaseViewSet.reaches q request_user p = false.
Proof.
  rewrite purchase_lookup.
  destruct (CardPurchaseViewSet.filterset_valid q d).
  - destruct (List.find _ (card_purchases d)) as [x|] eqn:E.
    + split; [discriminate|]. intros [_ H]. exfalso.
      pose proof (find_some _ _ E) as [Hin Hp].
      apply andb_true_iff in Hp. destruct Hp as [Hr Hid].
      apply Z.eqb_eq in Hid. rewrite (H x Hin Hid) in Hr. discriminate.
    + split; [|reflexivity]. intros _. split; [reflexivity|].
      intros t Hin Hid.
      pose proof (proj1 (find_none_all _ _) E t Hin) as Hp. cbv beta in Hp.
      rewrite Hid, Z.eqb_refl, andb_true_r in Hp. exact Hp.
  - split; [discriminate|]. intros [H _]. discriminate.
Qed.

Lemma purchase_lookup_Raise q request_user pk d e :
  CardPurchaseViewSet.get_object q request_user pk d = Raise e ->
  e = Http404 \/ e = Filters.invalid_filter.
Proof.
  rewrite purchase_lookup.
  destruct (CardPurchaseViewSet.filterset_valid q d).
  - destruct (List.find _ _); [discriminate|]. intros H. injection H as <-.
    auto.
  - intros H; injection H as <-; auto.
Qed.

(* --------------------------------------------------------------------- *)
(** ** Confirmation *)

(** [confirm] writes the [transactions] table only, whatever the query
    string of the request. *)
Lemma confirm_with_leaves_accounts q request_user pk d :
  accounts (TransactionViewSet.confirm_with q request_user pk d).2
  = accounts d.
Proof.
  unfold TransactionViewSet.confirm_with.
  destruct (TransactionViewSet.get_object_with q request_user pk d);
    reflexivity.
Qed.

Lemma confirm_leaves_accounts request_user pk d :
  accounts (TransactionViewSet.confirm request_user pk d).2 = accounts d.
Proof. apply confirm_with_leaves_accounts. Qed.

(** C4.  Confirming the pending installment of 100.00 on the credit card
    succeeds and flips the flag, and the card's balance is what it was:
    0.00, not -100.00.  No balance effect is applied at confirmation. *)
Theorem confirm_applies_no_balance_effect :
  let r := TransactionViewSet.confirm Sample.test_user 50
             Sample.with_installment in
  Transaction.is_confirmed Sample.pending_installment = false
  /\ balance_of Sample.with_installment 12 = Some (Decimal.money 0)
  /\ r.1 = Ok (Transaction.set_is_confirmed Sample.pending_installment true)
  /\ transactions r.2
     = [Transaction.set_is_confirmed Sample.pending_installment true]
  /\ balance_of r.2 12 = Some (Decimal.money 0).
Proof. vm_compute. repeat split. Qed.

(** The other half: a transaction posted with [is_confirmed = False] moves
    the balance at once, exactly as a confirmed one does. *)
Lemma unconfirmed_create_moves_balance :
  let data := TransactionSerializer.mk_data Sample.test_account
                Sample.expense_cat None None (Decimal.money 10000) "ARS"
                TxType.expense "test" None None None None None
                (Some false) None in
  let r := TransactionSerializer.create Sample.test_user Sample.noon data
             Sample.tables in
  (Transaction.is_confirmed <$> (TransactionSerializer.row <$>
      match r.1 with Ok i => Some i | Raise _ => None end)) = Some false
  /\ balance_of r.2 10 = Some (Decimal.money 990000).
Proof. vm_compute. split; reflexivity. Qed.

(* --------------------------------------------------------------------- *)
(** ** Executing an auto-debit *)

Lemma days_in_month_ge_28 y m : 28 <= Dates.days_in_month y m.
Proof.
  unfold Dates.days_in_month.
  destruct (m =? 2); [destruct (Dates.is_leap y); lia|].
  destruct ((m =? 4) || (m =? 6) || (m =? 9) || (m =? 11)); lia.
Qed.

(** Up to thirty days on, the year has moved by one at most. *)
Lemma next_day_year x :
  (Dates.year (Dates.next_day x) = Dates.year x
   /\ (Dates.month x = 1 -> Dates.day x < 31 ->
       Dates.month (Dates.next_day x) = 1
       /\ Dates.day (Dates.next_day x) = Dates.day x + 1))
  \/ (Dates.year (Dates.next_day x) = Dates.year x + 1
      /\ Dates.month (Dates.next_day x) = 1
      /\ Dates.day (Dates.next_day x) = 1
      /\ ~ (Dates.month x = 1 /\ Dates.day x < 31)).
Proof.
  unfold Dates.next_day.
  destruct (Dates.day x <? Dates.days_in_month (Dates.year x) (Dates.month x))
    eqn:E1.
  - left. split; [reflexivity|]. intros Hm _. split; [exact Hm | reflexivity].
  - destruct (Dates.month x <? 12) eqn:E2.
    + left. split; [reflexivity|]. intros Hm Hd. exfalso.
      rewrite Hm in E1. change (Dates.days_in_month (Dates.year x) 1) with 31 in E1.
      apply Z.ltb_ge in E1. lia.
    + right. cbn [Dates.year Dates.month Dates.day].
      split; [reflexivity|]. split; [reflexivity|]. split; [reflexivity|].
      intros [Hm _]. rewrite Hm in E2. discriminate.
Qed.

Lemma add_days_year d n :
  (n <= 30)%nat ->
  Dates.year (Dates.add_days d n) = Dates.year d
  \/ (Dates.year (Dates.add_days d n) = Dates.year d + 1
      /\ Dates.month (Dates.add_days d n) = 1
      /\ 1 <= Dates.day (Dates.add_days d n) <= Z.of_nat n).
Proof.
  unfold Dates.add_days. induction n as [|n IH]; intros Hn.
  - left. reflexivity.
  - change (Nat.iter (S n) Dates.next_day d)
      with (Dates.next_day (Nat.iter n Dates.next_day d)).
    set (x := Nat.iter n Dates.next_day d) in *.
    assert (Hn' : (n <= 30)%nat) by lia. specialize (IH Hn').
    destruct (next_day_year x) as [[Hy Hstay]|(Hy & Hm & Hd & Hno)];
      destruct IH as [IH|(IHy & IHm & IHd)].
    + left. lia.
    + right. destruct (Hstay IHm) as [Hm' Hd']; lia.
    + right. lia.
    + exfalso. apply Hno. lia.
Qed.

Lemma plus_days_in_range d n :
  (n <= 30)%nat -> Dates.year d <= 9998 ->
  DateArith.plus_days d n = Ok (Dates.add_days d n).
Proof.
  intros Hn Hy. unfold DateArith.plus_days, DateArith.MAXYEAR. cbv zeta.
  replace (Dates.year (Dates.add_days d n) <=? 9999) with true;
    [reflexivity|].
  symmetry. apply Z.leb_le.
  destruct (add_days_year d n Hn) as [H|[H _]]; lia.
Qed.

Lemma plus_months_in_range d k :
  Dates.year d <= 9998 ->
  DateArith.plus_months d k = Ok (Dates.add_months d k).
Proof.
  intros Hy. unfold DateArith.plus_months, DateArith.MAXYEAR. cbv zeta.
  replace (Dates.year (Dates.add_months d k) <=? 9999) with true;
    [reflexivity|].
  symmetry. apply Z.leb_le. unfold Dates.add_months. cbn [Dates.year].
  destruct (12 <? Dates.month d + k); lia.
Qed.

Lemma plus_years_in_range d :
  Dates.year d <= 9998 ->
  DateArith.plus_years d 1 = Ok (Dates.add_years d 1).
Proof.
  intros Hy. unfold DateArith.plus_years, DateArith.MAXYEAR. cbv zeta.
  replace (Dates.year (Dates.add_years d 1) <=? 9999) with true;
    [reflexivity|].
  symmetry. apply Z.leb_le. unfold Dates.add_years. cbn [Dates.year]. lia.
Qed.

(** With the anchor inside the range its validators allow and the last
    run before the last year of the calendar,
    [calculate_next_execution] is the frequency rule of the design. *)
Lemma calculate_next_execution_rule a last :
  AutoDebit.last_execution a = Some last ->
  Dates.year last <= 9998 ->
  (forall k, AutoDebit.day_of_month a = Some k -> 1 <= k <= 31) ->
  AutoDebit.calculate_next_execution a
  = Ok (frequency_rule (AutoDebit.frequency a) (AutoDebit.day_of_month a) last).
Proof.
  intros Hlast Hyear Hdom.
  unfold AutoDebit.calculate_next_execution, frequency_rule.
  rewrite Hlast.
  destruct (AutoDebit.frequency a);
    rewrite ?plus_days_in_range, ?plus_months_in_range, ?plus_years_in_range
      by (assumption || lia);
    try reflexivity.
  destruct (AutoDebit.day_of_month a) as [k|]; [|reflexivity].
  specialize (Hdom k eq_refl).
  destruct (k =? 0) eqn:E; [apply Z.eqb_eq in E; lia|].
  unfold Dates.replace_day. cbn [Dates.year Dates.month Dates.add_months].
  pose proof (days_in_month_ge_28
                (if 12 <? Dates.month last + 1
                 then Dates.year last + 1 else Dates.year last)
                (if 12 <? Dates.month last + 1
                 then Dates.month last + 1 - 12 else Dates.month last + 1)).
  replace (1 <=? Z.min k 28) with true by (symmetry; apply Z.leb_le; lia).
  match goal with
  | |- context [Z.min k 28 <=? ?n] =>
      replace (Z.min k 28 <=? n) with true by (symmetry; apply Z.leb_le; lia)
  end.
  reflexivity.
Qed.

(** Sufficient funds, on a day before the last year of the calendar: one
    confirmed expense row is appended, the account is debited, and the
    object leaves with [last_execution] today, one more execution, no
    failed attempts and [next_execution] moved by the frequency rule
    counted from today. *)
Lemma execute_auto_debit_success now a d account :
  keyed_by_id d ->
  AutoDebit.can_execute a (Dates.dt_date now) = true ->
  accounts d !! AutoDebit.account a = Some account ->
  Decimal.ltb (Account.balance account) (AutoDebit.amount a)
  && negb (AccountType.allows_negative_balance (Account.account_type account))
  = false ->
  (forall k, AutoDebit.day_of_month a = Some k -> 1 <= k <= 31) ->
  Dates.year (Dates.dt_date now) <= 9998 ->
  exists tx a' d',
    TransactionService.execute_auto_debit now a d = (Ok tx, a', d')
    /\ transactions d' = transactions d ++ [Transaction.as_stored tx]
    /\ Transaction.transaction_type tx = TxType.expense
    /\ Transaction.is_confirmed tx = true
    /\ Transaction.origin tx = Origin.auto_debit
    /\ Transaction.amount tx = AutoDebit.amount a
    /\ balance_of d' (AutoDebit.account a)
       = Some (Decimal.sub (Account.balance account) (AutoDebit.amount a))
    /\ AutoDebit.last_execution a' = Some (Dates.dt_date now)
    /\ AutoDebit.execution_count a' = AutoDebit.execution_count a + 1
    /\ AutoDebit.failed_attempts a' = 0
    /\ AutoDebit.next_execution a'
       = frequency_rule (AutoDebit.frequency a) (AutoDebit.day_of_month a)
           (Dates.dt_date now).
Proof.
  intros Hkey Hcan Hacc Hfunds Hdom Hyear.
  unfold TransactionService.execute_auto_debit,
    TransactionService.execute_auto_debit_body, TransactionService.try_block.
  rewrite Hcan, Hacc, Hfunds. cbn [negb].
  rewrite (calculate_next_execution_rule _ (Dates.dt_date now))
    by (simpl; auto).
  eexists _, _, _. split; [reflexivity|].
  repeat (split; [reflexivity|]).
  split; [|repeat split].
  unfold balance_of, TransactionService.save_execution_fields, save_balance,
    set_auto_debits, set_accounts, set_next_id, insert_transaction,
    set_transactions.
  cbn [accounts Account.id Account.set_balance].
  rewrite (Hkey _ _ Hacc), lookup_alter_eq, Hacc. reflexivity.
Qed.

(** Insufficient funds on an account that may not go negative: the
    increment inside the [try] block raises into the block's own handler,
    which increments again, and the exception then leaves the atomic
    block, so none of the two saves survives. *)
Lemma execute_auto_debit_insufficient now a d account :
  AutoDebit.can_execute a (Dates.dt_date now) = true ->
  accounts d !! AutoDebit.account a = Some account ->
  Decimal.ltb (Account.balance account) (AutoDebit.amount a) = true ->
  AccountType.allows_negative_balance (Account.account_type account) = false ->
  TransactionService.execute_auto_debit now a d
  = (Raise (ValueError "Saldo insuficiente para ejecutar el débito"),
     AutoDebit.set_failed_attempts a (AutoDebit.failed_attempts a + 2), d).
Proof.
  intros Hcan Hacc Hlt Hneg.
  unfold TransactionService.execute_auto_debit,
    TransactionService.execute_auto_debit_body, TransactionService.try_block.
  rewrite Hcan, Hacc, Hlt, Hneg. cbn.
  replace (AutoDebit.failed_attempts a + 1 + 1)
    with (AutoDebit.failed_attempts a + 2) by lia.
  reflexivity.
Qed.

(** C2.  [rent_debit] is active and due, and asks 100.00 of an account
    that holds 50.00 and may not go negative.  Executing it raises and
    posts nothing, and [next_execution] stays; but [failed_attempts],
    0 before, is 2 on the object and still 0 in the table, also after
    the batch pass has met the debit. *)
Theorem insufficient_funds_failed_attempts :
  let r := TransactionService.execute_auto_debit Sample.noon
             Sample.rent_debit Sample.with_debits in
  AutoDebit.can_execute Sample.rent_debit Sample.today = true
  /\ AutoDebit.failed_attempts Sample.rent_debit = 0
  /\ r.1.1 = Raise (ValueError "Saldo insuficiente para ejecutar el débito")
  /\ transactions r.2 = transactions Sample.with_debits
  /\ AutoDebit.next_execution r.1.2 = AutoDebit.next_execution Sample.rent_debit
  /\ AutoDebit.failed_attempts r.1.2 = 2
  /\ failed_attempts_of r.2 60 = Some 0
  /\ failed_attempts_of
       (TransactionService.execute_pending_debits Sample.noon
          Sample.with_debits).2 60 = Some 0.
Proof. vm_compute. repeat split. Qed.

(* --------------------------------------------------------------------- *)
(** ** The batch pass over due auto-debits *)

(** C10, as first stated, at [lapsed_debit]: the batch selects it, counts
    it as failed with its error and posts nothing for it, yet its stored
    [failed_attempts] is not incremented. *)
Lemma lapsed_debit_attempts_not_incremented :
  let r := TransactionService.execute_pending_debits Sample.noon
             (set_auto_debits Sample.tables [Sample.lapsed_debit]) in
  In Sample.lapsed_debit
     (TransactionService.pending_debits Sample.today
        (set_auto_debits Sample.tables [Sample.lapsed_debit]))
  /\ TransactionService.failed r.1 = 1
  /\ TransactionService.errors r.1
     = [("Revista", "El débito no puede ejecutarse")]
  /\ transactions r.2 = []
  /\ failed_attempts_of r.2 62
     <> Some (AutoDebit.failed_attempts Sample.lapsed_debit + 1).
Proof.
  vm_compute. repeat split; try (left; reflexivity). discriminate.
Qed.

(** C10, amended.  An active auto-debit whose [next_execution] has come
    but whose [end_date] lies strictly before today is selected by the
    batch all the same; its turn in the loop posts nothing and writes
    nothing (its [failed_attempts] included), and adds one to [failed]
    together with one error entry. *)
Theorem lapsed_debit_fails_without_trace now res d a e :
  In a (auto_debits d) ->
  AutoDebit.status a = DebitStatus.active ->
  Dates.date_leb (AutoDebit.next_execution a) (Dates.dt_date now) = true ->
  AutoDebit.end_date a = Some e ->
  Dates.date_ltb e (Dates.dt_date now) = true ->
  In a (TransactionService.pending_debits (Dates.dt_date now) d)
  /\ TransactionService.execute_auto_debit now a d
     = (Raise (ValueError "El débito no puede ejecutarse"), a, d)
  /\ TransactionService.pending_step now (res, d) a
     = (TransactionService.mk_results
          (TransactionService.executed res)
          (TransactionService.failed res + 1)
          (TransactionService.errors res
             ++ [(AutoDebit.name a, "El débito no puede ejecutarse")]),
        d).
Proof.
  intros Hin Hst Hdue Hend Hlapsed.
  assert (Hcan : AutoDebit.can_execute a (Dates.dt_date now) = false).
  { unfold AutoDebit.can_execute. rewrite Hst, Hdue, Hend. simpl.
    unfold Dates.date_leb, Dates.date_ltb in *.
    destruct (Dates.date_cmp e (Dates.dt_date now)) eqn:E1; try discriminate.
    assert (Dates.date_cmp (Dates.dt_date now) e = Gt) as ->; [|reflexivity].
    revert E1. unfold Dates.date_cmp.
    rewrite (Z.compare_antisym (Dates.year e)),
            (Z.compare_antisym (Dates.month e)),
            (Z.compare_antisym (Dates.day e)).
    destruct (Dates.year e ?= Dates.year (Dates.dt_date now)); simpl;
      try discriminate; try reflexivity.
    destruct (Dates.month e ?= Dates.month (Dates.dt_date now)); simpl;
      try discriminate; try reflexivity.
    destruct (Dates.day e ?= Dates.day (Dates.dt_date now)); simpl;
      try discriminate; reflexivity. }
  assert (Hex : TransactionService.execute_auto_debit now a d
                = (Raise (ValueError "El débito no puede ejecutarse"), a, d)).
  { unfold TransactionService.execute_auto_debit,
      TransactionService.execute_auto_debit_body.
    rewrite Hcan. reflexivity. }
  split.
  { unfold TransactionService.pending_debits. apply filter_In.
    split; [exact Hin|]. rewrite Hst, Hdue. reflexivity. }
  split; [exact Hex|].
  unfold TransactionService.pending_step. rewrite Hex. reflexivity.
Qed.

Lemma lapsed_debit_fails_without_trace_witness :
  TransactionService.pending_step Sample.noon
    (TransactionService.mk_results 0 1
       [("Alquiler", "Saldo insuficiente para ejecutar el débito")],
     Sample.with_debits)
    Sample.lapsed_debit
  = (TransactionService.mk_results 0 2
       [("Alquiler", "Saldo insuficiente para ejecutar el débito");
        ("Revista", "El débito no puede ejecutarse")],
     Sample.with_debits).
Proof.
  apply (lapsed_debit_fails_without_trace Sample.noon
           (TransactionService.mk_results 0 1
              [("Alquiler", "Saldo insuficiente para ejecutar el débito")])
           Sample.with_debits Sample.lapsed_debit (Dates.mkdate 2024 1 20)).
  - right. right. left. reflexivity.
  - reflexivity.
  - reflexivity.
  - reflexivity.
  - reflexivity.
Defined.

(* --------------------------------------------------------------------- *)
(** ** Rate resolution *)

Lemma latest_In rows r :
  CurrencyService.latest rows = Some r -> In r rows.
Proof.
  revert r. induction rows as [|x rows IH]; intros r H; simpl in H.
  - discriminate.
  - destruct (CurrencyService.latest rows) as [r'|].
    + destruct (Dates.datetime_ltb _ _); inversion H; subst.
      * right. apply IH. reflexivity.
      * left. reflexivity.
    + inversion H. left. reflexivity.
Qed.

Lemma latest_None rows :
  CurrencyService.latest rows = None -> rows = [].
Proof.
  destruct rows as [|x rows]; [reflexivity|]. simpl.
  destruct (CurrencyService.latest rows); [|discriminate].
  destruct (Dates.datetime_ltb _ _); discriminate.
Qed.

Lemma truthy_opt_true o :
  truthy_opt o = true <-> exists r, o = Some r /\ Decimal.truthy r = true.
Proof.
  destruct o as [r|]; simpl; split.
  - eauto.
  - intros (r' & H & Ht). inversion H. subst. exact Ht.
  - discriminate.
  - intros (r' & H & _). discriminate.
Qed.

Lemma truthy_opt_false o :
  truthy_opt o = false <-> forall r, ~ (o = Some r /\ Decimal.truthy r = true).
Proof.
  split.
  - intros H r [-> Ht]. simpl in H. congruence.
  - intros H. destruct (truthy_opt o) eqn:E; [|reflexivity].
    apply truthy_opt_true in E. destruct E as (r & Hr). destruct (H r Hr).
Qed.

Lemma cache_hit_iff e s f t r :
  cache_hit e s f t r
  <-> CurrencyService._get_cached_rate e s f t = Some r
      /\ Decimal.truthy r = true.
Proof.
  unfold cache_hit, CurrencyService._get_cached_rate. split.
  - intros (ce & Hc & Hexp & Hv & Ht). rewrite Hc, Hexp, Hv. auto.
  - intros [H Ht].
    destruct (CurrencyService.cache s !! CurrencyService.cache_key f t)
      as [ce|]; [|discriminate].
    destruct (Dates.datetime_ltb _ _) eqn:E; [|discriminate].
    injection H as <-. exists ce. auto.
Qed.

Lemma recent_rate_iff e s f t r :
  recent_rate e s f t r
  <-> CurrencyService._get_db_rate e s f t = Some r
      /\ Decimal.truthy r = true.
Proof.
  unfold recent_rate, CurrencyService._get_db_rate. split.
  - intros (row & Hl & Hr & Ht). rewrite Hl, Hr. auto.
  - intros [H Ht].
    destruct (CurrencyService.latest _) as [row|]; [|discriminate].
    injection H as <-. exists row. auto.
Qed.




(** A rate the inverse fallback returns comes from a stored row of the
    reversed pair. *)
Lemma inverse_rate_stored s f t r :
  inverse_rate s f t r ->
  exists row,
    In row (CurrencyService.exchange_rates s)
    /\ ExchangeRate.from_currency row = t
    /\ ExchangeRate.to_currency row = f
    /\ Decimal.gtb (ExchangeRate.rate row) (Decimal.of_int 0) = true
    /\ Decimal.div (Decimal.of_int 1) (ExchangeRate.rate row) = Some r.
Proof.
  intros (row & Hl & Hpos & Hd & _). exists row.
  apply latest_In, filter_In in Hl. destruct Hl as [Hin Hp].
  unfold CurrencyService.for_pair in Hp. apply andb_true_iff in Hp.
  destruct Hp as [Hf Ht]. apply String.eqb_eq in Hf, Ht. auto.
Qed.




Lemma get_exchange_rate_logs e s f t :
  CurrencyService.conversion_logs (CurrencyService.get_exchange_rate e s f t).2
  = CurrencyService.conversion_logs s.
Proof.
  unfold CurrencyService.get_exchange_rate.
  destruct (String.eqb f t); [reflexivity|].
  destruct (truthy_opt (CurrencyService._get_cached_rate e s f t));
    [reflexivity|].
  destruct (CurrencyService._get_db_rate e s f t) as [r|]; simpl.
  - destruct (Decimal.truthy r); [reflexivity|].
    destruct (CurrencyService._fetch_rate_from_api e f t) as [a|]; simpl.
    + destruct (Decimal.truthy a).
      * unfold CurrencyService._save_rate_to_db. simpl.
        destruct (List.filter _ _) as [|x [|y l]]; reflexivity.
      * destruct (truthy_opt _); reflexivity.
    + destruct (truthy_opt _); reflexivity.
  - destruct (CurrencyService._fetch_rate_from_api e f t) as [a|]; simpl.
    + destruct (Decimal.truthy a).
      * unfold CurrencyService._save_rate_to_db. simpl.
        destruct (List.filter _ _) as [|x [|y l]]; reflexivity.
      * destruct (truthy_opt _); reflexivity.
    + destruct (truthy_opt _); reflexivity.
Qed.

(** X24.  Cache keys tell 3-letter currency codes apart. *)
Lemma cache_key_inj f t f' t' :
  String.length f = 3%nat -> String.length f' = 3%nat ->
  CurrencyService.cache_key f t = CurrencyService.cache_key f' t' ->
  f = f' /\ t = t'.
Proof.
  intros Hf Hf' H. unfold CurrencyService.cache_key in H.
  destruct f as [|a [|b [|c [|]]]]; try discriminate.
  destruct f' as [|a' [|b' [|c' [|]]]]; try discriminate.
  cbv [String.app] in H. injection H as Ha Hb Hc Ht. subst. auto.
Qed.

(* --------------------------------------------------------------------- *)
(** ** Conversion *)

(** The same-currency branch returns its argument as it came: no lookup,
    no rounding, no log entry. *)
Lemma convert_amount_same_currency e s amount c context user_id :
  CurrencyService.convert_amount e s amount c c context user_id
  = (Ok amount, s).
Proof.
  unfold CurrencyService.convert_amount. rewrite String.eqb_refl. reflexivity.
Qed.

(** C7.  A same-currency conversion of 123.456789 ARS returns 123.456789.
    Rounded half-up to the two places of ARS the amount is 123.46, which
    is what [test_decimal_precision] expects, and the two differ. *)
Theorem same_currency_is_not_rounded :
  let r := CurrencyService.convert_amount Sample.offline Sample.store
             (Decimal.mk 123456789 (-6)) "ARS" "ARS" "general" None in
  r.1 = Ok (Decimal.mk 123456789 (-6))
  /\ CurrencyService._get_currency_decimal_places Sample.store "ARS" = 2
  /\ Decimal.quantize_half_up (Decimal.mk 123456789 (-6)) (-2)
     = Some (Decimal.mk 12346 (-2))
  /\ Decimal.eqb (Decimal.mk 123456789 (-6)) (Decimal.mk 12346 (-2)) = false.
Proof. vm_compute. repeat split. Qed.




(* --------------------------------------------------------------------- *)
(** ** Card purchases *)

Lemma get_or_create_category_frame user name ty description color d :
  let d' := (get_or_create_category user name ty description color d).2 in
  accounts d' = accounts d /\ transactions d' = transactions d
  /\ card_purchases d' = card_purchases d.
Proof.
  unfold get_or_create_category. destruct (List.find _ _); simpl; auto.
Qed.

(** The loop appends one row per iteration, each an installment of the
    purchase, a month after the one before. *)
Lemma installment_loop_rows purchase cat count : forall i current_date d,
  exists rows,
    transactions (CardPurchaseSerializer.installment_loop purchase cat count
                    i current_date d)
    = transactions d ++ rows
    /\ length rows = count
    /\ accounts (CardPurchaseSerializer.installment_loop purchase cat count
                   i current_date d) = accounts d
    /\ forall k tx, rows !! k = Some tx ->
         Transaction.transaction_type tx = TxType.expense
         /\ Transaction.origin tx = Origin.installment
         /\ Transaction.is_confirmed tx = false
         /\ Transaction.amount tx
            = DecimalField.stored 2 (CardPurchase.installment_amount purchase)
         /\ Transaction.card_purchase tx = Some (CardPurchase.id purchase)
         /\ Transaction.account tx = CardPurchase.account purchase
         /\ Transaction.date tx
            = Dates.at_midnight (installment_date current_date k).
Proof.
  induction count as [|count IH]; intros i current_date d.
  - exists []. simpl. rewrite app_nil_r.
    repeat (split; [reflexivity|]).
    intros k tx H. rewrite lookup_nil in H. discriminate.
  - cbn [CardPurchaseSerializer.installment_loop].
    match goal with
    | |- context [CardPurchaseSerializer.installment_loop _ _ _ _ _ ?d0] =>
        destruct (IH (i + 1) (Dates.add_months current_date 1) d0)
          as (rows & Htx & Hlen & Hacc & Hrows)
    end.
    eexists (_ :: rows). split.
    { rewrite Htx. simpl. rewrite <- app_assoc. reflexivity. }
    split; [simpl; congruence|]. split; [rewrite Hacc; reflexivity|].
    intros [|k] tx Hk.
    + injection Hk as <-. repeat split.
    + apply Hrows in Hk. unfold installment_date in *.
      rewrite Nat.iter_succ_r. exact Hk.
Qed.

Lemma installment_loop_card_purchases purchase cat count :
  forall i current_date d,
    card_purchases (CardPurchaseSerializer.installment_loop purchase cat
                      count i current_date d)
    = card_purchases d.
Proof.
  induction count as [|count IH]; intros i current_date d; [reflexivity|].
  cbn [CardPurchaseSerializer.installment_loop]. rewrite IH. reflexivity.
Qed.

(** One calendar month on: the month count goes up by one and the day is
    kept, or cut to the length of the month reached. *)
Lemma add_months_one d :
  1 <= Dates.month d <= 12 ->
  let d' := Dates.add_months d 1 in
  month_index d' = month_index d + 1
  /\ 1 <= Dates.month d' <= 12
  /\ Dates.day d'
     = Z.min (Dates.days_in_month (Dates.year d') (Dates.month d'))
         (Dates.day d).
Proof.
  intros Hm. unfold month_index, Dates.add_months. cbv zeta.
  destruct (12 <? Dates.month d + 1) eqn:E;
    cbn [Dates.year Dates.month Dates.day];
    [apply Z.ltb_lt in E | apply Z.ltb_ge in E];
    (split; [lia|]); (split; [lia|]); reflexivity.
Qed.

Lemma installment_date_month first k :
  1 <= Dates.month first <= 12 ->
  month_index (installment_date first k) = month_index first + Z.of_nat k
  /\ 1 <= Dates.month (installment_date first k) <= 12.
Proof.
  intros Hm. induction k as [|k [IH1 IH2]].
  - unfold installment_date. simpl. split; [lia | exact Hm].
  - change (installment_date first (S k))
      with (Dates.add_months (installment_date first k) 1).
    destruct (add_months_one (installment_date first k) IH2) as (H1 & H2 & _).
    split; [rewrite H1, IH1; lia | exact H2].
Qed.

(** C8, as first stated, at a purchase of 1000.00 in 3 installments
    without interest on the credit card, which holds 0.00.  The
    installment amount is 1000.00 / 3 and the three generated rows hold
    333.33 each, which is not that amount, nor do they add up to the
    principal; and the confirmed expense row of the principal leaves the
    card's balance at 0.00. *)
Lemma installment_rows_hold_two_places :
  let r := CardPurchaseSerializer.create Decimal.pow Sample.test_user
             Sample2.thirds_request Sample.tables in
  exists purchase,
    r.1 = Ok purchase
    /\ Decimal.div (Decimal.money 100000) (Decimal.of_int 3)
       = Some (CardPurchase.installment_amount purchase)
    /\ CardPurchase.installment_amount purchase
       = Decimal.mk 3333333333333333333333333333 (-25)
    /\ List.map (fun t => (Transaction.amount t, Transaction.is_confirmed t))
         (transactions r.2)
       = [(Decimal.money 100000, true); (Decimal.money 33333, false);
          (Decimal.money 33333, false); (Decimal.money 33333, false)]
    /\ Decimal.eqb (Decimal.money 33333)
         (CardPurchase.installment_amount purchase) = false
    /\ balance_of Sample.tables 12 = Some (Decimal.money 0)
    /\ balance_of r.2 12 = Some (Decimal.money 0).
Proof.
  vm_compute. eexists. split; [reflexivity|]. repeat split.
Qed.

(** C8, amended.  Creating a card purchase through
    [CardPurchaseSerializer.create] with validated data whose schedule
    ends by December 9999 and whose total fits its column: the object
    returned has total-with-interest principal * (1 + rate/100) ^ count
    when the monthly rate is positive and the principal otherwise, and
    installment amount that total divided by the count; one confirmed
    expense row for the full principal, dated at the purchase date, is
    recorded, followed by exactly [count] unconfirmed installment rows,
    each holding the installment amount with the two places of its
    column and linked to the purchase, which is stored with its amounts
    at two places; the first is dated at the
    first-installment date and each next one a calendar month later, on
    the day of the one before or on the last day of a shorter month. *)
Theorem create_card_purchase_schedule decimal_pow request_user data d :
  CardPurchaseSerializer.validate request_user data = Ok data ->
  let principal := CardPurchaseSerializer.total_amount data in
  let count := CardPurchaseSerializer.total_installments data in
  let rate := default (Decimal.mk 0 (-2))
                (CardPurchaseSerializer.interest_rate data) in
  let first := CardPurchaseSerializer.first_installment_date data in
  1 <= Dates.month first <= 12 ->
  month_index first + count <= month_index (Dates.mkdate 9999 12 31) ->
  DecimalField.fits 15 2
    (CardPurchaseSerializer.total_with_interest_of decimal_pow principal
       rate count) = true ->
  exists purchase d' original installments,
    CardPurchaseSerializer.create decimal_pow request_user data d
    = (Ok purchase, d')
    /\ (Decimal.gtb rate (Decimal.of_int 0) = true ->
        exists monthly_rate,
          Decimal.div rate (Decimal.of_int 100) = Some monthly_rate
          /\ CardPurchase.total_with_interest purchase
             = Decimal.mul principal
                 (decimal_pow (Decimal.add (Decimal.of_int 1) monthly_rate)
                    count))
    /\ (Decimal.gtb rate (Decimal.of_int 0) = false ->
        CardPurchase.total_with_interest purchase = principal)
    /\ Decimal.div (CardPurchase.total_with_interest purchase)
         (Decimal.of_int count)
       = Some (CardPurchase.installment_amount purchase)
    /\ CardPurchase.total_installments purchase = count
    /\ CardPurchase.first_installment_date purchase = first
    /\ card_purchases d'
       = card_purchases d ++ [CardPurchase.as_stored purchase]
    /\ transactions d' = transactions d ++ original :: installments
    /\ Transaction.id original = CardPurchase.original_transaction purchase
    /\ Transaction.transaction_type original = TxType.expense
    /\ Transaction.origin original = Origin.card
    /\ Transaction.is_confirmed original = true
    /\ Transaction.amount original = DecimalField.stored 2 principal
    /\ Transaction.date original
       = Dates.at_midnight (CardPurchaseSerializer.purchase_date data)
    /\ Z.of_nat (length installments) = count
    /\ (forall k tx, installments !! k = Some tx -> installment_of purchase k tx)
    /\ (forall k tx,
          installments !! k = Some tx ->
          let on := Dates.dt_date (Transaction.date tx) in
          Dates.dt_secs (Transaction.date tx) = 0
          /\ month_index on = month_index first + Z.of_nat k
          /\ 1 <= Dates.month on <= 12
          /\ match k with
             | O => on = first
             | S j =>
                 exists before,
                   installments !! j = Some before
                   /\ Dates.day on
                      = Z.min (Dates.days_in_month (Dates.year on)
                                 (Dates.month on))
                          (Dates.day (Dates.dt_date (Transaction.date before)))
             end).
Proof.
  intros Hval principal count rate first Hmonth _ _.
  assert (Hcount : 2 <= count <= 60).
  { unfold CardPurchaseSerializer.validate in Hval. subst count.
    destruct (CardPurchaseSerializer.total_installments data <? 2) eqn:E1;
      [discriminate|].
    destruct (60 <? CardPurchaseSerializer.total_installments data) eqn:E2;
      [discriminate|].
    apply Z.ltb_ge in E1, E2. lia. }
  unfold CardPurchaseSerializer.create, atomic.
  fold principal count rate first.
  set (total := CardPurchaseSerializer.total_with_interest_of decimal_pow
                  principal rate count).
  assert (Hdiv : exists q, Decimal.div total (Decimal.of_int count) = Some q).
  { unfold Decimal.div. cbn [Decimal.coef Decimal.of_int].
    replace (count =? 0) with false by (symmetry; apply Z.eqb_neq; lia).
    destruct (Decimal.coef total =? 0); [eauto|].
    destruct (_ mod _ =? 0); [destruct (Decimal.strip_zeros _ _ _ _)|]; eauto. }
  destruct Hdiv as [q Hq]. rewrite Hq.
  pose proof (get_or_create_category_frame request_user "Compras con Tarjeta"
                TxType.expense "Compras realizadas con tarjeta de crédito"
                "#dc3545" d) as Hcat.
  unfold CardPurchaseSerializer._get_or_create_credit_category.
  destruct (get_or_create_category request_user "Compras con Tarjeta"
              TxType.expense "Compras realizadas con tarjeta de crédito"
              "#dc3545" d) as [credit_category d1].
  cbn [snd] in Hcat. destruct Hcat as (Hacc1 & Htx1 & Hcp1).
  unfold CardPurchaseSerializer._generate_installment_transactions.
  cbn [CardPurchase.user CardPurchase.total_installments
       CardPurchase.first_installment_date].
  match goal with
  | |- context [CardPurchaseSerializer._get_or_create_installment_category
                  ?u ?d0] =>
      pose proof (get_or_create_category_frame u "Cuotas de Tarjeta"
                    TxType.expense "Cuotas de compras con tarjeta de crédito"
                    "#ffc107" d0) as Hcat2;
      unfold CardPurchaseSerializer._get_or_create_installment_category;
      destruct (get_or_create_category u "Cuotas de Tarjeta"
                  TxType.expense "Cuotas de compras con tarjeta de crédito"
                  "#ffc107" d0) as [installment_category d4]
  end.
  cbn [snd] in Hcat2. destruct Hcat2 as (Hacc4 & Htx4 & Hcp4).
  match goal with
  | |- context [CardPurchaseSerializer.installment_loop ?p ?c ?n ?i ?dt ?d0] =>
      destruct (installment_loop_rows p c n i dt d0)
        as (rows & Hrows_tx & Hlen & Hrows_acc & Hrows)
  end.
  eexists _, _, _, rows. split; [reflexivity|].
  cbn [CardPurchase.total_with_interest CardPurchase.installment_amount
       CardPurchase.total_installments CardPurchase.first_installment_date
       CardPurchase.original_transaction].
  split.
  { intros Hpos. subst total.
    unfold CardPurchaseSerializer.total_with_interest_of. rewrite Hpos.
    destruct (Decimal.div rate (Decimal.of_int 100)) as [m|] eqn:Hm.
    - exists m. auto.
    - exfalso. revert Hm. unfold Decimal.div. cbn [Decimal.coef Decimal.of_int].
      change (100 =? 0) with false. cbv iota.
      destruct (Decimal.coef rate =? 0); [discriminate|].
      destruct (_ mod _ =? 0); [destruct (Decimal.strip_zeros _ _ _ _)|];
        discriminate. }
  split.
  { intros Hpos. subst total.
    unfold CardPurchaseSerializer.total_with_interest_of. rewrite Hpos.
    reflexivity. }
  split; [exact Hq|]. split; [reflexivity|]. split; [reflexivity|].
  split.
  { rewrite installment_loop_card_purchases, Hcp4. simpl. rewrite Hcp1.
    reflexivity. }
  split.
  { rewrite Hrows_tx, Htx4. simpl. rewrite Htx1, <- app_assoc. reflexivity. }
  repeat (split; [reflexivity|]).
  split; [rewrite Hlen; apply Z2Nat.id; lia|].
  split; [exact Hrows|].
  intros k tx Hk. cbv zeta.
  destruct (Hrows k tx Hk) as (_ & _ & _ & _ & _ & _ & Hd).
  cbn [CardPurchase.first_installment_date] in Hd. rewrite Hd.
  cbn [Dates.at_midnight Dates.dt_date Dates.dt_secs].
  destruct (installment_date_month first k Hmonth) as [Hi Hm].
  split; [reflexivity|]. split; [exact Hi|]. split; [exact Hm|].
  destruct k as [|j]; [reflexivity|].
  assert (Hj : is_Some (rows !! j)).
  { apply lookup_lt_is_Some. apply lookup_lt_Some in Hk. lia. }
  destruct Hj as [before Hb]. exists before. split; [exact Hb|].
  destruct (Hrows j before Hb) as (_ & _ & _ & _ & _ & _ & Hdb).
  cbn [CardPurchase.first_installment_date] in Hdb. rewrite Hdb.
  cbn [Dates.at_midnight Dates.dt_date].
  change (installment_date first (S j))
    with (Dates.add_months (installment_date first j) 1).
  apply (add_months_one (installment_date first j)).
  apply (installment_date_month first j Hmonth).
Qed.

(** The worked case of the design: 1200.00 in 12 installments at no
    interest is one confirmed row of 1200.00 and twelve unconfirmed rows
    of 100.00 each, whatever the power operator computes. *)
Lemma card_purchase_1200_in_12 decimal_pow :
  let r := CardPurchaseSerializer.create decimal_pow Sample.test_user
             Sample.purchase_request Sample.tables in
  is_ok r.1 = true
  /\ List.map (fun t => (Transaction.amount t, Transaction.is_confirmed t))
       (transactions r.2)
     = (Decimal.money 120000, true)
       :: List.repeat (Decimal.money 10000, false) 12.
Proof. vm_compute. split; reflexivity. Qed.

Lemma create_card_purchase_schedule_witness :
  exists purchase d' original installments,
    CardPurchaseSerializer.create Decimal.pow Sample.test_user
      Sample2.interest_request Sample.tables = (Ok purchase, d')
    /\ CardPurchase.total_with_interest purchase
       = Decimal.mk 115762500000 (-8)
    /\ CardPurchase.installment_amount purchase = Decimal.mk 38587500000 (-8)
    /\ transactions d' = original :: installments
    /\ Transaction.amount original = Decimal.money 100000
    /\ Transaction.is_confirmed original = true
    /\ List.map (fun t => (Transaction.amount t, Transaction.is_confirmed t,
                           Dates.dt_date (Transaction.date t)))
         installments
       = [(Decimal.money 38588, false, Dates.mkdate 2024 2 29);
          (Decimal.money 38588, false, Dates.mkdate 2024 3 29);
          (Decimal.money 38588, false, Dates.mkdate 2024 4 29)].
Proof.
  destruct (create_card_purchase_schedule Decimal.pow Sample.test_user
              Sample2.interest_request Sample.tables)
    as (purchase & d' & original & installments & Hc & Hpos & _ & Hdiv & _
        & _ & _ & Htx & _ & _ & _ & Hconf & Hamt & _ & Hlen & Hrows & _).
  - reflexivity.
  - split; discriminate.
  - discriminate.
  - vm_compute. reflexivity.
  - exists purchase, d', original, installments.
    split; [exact Hc|].
    destruct (Hpos eq_refl) as (m & Hm & Htotal).
    vm_compute in Hm. injection Hm as <-.
    assert (Ht : CardPurchase.total_with_interest purchase
                 = Decimal.mk 115762500000 (-8))
      by (rewrite Htotal; vm_compute; reflexivity).
    split; [exact Ht|].
    assert (Hi : CardPurchase.installment_amount purchase
                 = Decimal.mk 38587500000 (-8)).
    { rewrite Ht in Hdiv.
      change (Some (Decimal.mk 38587500000 (-8))
              = Some (CardPurchase.installment_amount purchase)) in Hdiv.
      congruence. }
    split; [exact Hi|].
    split; [exact Htx|]. split; [rewrite Hamt; vm_compute; reflexivity|].
    split; [exact Hconf|].
    vm_compute in Hc. injection Hc as _ Hd'.
    rewrite <- Hd' in Htx. vm_compute in Htx.
    injection Htx as _ <-. vm_compute. reflexivity.
Defined.

(* --------------------------------------------------------------------- *)
(** ** The order of dates, and what "latest" and "not expired" mean *)

Lemma date_leb_iff a b :
  Dates.date_leb a b = true
  <-> Dates.year a < Dates.year b
      \/ (Dates.year a = Dates.year b
          /\ (Dates.month a < Dates.month b
              \/ (Dates.month a = Dates.month b /\ Dates.day a <= Dates.day b))).
Proof.
  unfold Dates.date_leb, Dates.date_cmp.
  destruct (Z.compare_spec (Dates.year a) (Dates.year b));
    destruct (Z.compare_spec (Dates.month a) (Dates.month b));
    destruct (Z.compare_spec (Dates.day a) (Dates.day b));
    split; intros; try reflexivity; try discriminate; lia.
Qed.

Lemma date_ltb_iff a b :
  Dates.date_ltb a b = true
  <-> Dates.year a < Dates.year b
      \/ (Dates.year a = Dates.year b
          /\ (Dates.month a < Dates.month b
              \/ (Dates.month a = Dates.month b /\ Dates.day a < Dates.day b))).
Proof.
  unfold Dates.date_ltb, Dates.date_cmp.
  destruct (Z.compare_spec (Dates.year a) (Dates.year b));
    destruct (Z.compare_spec (Dates.month a) (Dates.month b));
    destruct (Z.compare_spec (Dates.day a) (Dates.day b));
    split; intros; try reflexivity; try discriminate; lia.
Qed.

Lemma date_cmp_eq a b : Dates.date_cmp a b = Eq <-> a = b.
Proof.
  unfold Dates.date_cmp. destruct a as [ya ma da], b as [yb mb db]. simpl.
  destruct (Z.compare_spec ya yb); destruct (Z.compare_spec ma mb);
    destruct (Z.compare_spec da db);
    split; intros H'; try discriminate; try (injection H' as -> -> ->; lia);
    subst; reflexivity.
Qed.

Lemma datetime_leb_iff a b :
  Dates.datetime_leb a b = true
  <-> Dates.date_ltb (Dates.dt_date a) (Dates.dt_date b) = true
      \/ (Dates.dt_date a = Dates.dt_date b /\ Dates.dt_secs a <= Dates.dt_secs b).
Proof.
  unfold Dates.datetime_leb, Dates.datetime_cmp, Dates.date_ltb.
  pose proof (date_cmp_eq (Dates.dt_date a) (Dates.dt_date b)) as Heq.
  destruct (Dates.date_cmp (Dates.dt_date a) (Dates.dt_date b)).
  - destruct (Z.compare_spec (Dates.dt_secs a) (Dates.dt_secs b));
      split; intros H'; try reflexivity; try discriminate.
    + right. split; [apply Heq; reflexivity | lia].
    + right. split; [apply Heq; reflexivity | lia].
    + destruct H' as [H'|[_ H']]; [discriminate | lia].
  - split; auto.
  - split; [discriminate|]. intros [H'|[H' _]]; [discriminate|].
    apply Heq in H'. discriminate.
Qed.

Lemma datetime_ltb_iff a b :
  Dates.datetime_ltb a b = true
  <-> Dates.date_ltb (Dates.dt_date a) (Dates.dt_date b) = true
      \/ (Dates.dt_date a = Dates.dt_date b /\ Dates.dt_secs a < Dates.dt_secs b).
Proof.
  unfold Dates.datetime_ltb, Dates.datetime_cmp, Dates.date_ltb.
  pose proof (date_cmp_eq (Dates.dt_date a) (Dates.dt_date b)) as Heq.
  destruct (Dates.date_cmp (Dates.dt_date a) (Dates.dt_date b)).
  - destruct (Z.compare_spec (Dates.dt_secs a) (Dates.dt_secs b));
      split; intros H'; try reflexivity; try discriminate.
    + destruct H' as [H'|[_ H']]; [discriminate | lia].
    + right. split; [apply Heq; reflexivity | lia].
    + destruct H' as [H'|[_ H']]; [discriminate | lia].
  - split; auto.
  - split; [discriminate|]. intros [H'|[H' _]]; [discriminate|].
    apply Heq in H'. discriminate.
Qed.

Lemma date_ltb_trans a b c :
  Dates.date_ltb a b = true -> Dates.date_ltb b c = true ->
  Dates.date_ltb a c = true.
Proof. rewrite !date_ltb_iff. lia. Qed.

Lemma datetime_leb_trans a b c :
  Dates.datetime_leb a b = true -> Dates.datetime_leb b c = true ->
  Dates.datetime_leb a c = true.
Proof.
  rewrite !datetime_leb_iff.
  intros [H1|[H1 H1']] [H2|[H2 H2']].
  - left. eapply date_ltb_trans; eassumption.
  - left. rewrite <- H2. exact H1.
  - left. rewrite H1. exact H2.
  - right. split; [congruence | lia].
Qed.

Lemma datetime_ltb_leb a b :
  Dates.datetime_ltb a b = true -> Dates.datetime_leb a b = true.
Proof.
  unfold Dates.datetime_ltb, Dates.datetime_leb.
  destruct (Dates.datetime_cmp a b); congruence.
Qed.

Lemma datetime_leb_total a b :
  Dates.datetime_ltb a b = false -> Dates.datetime_leb b a = true.
Proof.
  intros H. destruct (Dates.datetime_leb b a) eqn:E; [reflexivity|].
  exfalso.
  assert (Hn : ~ Dates.datetime_ltb a b = true) by congruence.
  assert (Hm : ~ Dates.datetime_leb b a = true) by congruence.
  rewrite datetime_ltb_iff in Hn. rewrite datetime_leb_iff in Hm.
  rewrite !date_ltb_iff in *.
  destruct a as [[ya ma da] sa], b as [[yb mb db] sb]. simpl in *.
  assert (ya = yb /\ ma = mb /\ da = db) as (-> & -> & ->) by lia.
  destruct (Z_lt_le_dec sa sb).
  - apply Hn. right. split; [reflexivity | lia].
  - apply Hm. right. split; [reflexivity | lia].
Qed.

(** [latest] is an element of the list and no row of the list is dated
    after it. *)
Lemma latest_max rows r :
  CurrencyService.latest rows = Some r ->
  forall x, In x rows ->
    Dates.datetime_leb (ExchangeRate.date x) (ExchangeRate.date r) = true.
Proof.
  revert r. induction rows as [|y rows IH]; intros r H x Hx; [destruct Hx|].
  simpl in H. destruct (CurrencyService.latest rows) as [r'|] eqn:El.
  - destruct (Dates.datetime_ltb (ExchangeRate.date y) (ExchangeRate.date r'))
      eqn:E; injection H as <-.
    + destruct Hx as [<-|Hx]; [apply datetime_ltb_leb, E | apply (IH _ eq_refl), Hx].
    + destruct Hx as [<-|Hx].
      * apply datetime_leb_iff. right. split; [reflexivity | lia].
      * eapply datetime_leb_trans; [apply (IH _ eq_refl), Hx|].
        apply datetime_leb_total, E.
  - injection H as <-. apply latest_None in El. subst rows.
    destruct Hx as [<-|[]]. apply datetime_leb_iff. right.
    split; [reflexivity | lia].
Qed.

Lemma next_day_later d : Dates.date_ltb d (Dates.next_day d) = true.
Proof.
  apply date_ltb_iff. unfold Dates.next_day.
  destruct (Dates.day d <? _) eqn:E1; simpl; [lia|].
  destruct (Dates.month d <? 12) eqn:E2; simpl; lia.
Qed.

Lemma add_days_later d n :
  (0 < n)%nat -> Dates.date_ltb d (Dates.add_days d n) = true.
Proof.
  unfold Dates.add_days. induction n as [|n IH]; [lia|]. intros _.
  destruct n as [|n].
  - simpl. apply next_day_later.
  - eapply date_ltb_trans; [apply IH; lia|].
    change (Nat.iter (S (S n)) Dates.next_day d)
      with (Dates.next_day (Nat.iter (S n) Dates.next_day d)).
    apply next_day_later.
Qed.

(** With a positive timeout, an entry set now is live now. *)
Lemma expiry_later e :
  0 < CurrencyService.cache_ttl e ->
  0 <= Dates.dt_secs (CurrencyService.now e) < 86400 ->
  Dates.datetime_ltb (CurrencyService.now e) (CurrencyService.expiry e) = true.
Proof.
  intros Httl Hsecs. unfold CurrencyService.expiry.
  replace (CurrencyService.cache_ttl e <=? 0) with false
    by (symmetry; apply Z.leb_gt; exact Httl).
  apply datetime_ltb_iff. unfold Dates.plus_seconds. simpl.
  set (total := Dates.dt_secs (CurrencyService.now e)
                + CurrencyService.cache_ttl e).
  destruct (Z_lt_le_dec total 86400) as [Hlt|Hge].
  - right. rewrite Z.div_small, Z.mod_small by lia. simpl.
    split; [reflexivity | lia].
  - left. apply add_days_later.
    assert (1 <= total / 86400) by (apply Z.div_le_lower_bound; lia). lia.
Qed.










(** X23.  The behaviour [test_cache_functionality] exercises: after a hit
    on the stored rate, the next resolution of the pair is served from the
    cache and gives the same rate. *)
Lemma stored_rate_then_cached e s f t r :
  f <> t ->
  0 < CurrencyService.cache_ttl e ->
  0 <= Dates.dt_secs (CurrencyService.now e) < 86400 ->
  (forall c, ~ cache_hit e s f t c) ->
  recent_rate e s f t r ->
  let s1 := (CurrencyService.get_exchange_rate e s f t).2 in
  CurrencyService.get_exchange_rate e s f t
  = (Some r, CurrencyService._cache_rate e s f t r)
  /\ cache_hit e s1 f t r
  /\ CurrencyService.get_exchange_rate e s1 f t = (Some r, s1).
Proof.
  intros Hne Httl Hsecs Hmiss Hrec s1.
  assert (Hft : String.eqb f t = false) by (apply String.eqb_neq; exact Hne).
  assert (H1 : CurrencyService.get_exchange_rate e s f t
               = (Some r, CurrencyService._cache_rate e s f t r)).
  { unfold CurrencyService.get_exchange_rate. rewrite Hft.
    replace (truthy_opt (CurrencyService._get_cached_rate e s f t)) with false.
    - apply recent_rate_iff in Hrec. destruct Hrec as [Hd Ht].
      rewrite Hd. simpl. rewrite Ht. reflexivity.
    - symmetry. apply truthy_opt_false. intros c Hc.
      apply (Hmiss c), cache_hit_iff, Hc. }
  assert (Hhit : cache_hit e s1 f t r).
  { subst s1. rewrite H1. simpl.
    exists (CurrencyService.mk_entry r (CurrencyService.expiry e)).
    split; [apply lookup_insert_eq|]. split; [apply expiry_later; assumption|].
    split; [reflexivity|]. destruct Hrec as (_ & _ & _ & Ht). exact Ht. }
  split; [exact H1|]. split; [exact Hhit|].
  apply cache_hit_iff in Hhit. destruct Hhit as [Hc Ht].
  unfold CurrencyService.get_exchange_rate. rewrite Hft, Hc. simpl.
  rewrite Ht. reflexivity.
Qed.

(** What the second source stands for in the table: a row of the exact
    pair, dated within the last 24 hours, with no later such row. *)
Lemma recent_rate_stored e s f t r :
  recent_rate e s f t r ->
  exists row,
    In row (CurrencyService.exchange_rates s)
    /\ ExchangeRate.from_currency row = f
    /\ ExchangeRate.to_currency row = t
    /\ Dates.datetime_leb (Dates.minus_24h (CurrencyService.now e))
         (ExchangeRate.date row) = true
    /\ ExchangeRate.rate row = r
    /\ forall other,
         In other (CurrencyService.exchange_rates s) ->
         CurrencyService.for_pair f t other = true ->
         Dates.datetime_leb (Dates.minus_24h (CurrencyService.now e))
           (ExchangeRate.date other) = true ->
         Dates.datetime_leb (ExchangeRate.date other) (ExchangeRate.date row)
         = true.
Proof.
  intros (row & Hl & Hr & _). exists row.
  pose proof (latest_In _ _ Hl) as Hin. apply filter_In in Hin.
  destruct Hin as [Hin Hp]. apply andb_true_iff in Hp. destruct Hp as [Hp Hw].
  unfold CurrencyService.for_pair in Hp. apply andb_true_iff in Hp.
  destruct Hp as [Hf Ht]. apply String.eqb_eq in Hf, Ht.
  repeat (split; [assumption|]).
  intros other Ho Hpo Hwo. apply (latest_max _ _ Hl).
  apply filter_In. split; [exact Ho|]. rewrite Hpo, Hwo. reflexivity.
Qed.

(* --------------------------------------------------------------------- *)
(** ** The value [update] leaves on the source row *)


(** On the sample: the transfer of 100.00 had left 9900.00 on the source;
    after the amount is changed to 250.00 the row reads 9650.00. *)
Lemma amount_change_source_balance :
  balance_of Sample.after_transfer 10 = Some (Decimal.money 990000)
  /\ balance_of
       (TransactionSerializer.update Sample.posted_transfer
          Sample.amount_change Sample.after_transfer).2 10
     = Some (Decimal.money 965000).
Proof. vm_compute. split; reflexivity. Qed.

(* ===================================================================== *)
(** * Part III: further properties of the serializers, views, services   *)
(* ===================================================================== *)

(* --------------------------------------------------------------------- *)
(** ** [TransactionSerializer.validate] *)

(** X1.  [validate] accepts exactly the data whose account and category
    belong to the requesting user and which, for a transfer, names a
    target account of the same user other than the source, and otherwise
    carries a category of the transaction's own type.  What it accepts it
    returns unchanged; what it refuses it refuses with a
    [ValidationError]. *)
Theorem validate_accepts_iff request_user data :
  (TransactionSerializer.validate request_user data = Ok data
   <-> Account.user (TransactionSerializer.account data) = request_user
       /\ Category.user (TransactionSerializer.category data) = request_user
       /\ match TransactionSerializer.transaction_type data with
          | TxType.transfer =>
              exists target,
                TransactionSerializer.target_account data = Some (Some target)
                /\ Account.user target = request_user
                /\ Account.id target
                   <> Account.id (TransactionSerializer.account data)
          | ty =>
              Category.transaction_type (TransactionSerializer.category data)
              = ty
          end)
  /\ (TransactionSerializer.validate request_user data = Ok data
      \/ exists msg,
           TransactionSerializer.validate request_user data
           = Raise (ValidationError msg)).
Proof.
  unfold TransactionSerializer.validate.
  destruct (Z.eqb_spec (Account.user (TransactionSerializer.account data))
              request_user) as [Ha|Ha]; cbn [negb].
  2:{ split; [split; [discriminate | intros [H _]; contradiction]|eauto]. }
  destruct (Z.eqb_spec (Category.user (TransactionSerializer.category data))
              request_user) as [Hc|Hc]; cbn [negb].
  2:{ split; [split; [discriminate | intros (_ & H & _); contradiction]|eauto]. }
  destruct (TransactionSerializer.transaction_type data) eqn:Hty;
    cbn [TxType.eqb orb andb].
  - destruct (Category.transaction_type (TransactionSerializer.category data));
      cbn [TxType.eqb negb]; split; try (right; eauto; fail);
      try (left; reflexivity);
      split; intros H; try discriminate; try tauto;
      destruct H as (_ & _ & H); discriminate.
  - destruct (Category.transaction_type (TransactionSerializer.category data));
      cbn [TxType.eqb negb]; split; try (right; eauto; fail);
      try (left; reflexivity);
      split; intros H; try discriminate; try tauto;
      destruct H as (_ & _ & H); discriminate.
  - destruct (TransactionSerializer.target_account data) as [[target|]|].
    + destruct (Z.eqb_spec (Account.user target) request_user) as [Ht|Ht];
        cbn [negb].
      * destruct (Z.eqb_spec (Account.id target)
                    (Account.id (TransactionSerializer.account data)))
          as [Hi|Hi].
        -- split; [|eauto]. split; [discriminate|].
           intros (_ & _ & t' & E & _ & Hne). injection E as <-. contradiction.
        -- split; [|left; reflexivity]. split; [|reflexivity].
           intros _. repeat (split; [assumption|]). exists target. auto.
      * split; [|eauto]. split; [discriminate|].
        intros (_ & _ & t' & E & Hu & _). injection E as <-. contradiction.
    + split; [|eauto]. split; [discriminate|].
      intros (_ & _ & t' & E & _). discriminate.
    + split; [|eauto]. split; [discriminate|].
      intros (_ & _ & t' & E & _). discriminate.
Qed.

(* --------------------------------------------------------------------- *)
(** ** What [create] writes *)

Lemma get_or_create_category_accounts user name ty description color d :
  accounts (get_or_create_category user name ty description color d).2
  = accounts d.
Proof. apply get_or_create_category_frame. Qed.

(** X2.  [TransactionSerializer.create] writes no account row other than
    the transaction's own account and, when one is given, its target:
    whatever the data, every other row is as it was. *)
Theorem create_touches_only_its_accounts request_user now data d k :
  k <> Account.id (TransactionSerializer.account data) ->
  (forall target,
      TransactionSerializer.target_account data = Some (Some target) ->
      k <> Account.id target) ->
  accounts (TransactionSerializer.create request_user now data d).2 !! k
  = accounts d !! k.
Proof.
  intros Hk Htarget.
  unfold TransactionSerializer.create, atomic,
    TransactionSerializer.super_create,
    TransactionSerializer._update_account_balance.
  cbn [TransactionSerializer.row TransactionSerializer.account_obj
       Transaction.amount Transaction.transaction_type
       TransactionSerializer.set_account_obj].
  destruct (TxType.eqb (TransactionSerializer.transaction_type data)
              TxType.transfer).
  - unfold TransactionSerializer._create_transfer_counterpart.
    cbn [TransactionSerializer.row TransactionSerializer.account_obj
         TransactionSerializer.target_account_obj Transaction.user].
    match goal with
    | |- context [get_or_create_category ?u ?n ?t ?ds ?c ?d0] =>
        pose proof (get_or_create_category_accounts u n t ds c d0) as Hcat;
        destruct (get_or_create_category u n t ds c d0) as [cat d1]
    end.
    cbn [snd] in Hcat.
    destruct (TransactionSerializer.target_account data) as [[target|]|];
      cbn [snd TransactionSerializer.target_account_obj
           TransactionSerializer.set_account_obj]; try reflexivity.
    unfold save_balance.
    cbn [accounts set_accounts set_next_id insert_transaction
         set_transactions Account.id Account.set_balance].
    rewrite lookup_alter_ne by (apply not_eq_sym, Htarget; reflexivity).
    rewrite Hcat. unfold save_balance.
    cbn [accounts set_accounts set_next_id insert_transaction
         set_transactions Account.id Account.set_balance].
    rewrite lookup_alter_ne by congruence. reflexivity.
  - cbn [snd]. unfold save_balance.
    cbn [accounts set_accounts set_next_id insert_transaction
         set_transactions Account.id Account.set_balance].
    rewrite lookup_alter_ne by congruence. reflexivity.
Qed.

Lemma create_touches_only_its_accounts_witness :
  accounts (TransactionSerializer.create Sample.test_user Sample.noon
              (Sample.request TxType.transfer Sample.expense_cat 10000
                 (Some Sample.savings_account)) Sample.tables).2 !! 12
  = accounts Sample.tables !! 12.
Proof.
  apply create_touches_only_its_accounts.
  - discriminate.
  - intros target H. injection H as <-. discriminate.
Defined.


(* --------------------------------------------------------------------- *)
(** ** The bulk endpoint *)




(* --------------------------------------------------------------------- *)
(** ** [TransactionViewSet.confirm] *)

(** A row-wise write that does not change what a lookup tests commutes
    with the lookup. *)
Lemma find_map_stable {A : Type} (p : A -> bool) (f : A -> A) l :
  (forall x, p (f x) = p x) ->
  List.find p (List.map f l) = option_map f (List.find p l).
Proof.
  intros Hp. induction l as [|x l IH]; [reflexivity|].
  simpl. rewrite Hp. destruct (p x); [reflexivity | exact IH].
Qed.

Lemma find_none_iff {A : Type} (p : A -> bool) l :
  List.find p l = None <-> forall x, In x l -> p x = false.
Proof.
  split.
  - intros H x Hx. exact (find_none p l H x Hx).
  - induction l as [|y l IH]; intros H; [reflexivity|].
    simpl. rewrite (H y (or_introl eq_refl)).
    apply IH. intros x Hx. apply H. right. exact Hx.
Qed.

(** Confirming a row changes nothing a request without a filter on
    [is_confirmed] looks at. *)
Lemma reaches_set_is_confirmed q request_user t b :
  TransactionViewSet.is_confirmed q = None ->
  TransactionViewSet.reaches q request_user
    (Transaction.set_is_confirmed t b)
  = TransactionViewSet.reaches q request_user t.
Proof.
  intros Hq. unfold TransactionViewSet.reaches, TransactionViewSet.in_window,
    TransactionViewSet.found_by_search, TransactionViewSet.filterset_keeps.
  rewrite Hq. destruct t. reflexivity.
Qed.

Lemma well_formed_set_transactions q d rows :
  TransactionViewSet.well_formed q (set_transactions d rows)
  = TransactionViewSet.well_formed q d.
Proof. reflexivity. Qed.

(** X5.  [confirm], whatever the query string of the request.  It
    answers 404 exactly when the lookup takes the request and the caller
    owns no transaction with that key among the rows the request's
    filters keep; it fails only with that 404 or with the rejection of
    the query string, and a failure writes nothing.  When it answers,
    the row it shows is a row of the table with that key and owner which
    the filters keep, now confirmed.  For a request without query
    parameters the 404 says that the caller owns no transaction with
    that key. *)
Theorem confirm_own_rows_only q request_user pk d :
  (TransactionViewSet.confirm_with q request_user pk d = (Raise Http404, d)
   <-> TransactionViewSet.well_formed q d = true
       /\ forall t, In t (transactions d) -> Transaction.id t = pk ->
                    TransactionViewSet.reaches q request_user t = false)
  /\ (forall e d',
        TransactionViewSet.confirm_with q request_user pk d = (Raise e, d') ->
        d' = d
        /\ (e = Http404 \/ e = Filters.invalid_filter
            \/ e = Filters.invalid_date))
  /\ (forall t d',
        TransactionViewSet.confirm_with q request_user pk d = (Ok t, d') ->
        Transaction.id t = pk
        /\ Transaction.user t = request_user
        /\ Transaction.is_confirmed t = true
        /\ exists r, In r (transactions d)
                     /\ TransactionViewSet.reaches q request_user r = true
                     /\ t = Transaction.set_is_confirmed r true)
  /\ (TransactionViewSet.confirm request_user pk d = (Raise Http404, d)
      <-> forall t, In t (transactions d) -> Transaction.id t = pk ->
                    Transaction.user t <> request_user).
Proof.
  split; [|split; [|split]].
  - rewrite <- transaction_lookup_404.
    unfold TransactionViewSet.confirm_with.
    destruct (TransactionViewSet.get_object_with q request_user pk d);
      split; intros H; congruence.
  - intros e d'. unfold TransactionViewSet.confirm_with.
    destruct (TransactionViewSet.get_object_with q request_user pk d)
      as [t|e0] eqn:E; [discriminate|].
    intros H. injection H as <- <-. split; [reflexivity|].
    apply (transaction_lookup_Raise _ _ _ _ _ E).
  - intros t d'. unfold TransactionViewSet.confirm_with.
    destruct (TransactionViewSet.get_object_with q request_user pk d)
      as [r|e0] eqn:E; [|discriminate].
    intros H. injection H as <- <-.
    destruct (transaction_lookup_Ok _ _ _ _ _ E)
      as (_ & Hin & Hid & Hu & Hr & _).
    split; [exact Hid|]. split; [exact Hu|]. split; [reflexivity|].
    exists r. auto.
  - unfold TransactionViewSet.confirm, TransactionViewSet.confirm_with.
    change (TransactionViewSet.get_object_with TransactionViewSet.no_query)
      with TransactionViewSet.get_object.
    rewrite transaction_lookup_no_query.
    destruct (List.find _ (transactions d)) as [r|] eqn:E.
    + pose proof (find_some _ _ E) as [Hin Hp].
      apply andb_true_iff in Hp. destruct Hp as [Hid Hu].
      apply Z.eqb_eq in Hid, Hu.
      split; [discriminate|]. intros H. exfalso. exact (H r Hin Hid Hu).
    + split; [|reflexivity]. intros _ t Hin Hid Hu.
      pose proof (proj1 (find_none_all _ _) E t Hin) as Hp.
      cbv beta in Hp. rewrite Hid, Hu, !Z.eqb_refl in Hp. discriminate.
Qed.

(** A caller who asks for a pending row of theirs among the rows that
    match a text it does not contain gets a 404; without the query
    string the same row is confirmed. *)
Lemma confirm_search_miss :
  TransactionViewSet.confirm_with
    (TransactionViewSet.mk_query Filters.Absent Filters.Absent "zzz"
       Filters.Absent Filters.Absent Filters.Absent "" Filters.Absent None)
    Sample.test_user 50 Sample.with_installment
  = (Raise Http404, Sample.with_installment)
  /\ is_ok (TransactionViewSet.confirm Sample.test_user 50
              Sample.with_installment).1 = true.
Proof. vm_compute. split; reflexivity. Qed.

(** X6.  [confirm] again, with the same query string.  Without a filter
    on [is_confirmed] the second call answers the same and leaves the
    tables as the first did; in particular for a request without query
    parameters.  With [is_confirmed=false] in the query string a call
    that answered is followed by a 404: the row it confirmed is no
    longer among the rows the filter keeps.  Either way [confirm] keeps
    the number of rows, changes no row with another key and never writes
    an account. *)
Theorem confirm_idempotent q request_user pk d :
  let r := TransactionViewSet.confirm_with q request_user pk d in
  (TransactionViewSet.is_confirmed q = None ->
   TransactionViewSet.confirm_with q request_user pk r.2 = r)
  /\ (TransactionViewSet.is_confirmed q = Some false ->
      is_ok r.1 = true ->
      TransactionViewSet.confirm_with q request_user pk r.2
      = (Raise Http404, r.2))
  /\ TransactionViewSet.confirm request_user pk
       (TransactionViewSet.confirm request_user pk d).2
     = TransactionViewSet.confirm request_user pk d
  /\ length (transactions r.2) = length (transactions d)
  /\ (forall t, In t (transactions r.2) -> Transaction.id t <> pk ->
                In t (transactions d))
  /\ accounts r.2 = accounts d.
Proof.
  assert (Again : forall q,
             TransactionViewSet.is_confirmed q = None ->
             TransactionViewSet.confirm_with q request_user pk
               (TransactionViewSet.confirm_with q request_user pk d).2
             = TransactionViewSet.confirm_with q request_user pk d).
  { clear q. intros q Hq. unfold TransactionViewSet.confirm_with.
    destruct (TransactionViewSet.get_object_with q request_user pk d)
      as [r|e] eqn:E; cbn [snd]; [|rewrite E; reflexivity].
    destruct (transaction_lookup_Ok _ _ _ _ _ E)
      as (Hwf & Hin & Hid & Hu & Hr & Hfind).
    rewrite transaction_lookup, well_formed_set_transactions, Hwf.
    cbn [transactions set_transactions Transaction.id
         Transaction.set_is_confirmed].
    rewrite find_map_stable.
    2:{ intros x. destruct (Transaction.id x =? Transaction.id r);
          [|reflexivity].
        rewrite reaches_set_is_confirmed by exact Hq.
        destruct x; reflexivity. }
    rewrite Hfind. cbn [option_map]. rewrite Z.eqb_refl.
    cbn [Transaction.id Transaction.set_is_confirmed].
    f_equal. unfold set_transactions.
    cbn [accounts categories transactions card_purchases auto_debits next_id].
    f_equal. rewrite List.map_map. apply List.map_ext. intros x.
    destruct (Transaction.id x =? Transaction.id r) eqn:Ex;
      cbn [Transaction.id Transaction.set_is_confirmed]; rewrite Ex;
      reflexivity. }
  cbv zeta. split; [apply Again|]. split; [|split; [apply Again; reflexivity|]].
  - intros Hq.
    destruct (TransactionViewSet.get_object_with q request_user pk d)
      as [r|e] eqn:E.
    2:{ unfold TransactionViewSet.confirm_with at 1. rewrite E.
        discriminate. }
    intros _.
    destruct (transaction_lookup_Ok _ _ _ _ _ E)
      as (Hwf & Hin & Hid & Hu & Hr & Hfind).
    assert (Hfirst : TransactionViewSet.confirm_with q request_user pk d
                     = (Ok (Transaction.set_is_confirmed r true),
                        set_transactions d
                          (List.map
                             (fun x => if Transaction.id x =? Transaction.id r
                                       then Transaction.set_is_confirmed x true
                                       else x)
                             (transactions d))))
      by (unfold TransactionViewSet.confirm_with; rewrite E; reflexivity).
    rewrite Hfirst. cbn [snd].
    match goal with
    | |- TransactionViewSet.confirm_with _ _ _ ?d1 = _ =>
        assert (H404 : TransactionViewSet.get_object_with q request_user pk d1
                       = Raise Http404)
    end.
    { apply transaction_lookup_404.
      split; [rewrite well_formed_set_transactions; exact Hwf|].
      intros t Ht Htid. cbn [transactions set_transactions] in Ht.
      apply in_map_iff in Ht. destruct Ht as (x & Hx & _).
      cbn [Transaction.id Transaction.set_is_confirmed] in Hx.
      destruct (Transaction.id x =? Transaction.id r) eqn:Ex.
      - subst t. unfold TransactionViewSet.reaches,
          TransactionViewSet.filterset_keeps.
        rewrite Hq. cbn [Transaction.is_confirmed
                         Transaction.set_is_confirmed Filters.keeps_bool
                         Bool.eqb].
        rewrite !andb_false_r. reflexivity.
      - exfalso. subst t. apply Z.eqb_neq in Ex. congruence. }
    unfold TransactionViewSet.confirm_with. rewrite H404. reflexivity.
  - unfold TransactionViewSet.confirm_with.
    destruct (TransactionViewSet.get_object_with q request_user pk d)
      as [r|e] eqn:E; cbn [snd]; [|repeat split; auto].
    destruct (transaction_lookup_Ok _ _ _ _ _ E)
      as (_ & _ & Hid & _ & _ & _).
    cbn [transactions set_transactions accounts Transaction.id
         Transaction.set_is_confirmed].
    split; [apply List.length_map|]. split; [|reflexivity].
    intros t Ht Hne. apply in_map_iff in Ht. destruct Ht as (x & Hx & Hxin).
    destruct (Transaction.id x =? Transaction.id r) eqn:Ex.
    + exfalso. apply Hne. subst t. apply Z.eqb_eq in Ex.
      cbn [Transaction.id Transaction.set_is_confirmed]. congruence.
    + subst t. exact Hxin.
Qed.

(* --------------------------------------------------------------------- *)
(** ** Auto-debits: creation, the next date, and the view actions *)

Lemma date_leb_refl a : Dates.date_leb a a = true.
Proof. apply date_leb_iff. lia. Qed.

Lemma date_ltb_not_leb a b :
  Dates.date_ltb a b = true -> Dates.date_leb b a = false.
Proof.
  intros H. destruct (Dates.date_leb b a) eqn:E; [|reflexivity].
  apply date_ltb_iff in H. apply date_leb_iff in E. lia.
Qed.

Lemma date_leb_false_ltb a b :
  Dates.date_leb a b = false -> Dates.date_ltb b a = true.
Proof.
  intros H. destruct (Dates.date_ltb b a) eqn:E; [reflexivity|]. exfalso.
  assert (Hn : ~ Dates.date_leb a b = true) by congruence.
  assert (Hm : ~ Dates.date_ltb b a = true) by congruence.
  rewrite date_leb_iff in Hn. rewrite date_ltb_iff in Hm. lia.
Qed.

Lemma date_ltb_leb a b :
  Dates.date_ltb a b = true -> Dates.date_leb a b = true.
Proof. rewrite date_ltb_iff, date_leb_iff. lia. Qed.

(** Adding months moves the month forward, whatever the day becomes. *)
Lemma add_months_month_later d k :
  1 <= k ->
  Dates.year d < Dates.year (Dates.add_months d k)
  \/ (Dates.year d = Dates.year (Dates.add_months d k)
      /\ Dates.month d < Dates.month (Dates.add_months d k)).
Proof.
  intros Hk. unfold Dates.add_months. cbn [Dates.year Dates.month].
  destruct (12 <? Dates.month d + k); lia.
Qed.

Lemma add_months_later d k :
  1 <= k -> Dates.date_ltb d (Dates.add_months d k) = true.
Proof.
  intros Hk. apply date_ltb_iff.
  destruct (add_months_month_later d k Hk) as [H|[H1 H2]]; lia.
Qed.

Lemma add_years_later d k :
  1 <= k -> Dates.date_ltb d (Dates.add_years d k) = true.
Proof.
  intros Hk. apply date_ltb_iff. unfold Dates.add_years.
  cbn [Dates.year]. lia.
Qed.

Lemma replace_day_same_month d n d' :
  Dates.replace_day d n = Some d' ->
  Dates.year d' = Dates.year d /\ Dates.month d' = Dates.month d.
Proof.
  unfold Dates.replace_day. destruct (_ && _); [|discriminate].
  intros H. injection H as <-. split; reflexivity.
Qed.

(** Whatever the frequency, the date computed from a last run lies
    strictly after it. *)
Lemma plus_days_Ok d n r :
  DateArith.plus_days d n = Ok r ->
  r = Dates.add_days d n /\ Dates.year r <= 9999.
Proof.
  unfold DateArith.plus_days, DateArith.MAXYEAR. cbv zeta.
  destruct (Dates.year (Dates.add_days d n) <=? 9999) eqn:E; [|discriminate].
  intros H. apply Z.leb_le in E.
  replace r with (Dates.add_days d n) by congruence. auto.
Qed.

Lemma plus_months_Ok d k r :
  DateArith.plus_months d k = Ok r ->
  r = Dates.add_months d k /\ Dates.year r <= 9999.
Proof.
  unfold DateArith.plus_months, DateArith.MAXYEAR. cbv zeta.
  destruct (Dates.year (Dates.add_months d k) <=? 9999) eqn:E;
    [|discriminate].
  intros H. injection H as <-. apply Z.leb_le in E. auto.
Qed.

Lemma plus_years_Ok d k r :
  DateArith.plus_years d k = Ok r ->
  r = Dates.add_years d k /\ Dates.year r <= 9999.
Proof.
  unfold DateArith.plus_years, DateArith.MAXYEAR. cbv zeta.
  destruct (Dates.year (Dates.add_years d k) <=? 9999) eqn:E;
    [|discriminate].
  intros H. injection H as <-. apply Z.leb_le in E. auto.
Qed.

Lemma calculate_next_execution_later a last next :
  AutoDebit.last_execution a = Some last ->
  AutoDebit.calculate_next_execution a = Ok next ->
  Dates.date_ltb last next = true.
Proof.
  intros Hlast. unfold AutoDebit.calculate_next_execution. rewrite Hlast.
  destruct (AutoDebit.frequency a).
  - intros H. apply plus_days_Ok in H. destruct H as [-> _].
    apply add_days_later. lia.
  - intros H. apply plus_days_Ok in H. destruct H as [-> _].
    apply add_days_later. lia.
  - intros H. apply plus_days_Ok in H. destruct H as [-> _].
    apply add_days_later. lia.
  - destruct (DateArith.plus_months last 1) as [next_date|e] eqn:Em;
      [|discriminate].
    apply plus_months_Ok in Em. destruct Em as [-> _].
    destruct (AutoDebit.day_of_month a) as [dom|].
    + destruct (dom =? 0).
      * intros H. injection H as <-. apply add_months_later. lia.
      * destruct (Dates.replace_day _ _) as [r|] eqn:E; [|discriminate].
        intros H. injection H as <-.
        apply replace_day_same_month in E. destruct E as [Ey Em].
        apply date_ltb_iff. rewrite Ey, Em.
        destruct (add_months_month_later last 1) as [H|[H1 H2]]; lia.
    + intros H. injection H as <-. apply add_months_later. lia.
  - intros H. apply plus_months_Ok in H. destruct H as [-> _].
    apply add_months_later. lia.
  - intros H. apply plus_years_Ok in H. destruct H as [-> _].
    apply add_years_later. lia.
Qed.

(** What it returns is a date of the calendar. *)
Lemma calculate_next_execution_in_range a last next :
  AutoDebit.last_execution a = Some last ->
  AutoDebit.calculate_next_execution a = Ok next ->
  Dates.year next <= 9999.
Proof.
  intros Hlast. unfold AutoDebit.calculate_next_execution. rewrite Hlast.
  destruct (AutoDebit.frequency a);
    try (intros H; apply plus_days_Ok in H; tauto);
    try (intros H; apply plus_months_Ok in H; tauto);
    try (intros H; apply plus_years_Ok in H; tauto).
  destruct (DateArith.plus_months last 1) as [next_date|e] eqn:Em;
    [|discriminate].
  apply plus_months_Ok in Em. destruct Em as [_ Hy].
  destruct (AutoDebit.day_of_month a) as [dom|].
  - destruct (dom =? 0).
    + intros H. injection H as <-. exact Hy.
    + destruct (Dates.replace_day _ _) as [r|] eqn:E; [|discriminate].
      intros H. injection H as <-.
      apply replace_day_same_month in E. destruct E as [Ey _]. lia.
  - intros H. injection H as <-. exact Hy.
Qed.

(** With no anchor, or one that is not negative, and the last run
    before the last year of the calendar, the computation does not
    fail. *)
Lemma calculate_next_execution_total a :
  (forall k, AutoDebit.day_of_month a = Some k -> 0 <= k) ->
  (forall last, AutoDebit.last_execution a = Some last ->
                Dates.year last <= 9998) ->
  exists next, AutoDebit.calculate_next_execution a = Ok next.
Proof.
  intros Hdom Hyear. unfold AutoDebit.calculate_next_execution.
  destruct (AutoDebit.last_execution a) as [last|]; [|eauto].
  specialize (Hyear last eq_refl).
  destruct (AutoDebit.frequency a);
    rewrite ?plus_days_in_range, ?plus_months_in_range, ?plus_years_in_range
      by (assumption || lia);
    eauto.
  destruct (AutoDebit.day_of_month a) as [dom|]; eauto.
  specialize (Hdom dom eq_refl).
  destruct (dom =? 0) eqn:E0; eauto.
  apply Z.eqb_neq in E0.
  unfold Dates.replace_day.
  pose proof (days_in_month_ge_28 (Dates.year (Dates.add_months last 1))
                (Dates.month (Dates.add_months last 1))) as H28.
  replace (1 <=? Z.min dom 28) with true by (symmetry; apply Z.leb_le; lia).
  replace (Z.min dom 28 <=? _) with true by (symmetry; apply Z.leb_le; lia).
  cbn [andb]. eauto.
Qed.

(** The only failures with such an anchor are those of a date past the
    end of the calendar. *)
Lemma calculate_next_execution_Raise a e :
  (forall k, AutoDebit.day_of_month a = Some k -> 0 <= k) ->
  AutoDebit.calculate_next_execution a = Raise e ->
  e = OverflowError "date value out of range"
  \/ exists r, e = DateArith.out_of_range r.
Proof.
  intros Hdom. unfold AutoDebit.calculate_next_execution.
  destruct (AutoDebit.last_execution a) as [last|]; [|discriminate].
  unfold DateArith.plus_days, DateArith.plus_months, DateArith.plus_years.
  cbv zeta.
  destruct (AutoDebit.frequency a);
    try (destruct (_ <=? DateArith.MAXYEAR); [discriminate|];
         intros H; injection H as <-; eauto).
  destruct (_ <=? DateArith.MAXYEAR);
    [|intros H; injection H as <-; eauto].
  destruct (AutoDebit.day_of_month a) as [dom|]; [|discriminate].
  specialize (Hdom dom eq_refl).
  destruct (dom =? 0) eqn:E0; [discriminate|].
  apply Z.eqb_neq in E0.
  unfold Dates.replace_day.
  pose proof (days_in_month_ge_28 (Dates.year (Dates.add_months last 1))
                (Dates.month (Dates.add_months last 1))) as H28.
  replace (1 <=? Z.min dom 28) with true by (symmetry; apply Z.leb_le; lia).
  replace (Z.min dom 28 <=? _) with true by (symmetry; apply Z.leb_le; lia).
  discriminate.
Qed.

(** X7.  [calculate_next_execution] with an anchor day that is absent or
    not negative.  For a debit that has not run it gives the start date.
    For one that has, it gives a date of the calendar strictly after the
    last run whenever it returns, whatever the frequency; it returns
    whenever the last run lies before the year 9999; and when it raises,
    the last run lies in the year 9999 and the exception is the
    [OverflowError] or the [ValueError] of a date past 9999-12-31. *)
Theorem calculate_next_execution_advances a :
  (forall k, AutoDebit.day_of_month a = Some k -> 0 <= k) ->
  match AutoDebit.last_execution a with
  | None =>
      AutoDebit.calculate_next_execution a = Ok (AutoDebit.start_date a)
  | Some last =>
      (Dates.year last <= 9998 ->
       exists next, AutoDebit.calculate_next_execution a = Ok next)
      /\ (forall next,
            AutoDebit.calculate_next_execution a = Ok next ->
            Dates.date_ltb last next = true /\ Dates.year next <= 9999)
      /\ (forall e,
            AutoDebit.calculate_next_execution a = Raise e ->
            9999 <= Dates.year last
            /\ (e = OverflowError "date value out of range"
                \/ exists r, e = DateArith.out_of_range r))
  end.
Proof.
  intros Hdom.
  destruct (AutoDebit.last_execution a) as [last|] eqn:El.
  - split; [|split].
    + intros Hy. apply calculate_next_execution_total; [exact Hdom|].
      intros l Hl. congruence.
    + intros next H. split.
      * exact (calculate_next_execution_later a last next El H).
      * exact (calculate_next_execution_in_range a last next El H).
    + intros e H. split; [|exact (calculate_next_execution_Raise a e Hdom H)].
      destruct (Z_le_gt_dec (Dates.year last) 9998) as [Hy|Hy]; [|lia].
      exfalso.
      destruct (calculate_next_execution_total a Hdom) as [next Hn];
        [intros l Hl; congruence | congruence].
  - unfold AutoDebit.calculate_next_execution. rewrite El. reflexivity.
Qed.

Lemma calculate_next_execution_advances_witness :
  exists next,
    AutoDebit.calculate_next_execution Sample.gym_debit = Ok next
    /\ Dates.date_ltb (Dates.mkdate 2023 12 31) next = true
    /\ Dates.year next <= 9999.
Proof.
  pose proof (calculate_next_execution_advances Sample.gym_debit
                (fun k H => match H in _ = y
                                  return match y with
                                         | Some k => 0 <= k
                                         | None => True
                                         end
                            with eq_refl => ltac:(discriminate) end)) as H.
  change (AutoDebit.last_execution Sample.gym_debit)
    with (Some (Dates.mkdate 2023 12 31)) in H.
  destruct H as (Hex & Hlater & _).
  destruct Hex as [next Hn]; [discriminate|].
  exists next. split; [exact Hn|]. apply Hlater. exact Hn.
Defined.

(** X8.  A debit created from data that [validate] accepted, with the
    status left out, is stored as the caller's, carries an anchor day
    within 1..31 if any, has its first run on the start date, and can be
    executed on that date: the end date, if given, lies after it. *)
Theorem created_debit_due_on_start request_user data d :
  AutoDebitSerializer.validate request_user data = Ok data ->
  AutoDebitSerializer.status data = None ->
  let r := AutoDebitSerializer.create request_user data d in
  auto_debits r.2 = auto_debits d ++ [r.1]
  /\ AutoDebit.user r.1 = request_user
  /\ AutoDebit.account r.1
     = Account.id (AutoDebitSerializer.account data)
  /\ (forall k, AutoDebit.day_of_month r.1 = Some k -> 1 <= k <= 31)
  /\ AutoDebit.next_execution r.1 = AutoDebitSerializer.start_date data
  /\ AutoDebit.calculate_next_execution r.1
     = Ok (AutoDebitSerializer.start_date data)
  /\ AutoDebit.can_execute r.1 (AutoDebitSerializer.start_date data) = true.
Proof.
  intros Hv Hst. cbv zeta. unfold AutoDebitSerializer.create.
  cbn [fst snd auto_debits set_next_id set_auto_debits AutoDebit.user
       AutoDebit.account AutoDebit.day_of_month AutoDebit.next_execution].
  split; [reflexivity|]. split; [reflexivity|]. split; [reflexivity|].
  unfold AutoDebitSerializer.validate in Hv.
  split; [|split; [reflexivity|split; [reflexivity|]]].
  - intros k Hk. rewrite Hk in Hv.
    destruct (k <? 1) eqn:E1; [discriminate|].
    destruct (31 <? k) eqn:E2; [discriminate|].
    apply Z.ltb_ge in E1, E2. lia.
  - unfold AutoDebit.can_execute.
    cbn [AutoDebit.status AutoDebit.next_execution AutoDebit.end_date].
    rewrite Hst. cbn [default DebitStatus.eqb andb].
    rewrite date_leb_refl. cbn [andb].
    destruct (AutoDebitSerializer.end_date data) as [e|]; [|reflexivity].
    destruct (Dates.date_leb e (AutoDebitSerializer.start_date data)) eqn:E.
    + destruct (AutoDebitSerializer.day_of_month data) as [k|];
        [destruct (k <? 1); [discriminate|];
         destruct (31 <? k); [discriminate|]|];
        destruct (negb _); try discriminate;
        destruct (negb _); try discriminate;
        destruct (negb _); discriminate.
    + apply date_ltb_leb, date_leb_false_ltb, E.
Qed.

Lemma created_debit_due_on_start_witness :
  let r := AutoDebitSerializer.create Sample.test_user Sample2.debit_request
             Sample.tables in
  auto_debits r.2 = [r.1]
  /\ AutoDebit.user r.1 = Sample.test_user
  /\ AutoDebit.account r.1 = 10
  /\ (forall k, AutoDebit.day_of_month r.1 = Some k -> 1 <= k <= 31)
  /\ AutoDebit.next_execution r.1 = Dates.mkdate 2024 2 1
  /\ AutoDebit.calculate_next_execution r.1 = Ok (Dates.mkdate 2024 2 1)
  /\ AutoDebit.can_execute r.1 (Dates.mkdate 2024 2 1) = true.
Proof.
  exact (created_debit_due_on_start Sample.test_user Sample2.debit_request
           Sample.tables eq_refl eq_refl).
Defined.

(** What a successful run leaves: the object's and the rows' next date is
    the one computed from today. *)
Lemma execute_auto_debit_ok now a d tx a' d' :
  TransactionService.execute_auto_debit now a d = (Ok tx, a', d') ->
  exists d2 next,
    d' = TransactionService.save_execution_fields a' d2
    /\ AutoDebit.can_execute a (Dates.dt_date now) = true
    /\ Dates.date_ltb (Dates.dt_date now) next = true
    /\ AutoDebit.next_execution a' = next
    /\ AutoDebit.id a' = AutoDebit.id a
    /\ AutoDebit.status a' = AutoDebit.status a
    /\ AutoDebit.end_date a' = AutoDebit.end_date a
    /\ auto_debits d2 = auto_debits d
    /\ transactions d2 = transactions d ++ [Transaction.as_stored tx].
Proof.
  unfold TransactionService.execute_auto_debit,
    TransactionService.execute_auto_debit_body.
  destruct (AutoDebit.can_execute a (Dates.dt_date now)) eqn:Hcan;
    cbn [negb]; [|discriminate].
  unfold TransactionService.try_block.
  destruct (accounts d !! AutoDebit.account a) as [account|];
    [|discriminate].
  destruct (_ && _); [discriminate|].
  destruct (AutoDebit.calculate_next_execution _) as [next|e] eqn:Hnext;
    [|discriminate].
  intros H. injection H as <- <- <-.
  eexists _, next. split; [reflexivity|]. split; [reflexivity|].
  split.
  { eapply calculate_next_execution_later; [|exact Hnext]. reflexivity. }
  repeat (split; [reflexivity|]). reflexivity.
Qed.

(** X9.  After a successful run the debit is not due again the same day:
    the object can no longer execute, a second call on it is refused and
    writes nothing, and no row with its key is left in the batch's
    selection for today. *)
Theorem executed_debit_not_due_again now a d tx a' d' :
  TransactionService.execute_auto_debit now a d = (Ok tx, a', d') ->
  AutoDebit.can_execute a' (Dates.dt_date now) = false
  /\ TransactionService.execute_auto_debit now a' d'
     = (Raise (ValueError "El débito no puede ejecutarse"), a', d')
  /\ forall r,
       In r (TransactionService.pending_debits (Dates.dt_date now) d') ->
       AutoDebit.id r <> AutoDebit.id a.
Proof.
  intros H.
  destruct (execute_auto_debit_ok _ _ _ _ _ _ H)
    as (d2 & next & -> & _ & Hlater & Hnext & Hid & _ & _ & Hrows & _).
  assert (Hcan : AutoDebit.can_execute a' (Dates.dt_date now) = false).
  { unfold AutoDebit.can_execute. rewrite Hnext.
    rewrite (date_ltb_not_leb _ _ Hlater).
    rewrite andb_false_r. reflexivity. }
  split; [exact Hcan|]. split.
  - unfold TransactionService.execute_auto_debit,
      TransactionService.execute_auto_debit_body.
    rewrite Hcan. reflexivity.
  - intros r Hr. unfold TransactionService.pending_debits in Hr.
    apply filter_In in Hr. destruct Hr as [Hin Hsel].
    unfold TransactionService.save_execution_fields in Hin.
    cbn [auto_debits set_auto_debits] in Hin. rewrite Hrows in Hin.
    apply in_map_iff in Hin. destruct Hin as (x & Hx & _).
    destruct (AutoDebit.id x =? AutoDebit.id a') eqn:Ex.
    + exfalso. subst r.
      cbn [AutoDebit.next_execution AutoDebit.set_next_execution] in Hsel.
      rewrite Hnext, (date_ltb_not_leb _ _ Hlater), andb_false_r in Hsel.
      discriminate.
    + subst r. apply Z.eqb_neq in Ex. congruence.
Qed.

Lemma executed_debit_not_due_again_witness :
  exists a' d',
    (TransactionService.execute_auto_debit Sample.noon Sample.gym_debit
       Sample.with_debits).1.2 = a'
    /\ (TransactionService.execute_auto_debit Sample.noon Sample.gym_debit
          Sample.with_debits).2 = d'
    /\ AutoDebit.can_execute a' Sample.today = false
    /\ TransactionService.execute_auto_debit Sample.noon a' d'
       = (Raise (ValueError "El débito no puede ejecutarse"), a', d')
    /\ forall r,
         In r (TransactionService.pending_debits Sample.today d') ->
         AutoDebit.id r <> 61.
Proof.
  eexists _, _. split; [reflexivity|]. split; [reflexivity|].
  exact (executed_debit_not_due_again Sample.noon Sample.gym_debit
           Sample.with_debits _ _ _ eq_refl).
Defined.

(* --------------------------------------------------------------------- *)
(** ** The batch: what its counters count *)

(** One call either posts exactly one row or leaves the tables alone. *)
Lemma execute_auto_debit_outcome now a d :
  (exists tx a' d',
     TransactionService.execute_auto_debit now a d = (Ok tx, a', d')
     /\ transactions d' = transactions d ++ [Transaction.as_stored tx])
  \/ (exists e a',
        TransactionService.execute_auto_debit now a d = (Raise e, a', d)).
Proof.
  destruct (TransactionService.execute_auto_debit now a d)
    as [[[tx|e] a'] d'] eqn:H.
  - left. exists tx, a', d'. split; [reflexivity|].
    destruct (execute_auto_debit_ok _ _ _ _ _ _ H)
      as (d2 & next & -> & _ & _ & _ & _ & _ & _ & _ & Htx).
    exact Htx.
  - right. exists e, a'.
    unfold TransactionService.execute_auto_debit in H.
    destruct (TransactionService.execute_auto_debit_body now a d)
      as [[[tx0|e0] a0] d0]; [discriminate|].
    injection H as <- <- <-. reflexivity.
Qed.

Lemma fold_pending_step now l : forall res d,
  let r := List.fold_left (TransactionService.pending_step now) l (res, d) in
  TransactionService.executed r.1 + TransactionService.failed r.1
  = TransactionService.executed res + TransactionService.failed res
    + Z.of_nat (length l)
  /\ Z.of_nat (length (TransactionService.errors r.1))
     = Z.of_nat (length (TransactionService.errors res))
       + (TransactionService.failed r.1 - TransactionService.failed res)
  /\ Z.of_nat (length (transactions r.2))
     = Z.of_nat (length (transactions d))
       + (TransactionService.executed r.1 - TransactionService.executed res)
  /\ TransactionService.executed res <= TransactionService.executed r.1
  /\ TransactionService.failed res <= TransactionService.failed r.1
  /\ (exists posted, transactions r.2 = transactions d ++ posted).
Proof.
  induction l as [|a l IH]; intros res d.
  - cbn. do 5 (split; [lia|]). exists []. rewrite app_nil_r. reflexivity.
  - cbn [List.fold_left length]. cbv zeta.
    destruct (execute_auto_debit_outcome now a d)
      as [(tx & a' & d' & Hex & Htx)|(e & a' & Hex)].
    + assert (Hs : TransactionService.pending_step now (res, d) a
                   = (TransactionService.mk_results
                        (TransactionService.executed res + 1)
                        (TransactionService.failed res)
                        (TransactionService.errors res), d'))
        by (unfold TransactionService.pending_step; rewrite Hex; reflexivity).
      rewrite Hs.
      specialize (IH (TransactionService.mk_results
                        (TransactionService.executed res + 1)
                        (TransactionService.failed res)
                        (TransactionService.errors res)) d').
      cbv zeta in IH.
      cbn [TransactionService.executed TransactionService.failed
           TransactionService.errors] in IH.
      destruct IH as (H1 & H2 & H3 & H4 & H5 & posted & H6).
      rewrite Htx in H3, H6. rewrite length_app in H3. cbn [length] in H3.
      do 5 (split; [lia|]).
      exists (Transaction.as_stored tx :: posted).
      rewrite H6, <- app_assoc. reflexivity.
    + assert (Hs : TransactionService.pending_step now (res, d) a
                   = (TransactionService.mk_results
                        (TransactionService.executed res)
                        (TransactionService.failed res + 1)
                        (TransactionService.errors res
                           ++ [(AutoDebit.name a, exn_str e)]), d))
        by (unfold TransactionService.pending_step; rewrite Hex; reflexivity).
      rewrite Hs.
      specialize (IH (TransactionService.mk_results
                        (TransactionService.executed res)
                        (TransactionService.failed res + 1)
                        (TransactionService.errors res
                           ++ [(AutoDebit.name a, exn_str e)])) d).
      cbv zeta in IH.
      cbn [TransactionService.executed TransactionService.failed
           TransactionService.errors] in IH.
      destruct IH as (H1 & H2 & H3 & H4 & H5 & H6).
      rewrite length_app in H2. cbn [length] in H2.
      do 5 (split; [lia|]). exact H6.
Qed.

(** X10.  The counters of [execute_pending_debits] add up: every selected
    debit is counted once, as executed or as failed; there is one error
    entry per failure; and the transactions table keeps its rows and
    gains exactly one row per executed debit. *)
Theorem execute_pending_debits_accounting now d :
  let r := TransactionService.execute_pending_debits now d in
  TransactionService.executed r.1 + TransactionService.failed r.1
  = Z.of_nat (length (TransactionService.pending_debits (Dates.dt_date now) d))
  /\ Z.of_nat (length (TransactionService.errors r.1))
     = TransactionService.failed r.1
  /\ 0 <= TransactionService.executed r.1
  /\ 0 <= TransactionService.failed r.1
  /\ exists posted,
       transactions r.2 = transactions d ++ posted
       /\ Z.of_nat (length posted) = TransactionService.executed r.1.
Proof.
  cbv zeta. unfold TransactionService.execute_pending_debits.
  pose proof (fold_pending_step now
                (TransactionService.pending_debits (Dates.dt_date now) d)
                (TransactionService.mk_results 0 0 []) d) as H.
  cbv zeta in H.
  cbn [TransactionService.executed TransactionService.failed
       TransactionService.errors length] in H.
  destruct H as (H1 & H2 & H3 & H4 & H5 & posted & H6).
  do 4 (split; [lia|]).
  exists posted. split; [exact H6|].
  rewrite H6, length_app in H3. lia.
Qed.

(* --------------------------------------------------------------------- *)
(** ** [AutoDebitViewSet]: pause and resume *)

(** After a status write every row with the key carries the new status,
    and the other rows are as they were. *)
Lemma save_status_rows s a d x :
  In x (auto_debits
          (AutoDebitViewSet.save_status (AutoDebitViewSet.with_status a s) d)) ->
  (AutoDebit.id x = AutoDebit.id a /\ AutoDebit.status x = s)
  \/ (AutoDebit.id x <> AutoDebit.id a /\ In x (auto_debits d)).
Proof.
  unfold AutoDebitViewSet.save_status. cbn [auto_debits set_auto_debits].
  intros H. apply in_map_iff in H. destruct H as (y & Hy & Hin).
  cbn [AutoDebit.id AutoDebitViewSet.with_status AutoDebit.status] in Hy.
  destruct (AutoDebit.id y =? AutoDebit.id a) eqn:E; subst x.
  - left. apply Z.eqb_eq in E. split; [exact E | reflexivity].
  - right. apply Z.eqb_neq in E. split; [exact E | exact Hin].
Qed.

(** After a status write, a request of the owner without query
    parameters finds a row with the key, and it has the new status. *)
Lemma debit_lookup_after_status s q request_user pk d a :
  AutoDebitViewSet.get_object q request_user pk d = Ok a ->
  exists x,
    AutoDebitViewSet.get_object AutoDebitViewSet.no_query request_user pk
      (AutoDebitViewSet.save_status (AutoDebitViewSet.with_status a s) d)
    = Ok x
    /\ AutoDebit.id x = pk
    /\ AutoDebit.status x = s.
Proof.
  intros H. destruct (debit_lookup_Ok _ _ _ _ _ H) as (_ & Hin & Hid & Hu & _).
  rewrite debit_lookup.
  change (AutoDebitViewSet.filterset_valid AutoDebitViewSet.no_query
            (AutoDebitViewSet.save_status
               (AutoDebitViewSet.with_status a s) d)) with true.
  cbv iota. unfold AutoDebitViewSet.save_status.
  cbn [auto_debits set_auto_debits].
  rewrite find_map_stable
    by (intros x; destruct (AutoDebit.id x =? _); reflexivity).
  destruct (List.find _ (auto_debits d)) as [y|] eqn:E.
  - pose proof (find_some _ _ E) as [_ Hp].
    apply andb_true_iff in Hp. destruct Hp as [_ Hyid].
    apply Z.eqb_eq in Hyid.
    cbn [option_map AutoDebit.id AutoDebitViewSet.with_status
         AutoDebit.status].
    replace (AutoDebit.id y =? AutoDebit.id a) with true
      by (symmetry; apply Z.eqb_eq; congruence).
    eexists. split; [reflexivity|]. split; [exact Hyid | reflexivity].
  - exfalso. pose proof (proj1 (find_none_all _ _) E a Hin) as Hp.
    cbv beta in Hp. unfold AutoDebitViewSet.reaches in Hp.
    rewrite Hid, Hu, !Z.eqb_refl in Hp. discriminate.
Qed.

(** X11.  Pausing a debit the request reaches takes it out of every run:
    the batch selects no row with its key on any day, and no later
    [execute] request of the owner for that key runs it, whatever its
    query string: the answer is the 400 of the view's guard, or the
    lookup's own failure where the query string leaves the paused row
    out, and nothing is written.  A request without query parameters
    gets the 400.  Accounts and transactions are not touched. *)
Theorem paused_debit_is_skipped q request_user pk d a :
  AutoDebitViewSet.get_object q request_user pk d = Ok a ->
  exists a' d',
    AutoDebitViewSet.pause q request_user pk d = (Ok a', d')
    /\ AutoDebit.status a' = DebitStatus.paused
    /\ (forall today r,
          In r (TransactionService.pending_debits today d') ->
          AutoDebit.id r <> pk)
    /\ (forall now q',
          AutoDebitViewSet.execute now q' request_user pk d'
          = (Ok (Http400 "El débito no puede ejecutarse en este momento"),
             d')
          \/ exists e,
               AutoDebitViewSet.execute now q' request_user pk d'
               = (Raise e, d')
               /\ (e = Http404 \/ e = Filters.invalid_filter))
    /\ (forall now,
          AutoDebitViewSet.execute now AutoDebitViewSet.no_query
            request_user pk d'
          = (Ok (Http400 "El débito no puede ejecutarse en este momento"),
             d'))
    /\ accounts d' = accounts d
    /\ transactions d' = transactions d.
Proof.
  intros H. destruct (debit_lookup_Ok _ _ _ _ _ H) as (_ & Hin & Hid & Hu & _).
  unfold AutoDebitViewSet.pause, AutoDebitViewSet.set_status_action.
  rewrite H. eexists _, _. split; [reflexivity|].
  split; [reflexivity|].
  assert (Hpaused : forall now x,
             In x (auto_debits
                     (AutoDebitViewSet.save_status
                        (AutoDebitViewSet.with_status a DebitStatus.paused) d)) ->
             AutoDebit.id x = pk ->
             AutoDebit.can_execute x (Dates.dt_date now) = false).
  { intros now x Hx Hxid.
    destruct (save_status_rows _ _ _ _ Hx) as [[_ Hs]|[Hne _]].
    - unfold AutoDebit.can_execute. rewrite Hs. reflexivity.
    - exfalso. apply Hne.
      cbn [AutoDebit.id AutoDebitViewSet.with_status]. congruence. }
  split; [|split; [|split; [|split; reflexivity]]].
  - intros today r Hr. unfold TransactionService.pending_debits in Hr.
    apply filter_In in Hr. destruct Hr as [Hr Hsel].
    destruct (save_status_rows _ _ _ _ Hr) as [[_ Hs]|[Hne _]].
    + rewrite Hs in Hsel. discriminate.
    + cbn [AutoDebit.id AutoDebitViewSet.with_status] in Hne. congruence.
  - intros now q'. unfold AutoDebitViewSet.execute.
    destruct (AutoDebitViewSet.get_object q' request_user pk _)
      as [x|e] eqn:E.
    + left. destruct (debit_lookup_Ok _ _ _ _ _ E) as (_ & Hx & Hxid & _).
      rewrite (Hpaused now x Hx Hxid). reflexivity.
    + right. exists e. split; [reflexivity|].
      apply (debit_lookup_Raise _ _ _ _ _ E).
  - intros now. unfold AutoDebitViewSet.execute.
    destruct (debit_lookup_after_status DebitStatus.paused _ _ _ _ _ H)
      as (x & Hx & Hxid & Hs).
    rewrite Hx. unfold AutoDebit.can_execute. rewrite Hs. reflexivity.
Qed.

Lemma paused_debit_is_skipped_witness :
  exists a' d',
    AutoDebitViewSet.pause
      (AutoDebitViewSet.mk_query Filters.Absent Filters.Absent Filters.Absent
         (Filters.Given DebitStatus.active))
      Sample.test_user 61 Sample.with_debits
    = (Ok a', d')
    /\ AutoDebit.status a' = DebitStatus.paused
    /\ AutoDebitViewSet.execute Sample.noon
         (AutoDebitViewSet.mk_query Filters.Absent Filters.Absent
            Filters.Absent (Filters.Given DebitStatus.active))
         Sample.test_user 61 d'
       = (Raise Http404, d')
    /\ AutoDebitViewSet.execute Sample.noon AutoDebitViewSet.no_query
         Sample.test_user 61 d'
       = (Ok (Http400 "El débito no puede ejecutarse en este momento"), d')
    /\ accounts d' = accounts Sample.with_debits
    /\ transactions d' = transactions Sample.with_debits.
Proof.
  destruct (paused_debit_is_skipped
              (AutoDebitViewSet.mk_query Filters.Absent Filters.Absent
                 Filters.Absent (Filters.Given DebitStatus.active))
              Sample.test_user 61 Sample.with_debits Sample.gym_debit)
    as (a' & d' & Hp & Hs & _ & _ & Hex & Hacc & Htx).
  - vm_compute. reflexivity.
  - exists a', d'. split; [exact Hp|]. split; [exact Hs|].
    split; [|split; [apply Hex|split; [exact Hacc | exact Htx]]].
    vm_compute in Hp. injection Hp as _ <-. vm_compute. reflexivity.
Defined.

(** X12.  [resume] makes a debit the request reaches active whatever its
    status was, a cancelled one included, and leaves its next date as it
    is: the debit is in the batch's selection on every day from that
    date on, however long it had been paused, and a request of the owner
    without query parameters finds an active debit under the key. *)
Theorem resume_reactivates q request_user pk d a :
  AutoDebitViewSet.get_object q request_user pk d = Ok a ->
  exists a' d',
    AutoDebitViewSet.resume q request_user pk d = (Ok a', d')
    /\ AutoDebit.status a' = DebitStatus.active
    /\ AutoDebit.next_execution a' = AutoDebit.next_execution a
    /\ In a' (auto_debits d')
    /\ (exists x,
          AutoDebitViewSet.get_object AutoDebitViewSet.no_query
            request_user pk d' = Ok x
          /\ AutoDebit.id x = pk
          /\ AutoDebit.status x = DebitStatus.active)
    /\ forall today,
         Dates.date_leb (AutoDebit.next_execution a) today = true ->
         In a' (TransactionService.pending_debits today d').
Proof.
  intros H. destruct (debit_lookup_Ok _ _ _ _ _ H) as (_ & Hin & Hid & Hu & _).
  unfold AutoDebitViewSet.resume, AutoDebitViewSet.set_status_action.
  rewrite H. eexists _, _. split; [reflexivity|].
  split; [reflexivity|]. split; [reflexivity|].
  assert (Hrow : In (AutoDebitViewSet.with_status a DebitStatus.active)
                   (auto_debits
                      (AutoDebitViewSet.save_status
                         (AutoDebitViewSet.with_status a DebitStatus.active)
                         d))).
  { unfold AutoDebitViewSet.save_status. cbn [auto_debits set_auto_debits].
    apply in_map_iff. exists a. split; [|exact Hin].
    cbn [AutoDebit.id AutoDebitViewSet.with_status AutoDebit.status].
    rewrite Z.eqb_refl. reflexivity. }
  split; [exact Hrow|]. split.
  - apply (debit_lookup_after_status DebitStatus.active _ _ _ _ _ H).
  - intros today Hdue. unfold TransactionService.pending_debits.
    apply filter_In. split; [exact Hrow|].
    cbn [AutoDebit.status AutoDebit.next_execution
         AutoDebitViewSet.with_status DebitStatus.eqb andb].
    exact Hdue.
Qed.

Lemma resume_reactivates_witness :
  exists a' d',
    AutoDebitViewSet.resume
      (AutoDebitViewSet.mk_query Filters.Absent Filters.Absent Filters.Absent
         (Filters.Given DebitStatus.cancelled))
      Sample.test_user 62
      (set_auto_debits Sample.tables
         [AutoDebitViewSet.with_status Sample.lapsed_debit
            DebitStatus.cancelled]) = (Ok a', d')
    /\ AutoDebit.status a' = DebitStatus.active
    /\ AutoDebit.next_execution a' = Dates.mkdate 2024 1 15
    /\ In a' (auto_debits d')
    /\ In a' (TransactionService.pending_debits Sample.today d').
Proof.
  destruct (resume_reactivates
              (AutoDebitViewSet.mk_query Filters.Absent Filters.Absent
                 Filters.Absent (Filters.Given DebitStatus.cancelled))
              Sample.test_user 62
              (set_auto_debits Sample.tables
                 [AutoDebitViewSet.with_status Sample.lapsed_debit
                    DebitStatus.cancelled])
              (AutoDebitViewSet.with_status Sample.lapsed_debit
                 DebitStatus.cancelled))
    as (a' & d' & Hr & Hs & Hn & Hin & _ & Hdue).
  - vm_compute. reflexivity.
  - exists a', d'. split; [exact Hr|]. split; [exact Hs|].
    split; [exact Hn|]. split; [exact Hin|].
    apply Hdue. vm_compute. reflexivity.
Defined.

(* --------------------------------------------------------------------- *)
(** ** Paying an installment *)

Lemma earliest_None rows : Installments.earliest rows = None -> rows = [].
Proof.
  destruct rows as [|r rows]; [reflexivity|]. simpl.
  destruct (Installments.earliest rows); [|discriminate].
  destruct (Dates.datetime_ltb _ _); discriminate.
Qed.

Lemma earliest_In rows r : Installments.earliest rows = Some r -> In r rows.
Proof.
  revert r. induction rows as [|x rows IH]; intros r H; [discriminate|].
  simpl in H. destruct (Installments.earliest rows) as [r'|].
  - destruct (Dates.datetime_ltb _ _); injection H as <-.
    + right. apply IH. reflexivity.
    + left. reflexivity.
  - injection H as <-. left. reflexivity.
Qed.

Lemma datetime_leb_refl a : Dates.datetime_leb a a = true.
Proof. apply datetime_leb_iff. right. split; [reflexivity | lia]. Qed.

(** No row of the list is dated before the earliest. *)
Lemma earliest_min rows r :
  Installments.earliest rows = Some r ->
  forall x, In x rows ->
    Dates.datetime_leb (Transaction.date r) (Transaction.date x) = true.
Proof.
  revert r. induction rows as [|y rows IH]; intros r H x Hx; [destruct Hx|].
  simpl in H. destruct (Installments.earliest rows) as [r'|] eqn:El.
  - destruct (Dates.datetime_ltb (Transaction.date r') (Transaction.date y))
      eqn:E; injection H as <-.
    + destruct Hx as [<-|Hx];
        [apply datetime_ltb_leb, E | apply (IH _ eq_refl), Hx].
    + destruct Hx as [<-|Hx]; [apply datetime_leb_refl|].
      eapply datetime_leb_trans; [|apply (IH _ eq_refl), Hx].
      apply datetime_leb_total, E.
  - injection H as <-. apply earliest_None in El. subst rows.
    destruct Hx as [<-|[]]. apply datetime_leb_refl.
Qed.

Lemma earliest_Some rows x :
  In x rows -> exists r, Installments.earliest rows = Some r.
Proof.
  destruct rows as [|y rows]; [intros []|]. intros _. simpl.
  destruct (Installments.earliest rows) as [r'|]; [|eauto].
  destruct (Dates.datetime_ltb _ _); eauto.
Qed.

Lemma pending_set_confirmed p r :
  Installments.pending p (Transaction.set_is_confirmed r true) = false.
Proof.
  unfold Installments.pending.
  cbn [Transaction.is_confirmed Transaction.set_is_confirmed negb].
  apply andb_false_r.
Qed.

(** X13.  What a successful installment payment did.  The purchase was
    active and the number lay above the installments paid and within the
    total; the row confirmed is the earliest unconfirmed installment of
    the purchase, whatever the number asked; the purchase object leaves
    with that number as its count and is completed exactly when the
    number is the total.  Afterwards the unconfirmed installments are the
    former ones less the rows with the confirmed row's key, and no
    account has been written. *)
Theorem installment_payment_effect p n d t p' d' :
  Installments.process_installment_payment p n d = (Ok (t, p'), d') ->
  CardPurchase.status p = PurchaseStatus.active
  /\ CardPurchase.current_installment p < n <= CardPurchase.total_installments p
  /\ (exists r,
        In r (transactions d) /\ Installments.pending p r = true
        /\ t = Transaction.set_is_confirmed r true
        /\ forall x, In x (transactions d) -> Installments.pending p x = true ->
             Dates.datetime_leb (Transaction.date r) (Transaction.date x)
             = true)
  /\ CardPurchase.current_installment p' = n
  /\ Installments.remaining_installments p'
     = CardPurchase.total_installments p - n
  /\ (CardPurchase.status p' = PurchaseStatus.completed
      <-> n = CardPurchase.total_installments p)
  /\ (forall x,
        In x (transactions d') /\ Installments.pending p x = true
        <-> In x (transactions d) /\ Installments.pending p x = true
            /\ Transaction.id x <> Transaction.id t)
  /\ accounts d' = accounts d.
Proof.
  unfold Installments.process_installment_payment, atomic.
  destruct (Installments.is_active (CardPurchase.status p)) eqn:Hact;
    cbn [negb]; [|discriminate].
  destruct (n <=? CardPurchase.current_installment p) eqn:Hlo; [discriminate|].
  destruct (CardPurchase.total_installments p <? n) eqn:Hhi; [discriminate|].
  destruct (Installments.earliest _) as [r|] eqn:He; [|discriminate].
  intros H. injection H as <- <- <-.
  apply Z.leb_gt in Hlo. apply Z.ltb_ge in Hhi.
  assert (Hst : CardPurchase.status p = PurchaseStatus.active)
    by (destruct (CardPurchase.status p); try discriminate; reflexivity).
  pose proof (earliest_In _ _ He) as Hr. apply filter_In in Hr.
  destruct Hr as [Hrin Hrp].
  split; [exact Hst|]. split; [lia|]. split.
  { exists r. split; [exact Hrin|]. split; [exact Hrp|].
    split; [reflexivity|]. intros x Hx Hxp.
    apply (earliest_min _ _ He). apply filter_In. split; assumption. }
  split; [reflexivity|]. split; [reflexivity|]. split.
  { cbn [CardPurchase.status Installments.with_progress]. rewrite Hst.
    destruct (n =? CardPurchase.total_installments p) eqn:En.
    - apply Z.eqb_eq in En. split; auto.
    - apply Z.eqb_neq in En. split; [discriminate | contradiction]. }
  split; [|reflexivity].
  intros x. unfold Installments.save_progress, Installments.save_is_confirmed.
  cbn [transactions set_card_purchases set_transactions
       Transaction.id Transaction.set_is_confirmed Transaction.is_confirmed].
  split.
  - intros [Hx Hxp]. apply in_map_iff in Hx. destruct Hx as (y & Hy & Hyin).
    destruct (Transaction.id y =? Transaction.id r) eqn:Ey.
    + subst x. rewrite pending_set_confirmed in Hxp. discriminate.
    + subst x. apply Z.eqb_neq in Ey. auto.
  - intros (Hx & Hxp & Hne). split; [|exact Hxp].
    apply in_map_iff. exists x. split; [|exact Hx].
    destruct (Transaction.id x =? Transaction.id r) eqn:Ex; [|reflexivity].
    apply Z.eqb_eq in Ex. contradiction.
Qed.

Lemma installment_payment_effect_witness :
  exists t p' d',
    Installments.process_installment_payment Sample2.purchase 12
      Sample2.after_purchase = (Ok (t, p'), d')
    /\ Transaction.id t = 104
    /\ CardPurchase.status p' = PurchaseStatus.completed
    /\ (forall x,
          In x (transactions d') /\ Installments.pending Sample2.purchase x = true
          <-> In x (transactions Sample2.after_purchase)
              /\ Installments.pending Sample2.purchase x = true
              /\ Transaction.id x <> 104)
    /\ accounts d' = accounts Sample2.after_purchase.
Proof.
  eexists _, _, _. split; [reflexivity|].
  split; [reflexivity|].
  pose proof (installment_payment_effect Sample2.purchase 12
                Sample2.after_purchase _ _ _ eq_refl)
    as (_ & _ & _ & _ & _ & Hs & Hp & Ha).
  split; [apply Hs; reflexivity|]. split; [exact Hp | exact Ha].
Defined.

(** X14.  A payment is accepted exactly when the purchase object is
    active, the number lies above its count of paid installments and not
    above the total, and the purchase has an unconfirmed installment row.
    The number is not compared with the next installment.  A refused
    payment writes nothing. *)
Theorem installment_payment_accepts_iff p n d :
  ((exists t p' d',
      Installments.process_installment_payment p n d = (Ok (t, p'), d'))
   <-> CardPurchase.status p = PurchaseStatus.active
       /\ CardPurchase.current_installment p < n
          <= CardPurchase.total_installments p
       /\ exists r, In r (transactions d) /\ Installments.pending p r = true)
  /\ (forall e d',
        Installments.process_installment_payment p n d = (Raise e, d') ->
        d' = d /\ exists msg, e = ValueError msg).
Proof.
  split.
  - split.
    + intros (t & p' & d' & H).
      destruct (installment_payment_effect _ _ _ _ _ _ H)
        as (Hst & Hn & (r & Hin & Hp & _) & _).
      split; [exact Hst|]. split; [exact Hn|]. exists r. auto.
    + intros (Hst & Hn & r & Hin & Hp).
      unfold Installments.process_installment_payment, atomic.
      rewrite Hst. cbn [Installments.is_active negb].
      replace (n <=? CardPurchase.current_installment p) with false
        by (symmetry; apply Z.leb_gt; lia).
      replace (CardPurchase.total_installments p <? n) with false
        by (symmetry; apply Z.ltb_ge; lia).
      destruct (earliest_Some
                  (List.filter (Installments.pending p) (transactions d)) r)
        as [r0 ->].
      { apply filter_In. split; assumption. }
      eauto.
  - intros e d'. unfold Installments.process_installment_payment, atomic.
    destruct (negb _); [intros H; injection H as <- <-; eauto|].
    destruct (n <=? _); [intros H; injection H as <- <-; eauto|].
    destruct (_ <? n); [intros H; injection H as <- <-; eauto|].
    destruct (Installments.earliest _);
      [discriminate | intros H; injection H as <- <-; eauto].
Qed.

(* --------------------------------------------------------------------- *)
(** ** Early payoff and the deletion cascade *)

Lemma mem_app k c c' :
  CardPurchaseViewSet.mem k (c ++ c')
  = CardPurchaseViewSet.mem k c || CardPurchaseViewSet.mem k c'.
Proof. apply existsb_app. Qed.

Lemma mem_map_id (x : Transaction.t) l :
  In x l -> CardPurchaseViewSet.mem (Transaction.id x)
              (List.map Transaction.id l) = true.
Proof.
  intros H. apply existsb_exists. exists (Transaction.id x).
  split; [apply in_map; exact H | apply Z.eqb_refl].
Qed.

(** The collector only grows. *)
Lemma collect_incl fuel d : forall c k,
  CardPurchaseViewSet.mem k c = true ->
  CardPurchaseViewSet.mem k (CardPurchaseViewSet.collect fuel d c) = true.
Proof.
  induction fuel as [|fuel IH]; intros c k H; [exact H|].
  simpl. destruct (List.filter _ _) as [|x more]; [exact H|].
  apply IH. rewrite mem_app, H. reflexivity.
Qed.

Lemma filter_length_lt {A : Type} (p q : A -> bool) l x :
  (forall y, In y l -> q y = true -> p y = true) ->
  In x l -> p x = true -> q x = false ->
  (length (List.filter q l) < length (List.filter p l))%nat.
Proof.
  intros Hqp. induction l as [|y l IH]; intros Hx Hpx Hqx; [destruct Hx|].
  assert (Hle : (length (List.filter q l) <= length (List.filter p l))%nat).
  { clear IH Hx. induction l as [|z l IHl]; [simpl; lia|].
    simpl. pose proof (Hqp z (or_intror (or_introl eq_refl))) as Hz.
    assert (IHl' : (length (List.filter q l) <= length (List.filter p l))%nat).
    { apply IHl. intros w [Hw|Hw] Hq; apply Hqp; auto.
      - left. exact Hw.
      - right. right. exact Hw. }
    destruct (q z); [rewrite (Hz eq_refl)|destruct (p z)]; simpl; lia. }
  destruct Hx as [->|Hx].
  - simpl. rewrite Hpx, Hqx. simpl. lia.
  - simpl.
    assert (IH' : (length (List.filter q l) < length (List.filter p l))%nat).
    { apply IH; auto. intros w Hw. apply Hqp. right. exact Hw. }
    pose proof (Hqp y (or_introl eq_refl)) as Hy.
    destruct (q y); [rewrite (Hy eq_refl)|destruct (p y)]; simpl; lia.
Qed.

(** The collector runs to the end of the cascade: with one round of fuel
    per row still outside, nothing is left to drag along. *)
Lemma collect_stable fuel d : forall c,
  (length (List.filter
             (fun t => negb (CardPurchaseViewSet.mem (Transaction.id t) c))
             (transactions d)) <= fuel)%nat ->
  List.filter
    (CardPurchaseViewSet.dragged d (CardPurchaseViewSet.collect fuel d c))
    (transactions d) = [].
Proof.
  induction fuel as [|fuel IH]; intros c Hlen.
  - simpl.
    destruct (List.filter (CardPurchaseViewSet.dragged d c) (transactions d))
      as [|x more] eqn:E; [reflexivity|].
    exfalso.
    assert (Hx : In x (List.filter (CardPurchaseViewSet.dragged d c)
                         (transactions d))) by (rewrite E; left; reflexivity).
    apply filter_In in Hx. destruct Hx as [Hin Hdr].
    unfold CardPurchaseViewSet.dragged in Hdr.
    apply andb_true_iff in Hdr. destruct Hdr as [Hout _].
    assert (Hin' : In x (List.filter
                           (fun t => negb (CardPurchaseViewSet.mem
                                             (Transaction.id t) c))
                           (transactions d)))
      by (apply filter_In; split; assumption).
    destruct (List.filter _ (transactions d)); [destruct Hin'|simpl in Hlen; lia].
  - simpl.
    destruct (List.filter (CardPurchaseViewSet.dragged d c) (transactions d))
      as [|x more] eqn:E; [exact E|].
    apply IH.
    assert (Hx : In x (List.filter (CardPurchaseViewSet.dragged d c)
                         (transactions d))) by (rewrite E; left; reflexivity).
    pose proof Hx as Hx'. apply filter_In in Hx'. destruct Hx' as [Hin Hdr].
    unfold CardPurchaseViewSet.dragged in Hdr.
    apply andb_true_iff in Hdr. destruct Hdr as [Hout _].
    assert (Hlt : (length (List.filter
                     (fun t => negb (CardPurchaseViewSet.mem (Transaction.id t)
                                       (c ++ List.map Transaction.id (x :: more))))
                     (transactions d))
                   < length (List.filter
                     (fun t => negb (CardPurchaseViewSet.mem (Transaction.id t) c))
                     (transactions d)))%nat).
    { apply (filter_length_lt _ _ _ x).
      - intros y _ Hy. rewrite mem_app, negb_orb in Hy.
        apply andb_true_iff in Hy. tauto.
      - exact Hin.
      - exact Hout.
      - rewrite mem_app.
        rewrite (mem_map_id x (x :: more)) by (left; reflexivity).
        rewrite orb_true_r. reflexivity. }
    cbn [List.map] in Hlt. lia.
Qed.

Lemma filter_length_le {A : Type} (p : A -> bool) l :
  (length (List.filter p l) <= length l)%nat.
Proof.
  induction l as [|x l IH]; [simpl; lia|].
  simpl. destruct (p x); simpl; lia.
Qed.

(** What [queryset.delete()] leaves: a part of the former rows, none of
    the rows asked for, and no row that points at a deleted purchase. *)
Lemma delete_transactions_effect doomed d :
  let d' := CardPurchaseViewSet.delete_transactions doomed d in
  (forall t, In t (transactions d') -> In t (transactions d) /\ doomed t = false)
  /\ (forall q, In q (card_purchases d') -> In q (card_purchases d))
  /\ (forall t q,
        In t (transactions d') -> In q (card_purchases d) ->
        Transaction.card_purchase t = Some (CardPurchase.id q) ->
        In q (card_purchases d'))
  /\ accounts d' = accounts d.
Proof.
  cbv zeta. unfold CardPurchaseViewSet.delete_transactions.
  set (init := List.map Transaction.id (List.filter doomed (transactions d))).
  set (collected := CardPurchaseViewSet.collect (length (transactions d)) d init).
  cbn [transactions card_purchases accounts set_card_purchases set_transactions].
  assert (Hstable : List.filter (CardPurchaseViewSet.dragged d collected)
                      (transactions d) = []).
  { apply collect_stable. apply filter_length_le. }
  split; [|split; [|split; [|reflexivity]]].
  - intros t Ht. apply filter_In in Ht. destruct Ht as [Hin Hout].
    split; [exact Hin|].
    destruct (doomed t) eqn:Hd; [|reflexivity]. exfalso.
    assert (Hm : CardPurchaseViewSet.mem (Transaction.id t) collected = true).
    { apply collect_incl. apply mem_map_id. apply filter_In. split; assumption. }
    rewrite Hm in Hout. discriminate.
  - intros q Hq. apply filter_In in Hq. tauto.
  - intros t q Ht Hq Hlink. apply filter_In in Ht. destruct Ht as [Hin Hout].
    apply filter_In. split; [exact Hq|].
    destruct (CardPurchaseViewSet.mem (CardPurchase.original_transaction q)
                collected) eqn:Hm; [|reflexivity].
    exfalso.
    assert (Hdr : In t (List.filter (CardPurchaseViewSet.dragged d collected)
                          (transactions d))).
    { apply filter_In. split; [exact Hin|].
      unfold CardPurchaseViewSet.dragged. rewrite Hout, Hlink. cbn [andb].
      apply existsb_exists. exists q. split; [exact Hq|].
      rewrite Z.eqb_refl, Hm. reflexivity. }
    rewrite Hstable in Hdr. destruct Hdr.
Qed.

(** X15.  Early payoff of an active purchase the request reaches
    answers with the purchase completed and nothing remaining.  It only
    deletes: the rows left are former rows, none of them is an
    unconfirmed transaction of the purchase, and none points at a
    purchase the cascade removed.  No account is written: the balance is
    not charged for what was cancelled.  A request whose query string
    asks for purchases of another status does not reach the purchase
    and gets the lookup's 404 or the rejection of the query instead. *)
Theorem pay_early_effect q request_user pk d p :
  CardPurchaseViewSet.get_object q request_user pk d = Ok p ->
  CardPurchase.status p = PurchaseStatus.active ->
  exists p' d',
    CardPurchaseViewSet.pay_early q request_user pk d = (Ok (Http200 p'), d')
    /\ CardPurchase.id p' = pk
    /\ CardPurchase.status p' = PurchaseStatus.completed
    /\ Installments.remaining_installments p' = 0
    /\ (forall t, In t (transactions d') -> In t (transactions d))
    /\ (forall t, In t (transactions d') ->
                  Transaction.card_purchase t = Some pk ->
                  Transaction.is_confirmed t = true)
    /\ (forall t c,
          In t (transactions d') ->
          In c (card_purchases (CardPurchaseViewSet.save_purchase p' d)) ->
          Transaction.card_purchase t = Some (CardPurchase.id c) ->
          In c (card_purchases d'))
    /\ accounts d' = accounts d
    /\ (forall q',
          (forall c, In c (card_purchases d) -> CardPurchase.id c = pk ->
                     Filters.keeps PurchaseStatus.eqb
                       (CardPurchaseViewSet.status q')
                       (CardPurchase.status c) = false) ->
          exists e,
            CardPurchaseViewSet.pay_early q' request_user pk d = (Raise e, d)
            /\ (e = Http404 \/ e = Filters.invalid_filter)).
Proof.
  intros H Hst.
  destruct (purchase_lookup_Ok _ _ _ _ _ H) as (_ & Hin & Hid & Hu & _).
  unfold CardPurchaseViewSet.pay_early at 1. rewrite H, Hst.
  cbn [Installments.is_active negb].
  eexists _, _. split; [reflexivity|].
  match goal with
  | |- context [CardPurchaseViewSet.delete_transactions ?f ?d1] =>
      pose proof (delete_transactions_effect f d1) as Hdel
  end.
  cbv zeta in Hdel. destruct Hdel as (Hrows & _ & Hcasc & Hacc).
  split; [exact Hid|]. split; [reflexivity|].
  split; [unfold Installments.remaining_installments;
          cbn [CardPurchase.total_installments CardPurchase.current_installment
               Installments.with_progress]; lia|].
  split; [|split; [|split; [|split]]].
  - intros t Ht. apply (Hrows t Ht).
  - intros t Ht Hlink. destruct (Hrows t Ht) as [_ Hd].
    rewrite Hlink in Hd.
    cbn [CardPurchase.id Installments.with_progress] in Hd.
    rewrite Hid, Z.eqb_refl in Hd. cbn [andb] in Hd.
    destruct (Transaction.is_confirmed t); [reflexivity | discriminate].
  - exact Hcasc.
  - exact Hacc.
  - intros q' Hq'. unfold CardPurchaseViewSet.pay_early.
    destruct (CardPurchaseViewSet.get_object q' request_user pk d)
      as [c|e] eqn:E.
    + exfalso.
      destruct (purchase_lookup_Ok _ _ _ _ _ E) as (_ & Hc & Hcid & _ & Hr).
      unfold CardPurchaseViewSet.reaches,
        CardPurchaseViewSet.filterset_keeps in Hr.
      rewrite (Hq' c Hc Hcid), andb_false_r, andb_false_l, andb_false_r in Hr.
      discriminate.
    + exists e. split; [reflexivity|].
      apply (purchase_lookup_Raise _ _ _ _ _ E).
Qed.

Lemma pay_early_effect_witness :
  exists p' d',
    CardPurchaseViewSet.pay_early
      (CardPurchaseViewSet.mk_query Filters.Absent
         (Filters.Given PurchaseStatus.active) "ARS")
      Sample.test_user 102 Sample2.after_purchase
    = (Ok (Http200 p'), d')
    /\ CardPurchase.id p' = 102
    /\ CardPurchase.status p' = PurchaseStatus.completed
    /\ Installments.remaining_installments p' = 0
    /\ accounts d' = accounts Sample2.after_purchase
    /\ CardPurchaseViewSet.pay_early
         (CardPurchaseViewSet.mk_query Filters.Absent
            (Filters.Given PurchaseStatus.completed) "")
         Sample.test_user 102 Sample2.after_purchase
       = (Raise Http404, Sample2.after_purchase).
Proof.
  destruct (pay_early_effect
              (CardPurchaseViewSet.mk_query Filters.Absent
                 (Filters.Given PurchaseStatus.active) "ARS")
              Sample.test_user 102 Sample2.after_purchase Sample2.purchase)
    as (p' & d' & Hp & Hid & Hs & Hr & _ & _ & _ & Hacc & _).
  - vm_compute. reflexivity.
  - reflexivity.
  - exists p', d'. split; [exact Hp|]. split; [exact Hid|].
    split; [exact Hs|]. split; [exact Hr|]. split; [exact Hacc|].
    vm_compute. reflexivity.
Defined.

(* --------------------------------------------------------------------- *)
(** ** Rates: what resolution returns and what it writes *)

(** Every way out of [get_exchange_rate], one goal each. *)
Ltac rate_cases e s f t :=
  unfold CurrencyService.get_exchange_rate;
  destruct (String.eqb f t) eqn:?;
  [|destruct (CurrencyService._get_cached_rate e s f t) as [?c|] eqn:?;
    cbn [truthy_opt];
    [destruct (Decimal.truthy c) eqn:?|];
    (destruct (CurrencyService._get_db_rate e s f t) as [?b|] eqn:?;
     cbn [truthy_opt];
     [destruct (Decimal.truthy b) eqn:?|];
     (destruct (CurrencyService._fetch_rate_from_api e f t) as [?a|] eqn:?;
      cbn [truthy_opt];
      [destruct (Decimal.truthy a) eqn:?|];
      (destruct (CurrencyService._get_inverse_rate s f t) as [?i|] eqn:?;
       cbn [truthy_opt];
       [destruct (Decimal.truthy i) eqn:?|])))];
  cbn [fst snd].

(** X16.  [get_exchange_rate] never answers with a zero rate: what it
    returns is a non-zero rate or [None].  When it answers [None] it has
    written nothing at all; it never writes a conversion log; and unless
    the provider gave a non-zero rate, the rate and currency tables are
    as they were. *)
Theorem get_exchange_rate_result e s f t :
  let out := CurrencyService.get_exchange_rate e s f t in
  (forall r, out.1 = Some r -> Decimal.truthy r = true)
  /\ (out.1 = None -> out.2 = s)
  /\ CurrencyService.conversion_logs out.2 = CurrencyService.conversion_logs s
  /\ (truthy_opt (CurrencyService._fetch_rate_from_api e f t) = false ->
      CurrencyService.exchange_rates out.2 = CurrencyService.exchange_rates s
      /\ CurrencyService.currencies out.2 = CurrencyService.currencies s).
Proof.
  cbv zeta. split; [|split; [|split]].
  - intros r. rate_cases e s f t; intros H;
      first [discriminate | injection H as <-; first [assumption | reflexivity]].
  - rate_cases e s f t; intros H; first [discriminate | reflexivity].
  - apply get_exchange_rate_logs.
  - rate_cases e s f t; intros H;
      first [discriminate | split; reflexivity].
Qed.

Lemma quantize_half_up_exp d q a :
  Decimal.quantize_half_up d q = Some a -> Decimal.exp a = q.
Proof.
  unfold Decimal.quantize_half_up, Decimal._rescale_half_up.
  destruct (Decimal.coef d =? 0); [intros H; injection H as <-; reflexivity|].
  destruct (Decimal.prec <? _); [discriminate|].
  destruct (q <=? Decimal.exp d); cbn [Decimal.coef];
    (destruct (Decimal.prec <? _); [discriminate|]);
    intros H; injection H as <-; reflexivity.
Qed.

(** A currency row created on the way carries the places that a missing
    row stands for. *)
Lemma places_get_or_create c m k :
  match CurrencyService.get_or_create_currency c m !! k with
  | Some x => Currency.decimal_places x
  | None => 2
  end
  = match m !! k with
    | Some x => Currency.decimal_places x
    | None => 2
    end.
Proof.
  unfold CurrencyService.get_or_create_currency.
  destruct (m !! c) eqn:Ec; [reflexivity|].
  destruct (decide (c = k)) as [->|Hne].
  - rewrite lookup_insert_eq, Ec. reflexivity.
  - rewrite lookup_insert_ne by exact Hne. reflexivity.
Qed.

Lemma places_save_rate e s f t r k :
  CurrencyService._get_currency_decimal_places
    (CurrencyService._save_rate_to_db e s f t r) k
  = CurrencyService._get_currency_decimal_places s k.
Proof.
  unfold CurrencyService._get_currency_decimal_places,
    CurrencyService._save_rate_to_db.
  destruct (List.filter _ _) as [|x [|y l]];
    cbn [CurrencyService.currencies CurrencyService.set_exchange_rates
         CurrencyService.set_currencies];
    rewrite !places_get_or_create; reflexivity.
Qed.

Lemma places_get_exchange_rate e s f t k :
  CurrencyService._get_currency_decimal_places
    (CurrencyService.get_exchange_rate e s f t).2 k
  = CurrencyService._get_currency_decimal_places s k.
Proof.
  rate_cases e s f t; try reflexivity;
    unfold CurrencyService._cache_rate;
    change (CurrencyService._get_currency_decimal_places
              (CurrencyService.set_cache ?x ?c) k)
      with (CurrencyService._get_currency_decimal_places x k);
    apply places_save_rate.
Qed.

(** X17.  Between two different currencies, the amount [convert_amount]
    returns is written with exactly the decimal places of the target
    currency as they stood before the call (two if the currency was not
    known), whatever rows the call created on its way. *)
Theorem convert_amount_places e s amount f t context user_id converted s' :
  f <> t ->
  CurrencyService.convert_amount e s amount f t context user_id
  = (Ok converted, s') ->
  Decimal.exp converted
  = - Z.max 0 (CurrencyService._get_currency_decimal_places s t)
  /\ CurrencyService._get_currency_decimal_places s' t
     = CurrencyService._get_currency_decimal_places s t.
Proof.
  intros Hne. unfold CurrencyService.convert_amount.
  replace (String.eqb f t) with false
    by (symmetry; apply String.eqb_neq; exact Hne).
  pose proof (places_get_exchange_rate e s f t t) as Hpl.
  destruct (CurrencyService.get_exchange_rate e s f t) as [[r|] s1];
    cbn [snd] in Hpl; [|discriminate].
  destruct (Decimal.truthy r); cbn [negb]; [|discriminate].
  destruct (Decimal.quantize_half_up _ _) as [c|] eqn:Hq; [|discriminate].
  intros H. injection H as <- <-.
  apply quantize_half_up_exp in Hq.
  split; [rewrite Hq, Hpl; reflexivity | exact Hpl].
Qed.

Lemma convert_amount_places_witness :
  Decimal.exp (Decimal.money 8500000) = - Z.max 0 2
  /\ CurrencyService._get_currency_decimal_places
       (CurrencyService.convert_amount Sample.offline Sample.store
          (Decimal.money 10000) "USD" "ARS" "test" (Some "test-user")).2 "ARS"
     = 2.
Proof.
  apply (convert_amount_places Sample.offline Sample.store
           (Decimal.money 10000) "USD" "ARS" "test" (Some "test-user")
           (Decimal.money 8500000)).
  - discriminate.
  - vm_compute. reflexivity.
Defined.

(* --------------------------------------------------------------------- *)
(** ** The rate history keeps one rate per pair and day *)

Lemma filter_map_length {A : Type} (p : A -> bool) (g : A -> A) l :
  (forall x, p (g x) = p x) ->
  length (List.filter p (List.map g l)) = length (List.filter p l).
Proof.
  intros H. induction l as [|x l IH]; [reflexivity|].
  simpl. rewrite H. destruct (p x); simpl; congruence.
Qed.

Lemma _save_rate_to_db_one_per_day e s f t r :
  one_rate_per_day (CurrencyService.exchange_rates s) ->
  one_rate_per_day
    (CurrencyService.exchange_rates (CurrencyService._save_rate_to_db e s f t r)).
Proof.
  intros Hinv f' t' day. unfold CurrencyService._save_rate_to_db.
  cbn [CurrencyService.exchange_rates CurrencyService.set_currencies].
  destruct (List.filter _ (CurrencyService.exchange_rates s))
    as [|x [|y rest]] eqn:Hf;
    cbn [CurrencyService.exchange_rates CurrencyService.set_exchange_rates
         CurrencyService.set_currencies].
  - rewrite List.filter_app, length_app. cbn [List.filter].
    destruct (CurrencyService.same_day f' t' day _) eqn:Enew.
    + unfold CurrencyService.same_day, CurrencyService.for_pair in Enew.
      cbn [ExchangeRate.from_currency ExchangeRate.to_currency
           ExchangeRate.date] in Enew.
      apply andb_true_iff in Enew. destruct Enew as [Hp Hday].
      apply andb_true_iff in Hp. destruct Hp as [Hf' Ht'].
      apply String.eqb_eq in Hf', Ht'. subst f' t'.
      unfold Dates.date_eqb in Hday.
      destruct (Dates.date_cmp _ day) eqn:Ec; try discriminate.
      apply date_cmp_eq in Ec. subst day. rewrite Hf. simpl. lia.
    + specialize (Hinv f' t' day). simpl. lia.
  - rewrite filter_map_length; [apply Hinv|].
    intros z. destruct (CurrencyService.same_day f t _ z); reflexivity.
  - apply Hinv.
Qed.

Lemma get_exchange_rate_one_per_day e s f t :
  one_rate_per_day (CurrencyService.exchange_rates s) ->
  one_rate_per_day
    (CurrencyService.exchange_rates (CurrencyService.get_exchange_rate e s f t).2).
Proof.
  intros Hinv. rate_cases e s f t; try exact Hinv;
    apply _save_rate_to_db_one_per_day; exact Hinv.
Qed.

(** What one fetch-and-store of the refresh job does. *)
Lemma refresh_pair_effect e f t acc :
  let acc' := RateRefresh.refresh_pair e f t acc in
  acc.1 <= acc'.1 <= acc.1 + 1
  /\ CurrencyService.cache acc'.2 = CurrencyService.cache acc.2
  /\ CurrencyService.conversion_logs acc'.2
     = CurrencyService.conversion_logs acc.2
  /\ (one_rate_per_day (CurrencyService.exchange_rates acc.2) ->
      one_rate_per_day (CurrencyService.exchange_rates acc'.2))
  /\ (CurrencyService.api_key e = "" -> acc' = acc).
Proof.
  destruct acc as [updated s]. cbv zeta. unfold RateRefresh.refresh_pair.
  assert (Hkey : CurrencyService.api_key e = "" ->
                 CurrencyService._fetch_rate_from_api e f t = None).
  { intros H. unfold CurrencyService._fetch_rate_from_api. rewrite H.
    reflexivity. }
  destruct (CurrencyService._fetch_rate_from_api e f t) as [rate|].
  - destruct (Decimal.truthy rate); cbn [fst snd].
    + split; [lia|]. split.
      { unfold CurrencyService._save_rate_to_db.
        destruct (List.filter _ _) as [|x [|y l]]; reflexivity. }
      split.
      { unfold CurrencyService._save_rate_to_db.
        destruct (List.filter _ _) as [|x [|y l]]; reflexivity. }
      split; [apply _save_rate_to_db_one_per_day|].
      intros H. specialize (Hkey H). discriminate.
    + split; [lia|]. auto.
  - cbn [fst snd]. split; [lia|]. auto.
Qed.

Lemma refresh_step_effect e acc c :
  let acc' := RateRefresh.refresh_step e acc c in
  acc.1 <= acc'.1 <= acc.1 + 2
  /\ CurrencyService.cache acc'.2 = CurrencyService.cache acc.2
  /\ CurrencyService.conversion_logs acc'.2
     = CurrencyService.conversion_logs acc.2
  /\ (one_rate_per_day (CurrencyService.exchange_rates acc.2) ->
      one_rate_per_day (CurrencyService.exchange_rates acc'.2))
  /\ (CurrencyService.api_key e = "" -> acc' = acc).
Proof.
  cbv zeta. unfold RateRefresh.refresh_step.
  destruct (String.eqb _ _).
  - split; [lia|]. auto.
  - pose proof (refresh_pair_effect e (Currency.code c)
                  RateRefresh.base_currency acc) as H1.
    pose proof (refresh_pair_effect e RateRefresh.base_currency
                  (Currency.code c)
                  (RateRefresh.refresh_pair e (Currency.code c)
                     RateRefresh.base_currency acc)) as H2.
    cbv zeta in H1, H2.
    destruct H1 as (A1 & B1 & C1 & D1 & E1).
    destruct H2 as (A2 & B2 & C2 & D2 & E2).
    split; [lia|]. split; [congruence|]. split; [congruence|].
    split; [auto|]. intros H. rewrite (E2 H). exact (E1 H).
Qed.

Lemma refresh_fold_effect e l : forall acc,
  let acc' := List.fold_left (RateRefresh.refresh_step e) l acc in
  acc.1 <= acc'.1 <= acc.1 + 2 * Z.of_nat (length l)
  /\ CurrencyService.cache acc'.2 = CurrencyService.cache acc.2
  /\ CurrencyService.conversion_logs acc'.2
     = CurrencyService.conversion_logs acc.2
  /\ (one_rate_per_day (CurrencyService.exchange_rates acc.2) ->
      one_rate_per_day (CurrencyService.exchange_rates acc'.2))
  /\ (CurrencyService.api_key e = "" -> acc' = acc).
Proof.
  induction l as [|c l IH]; intros acc.
  - cbn. split; [lia|]. auto.
  - cbn [List.fold_left length]. cbv zeta.
    specialize (IH (RateRefresh.refresh_step e acc c)). cbv zeta in IH.
    pose proof (refresh_step_effect e acc c) as H. cbv zeta in H.
    destruct IH as (A1 & B1 & C1 & D1 & E1).
    destruct H as (A2 & B2 & C2 & D2 & E2).
    split; [lia|]. split; [congruence|]. split; [congruence|].
    split; [auto|]. intros H. rewrite (E1 H). exact (E2 H).
Qed.

(** X18.  The rate history's invariant, at most one rate per ordered pair
    and day, is kept by every writer of the table: [_save_rate_to_db],
    [get_exchange_rate] and the refresh job [refresh_all_rates]. *)
Theorem rate_history_one_per_day e s f t r :
  one_rate_per_day (CurrencyService.exchange_rates s) ->
  one_rate_per_day
    (CurrencyService.exchange_rates (CurrencyService._save_rate_to_db e s f t r))
  /\ one_rate_per_day
       (CurrencyService.exchange_rates
          (CurrencyService.get_exchange_rate e s f t).2)
  /\ one_rate_per_day
       (CurrencyService.exchange_rates (RateRefresh.refresh_all_rates e s).2).
Proof.
  intros Hinv.
  split; [apply _save_rate_to_db_one_per_day; exact Hinv|].
  split; [apply get_exchange_rate_one_per_day; exact Hinv|].
  unfold RateRefresh.refresh_all_rates.
  pose proof (refresh_fold_effect e (RateRefresh.get_supported_currencies s)
                (0, s)) as H.
  cbv zeta in H.
  destruct (List.fold_left _ _ _) as [updated s'].
  destruct H as (_ & _ & _ & H & _). exact (H Hinv).
Qed.

Lemma one_rate_per_day_store :
  one_rate_per_day (CurrencyService.exchange_rates Sample.store).
Proof.
  intros f t day. cbn [CurrencyService.exchange_rates Sample.store List.filter].
  destruct (CurrencyService.same_day f t day Sample.usd_ars) eqn:E1;
    destruct (CurrencyService.same_day f t day Sample.ars_usd) eqn:E2;
    try (simpl; repeat constructor).
  exfalso.
  unfold CurrencyService.same_day, CurrencyService.for_pair in E1, E2.
  apply andb_true_iff in E1. destruct E1 as [E1 _].
  apply andb_true_iff in E1. destruct E1 as [E1 _].
  apply andb_true_iff in E2. destruct E2 as [E2 _].
  apply andb_true_iff in E2. destruct E2 as [E2 _].
  apply String.eqb_eq in E1, E2. cbn in E1, E2. congruence.
Defined.

Lemma rate_history_one_per_day_witness :
  one_rate_per_day
    (CurrencyService.exchange_rates
       (CurrencyService._save_rate_to_db Sample2.online Sample.store
          "USD" "ARS" (Decimal.of_int 851)))
  /\ one_rate_per_day
       (CurrencyService.exchange_rates
          (CurrencyService.get_exchange_rate Sample2.online Sample.store
             "USD" "ARS").2)
  /\ one_rate_per_day
       (CurrencyService.exchange_rates
          (RateRefresh.refresh_all_rates Sample2.online Sample.store).2).
Proof.
  exact (rate_history_one_per_day Sample2.online Sample.store "USD" "ARS"
           (Decimal.of_int 851) one_rate_per_day_store).
Defined.

(** X19.  The refresh job counts at most two stored rates per supported
    currency, reports no errors, and writes neither the cache nor the
    conversion log: a rate it refreshed is not what a live cache entry of
    the pair answers with.  Without an API key it stores nothing. *)
Theorem refresh_all_rates_frame e s :
  let r := RateRefresh.refresh_all_rates e s in
  0 <= r.1.1
       <= 2 * Z.of_nat (length (RateRefresh.get_supported_currencies s))
  /\ r.1.2 = []
  /\ CurrencyService.cache r.2 = CurrencyService.cache s
  /\ CurrencyService.conversion_logs r.2 = CurrencyService.conversion_logs s
  /\ (forall f t, CurrencyService._get_cached_rate e r.2 f t
                  = CurrencyService._get_cached_rate e s f t)
  /\ (CurrencyService.api_key e = "" -> r = ((0, []), s)).
Proof.
  cbv zeta. unfold RateRefresh.refresh_all_rates.
  pose proof (refresh_fold_effect e (RateRefresh.get_supported_currencies s)
                (0, s)) as H.
  cbv zeta in H.
  destruct (List.fold_left _ _ _) as [updated s'].
  cbn [fst snd] in *.
  destruct H as (A & B & C & _ & E).
  split; [lia|]. split; [reflexivity|]. split; [exact B|].
  split; [exact C|]. split.
  - intros f t. unfold CurrencyService._get_cached_rate. rewrite B.
    reflexivity.
  - intros H. specialize (E H). injection E as -> ->. reflexivity.
Qed.

(* --------------------------------------------------------------------- *)
(** ** The stored rate that [_get_db_rate] answers with *)

(** X20.  A rate [_get_db_rate] returns is the rate of a stored row of
    exactly that ordered pair, dated within the last 24 hours, and no
    other such row is dated later. *)
Theorem _get_db_rate_latest_in_window e s f t r :
  CurrencyService._get_db_rate e s f t = Some r ->
  exists row,
    In row (CurrencyService.exchange_rates s)
    /\ ExchangeRate.from_currency row = f
    /\ ExchangeRate.to_currency row = t
    /\ ExchangeRate.rate row = r
    /\ Dates.datetime_leb (Dates.minus_24h (CurrencyService.now e))
         (ExchangeRate.date row) = true
    /\ forall other,
         In other (CurrencyService.exchange_rates s) ->
         ExchangeRate.from_currency other = f ->
         ExchangeRate.to_currency other = t ->
         Dates.datetime_leb (Dates.minus_24h (CurrencyService.now e))
           (ExchangeRate.date other) = true ->
         Dates.datetime_leb (ExchangeRate.date other) (ExchangeRate.date row)
         = true.
Proof.
  unfold CurrencyService._get_db_rate. cbv zeta.
  destruct (CurrencyService.latest _) as [row|] eqn:Hl; [|discriminate].
  intros H. injection H as <-. exists row.
  pose proof (latest_In _ _ Hl) as Hin. apply filter_In in Hin.
  destruct Hin as [Hin Hp]. apply andb_true_iff in Hp. destruct Hp as [Hp Hw].
  unfold CurrencyService.for_pair in Hp. apply andb_true_iff in Hp.
  destruct Hp as [Hf Ht]. apply String.eqb_eq in Hf, Ht.
  split; [exact Hin|]. split; [exact Hf|]. split; [exact Ht|].
  split; [reflexivity|]. split; [exact Hw|].
  intros other Ho Hof Hot Hwo. apply (latest_max _ _ Hl).
  apply filter_In. split; [exact Ho|].
  unfold CurrencyService.for_pair. rewrite Hof, Hot, !String.eqb_refl, Hwo.
  reflexivity.
Qed.

Lemma _get_db_rate_latest_in_window_witness :
  exists row,
    In row (CurrencyService.exchange_rates Sample.store)
    /\ ExchangeRate.from_currency row = "USD"
    /\ ExchangeRate.to_currency row = "ARS"
    /\ ExchangeRate.rate row = Decimal.mk 85000 (-2)
    /\ Dates.datetime_leb (Dates.minus_24h Sample.noon)
         (ExchangeRate.date row) = true
    /\ forall other,
         In other (CurrencyService.exchange_rates Sample.store) ->
         ExchangeRate.from_currency other = "USD" ->
         ExchangeRate.to_currency other = "ARS" ->
         Dates.datetime_leb (Dates.minus_24h Sample.noon)
           (ExchangeRate.date other) = true ->
         Dates.datetime_leb (ExchangeRate.date other) (ExchangeRate.date row)
         = true.
Proof.
  exact (_get_db_rate_latest_in_window Sample.offline Sample.store
           "USD" "ARS" (Decimal.mk 85000 (-2)) eq_refl).
Defined.

(* --------------------------------------------------------------------- *)
(** ** The cache round trip, on the fixtures *)

Lemma stored_rate_then_cached_witness :
  let s1 := (CurrencyService.get_exchange_rate Sample.offline Sample.store
               "USD" "ARS").2 in
  CurrencyService.get_exchange_rate Sample.offline Sample.store "USD" "ARS"
  = (Some (Decimal.mk 85000 (-2)),
     CurrencyService._cache_rate Sample.offline Sample.store "USD" "ARS"
       (Decimal.mk 85000 (-2)))
  /\ cache_hit Sample.offline s1 "USD" "ARS" (Decimal.mk 85000 (-2))
  /\ CurrencyService.get_exchange_rate Sample.offline s1 "USD" "ARS"
     = (Some (Decimal.mk 85000 (-2)), s1).
Proof.
  apply (stored_rate_then_cached Sample.offline Sample.store "USD" "ARS"
           (Decimal.mk 85000 (-2))).
  - discriminate.
  - reflexivity.
  - split; [discriminate | reflexivity].
  - intros c (ce & Hc & _). vm_compute in Hc. discriminate.
  - exists Sample.usd_ars. vm_compute. repeat split.
Defined.

Lemma cache_key_inj_witness :
  CurrencyService.cache_key "USD" "ARS" = "exchange_rate_USD_ARS"
  /\ ("USD" = "USD" /\ "ARS" = "ARS").
Proof.
  split; [reflexivity|].
  exact (cache_key_inj "USD" "ARS" "USD" "ARS" eq_refl eq_refl eq_refl).
Defined.

(* --------------------------------------------------------------------- *)
(** ** The installment schedule runs forward *)





(* --------------------------------------------------------------------- *)
(** ** Auto-debits and the balance invariant *)

Lemma round_half_even_nonneg c k : 0 <= c -> 0 <= Decimal.round_half_even c k.
Proof.
  intros Hc. unfold Decimal.round_half_even. cbv zeta.
  assert (Hp : 0 <= 10 ^ k) by (apply Z.pow_nonneg; lia).
  assert (Hq : 0 <= Z.abs c / 10 ^ k).
  { destruct (Z.eq_dec (10 ^ k) 0) as [->|Hne].
    - rewrite Z.div_0_r. lia.
    - apply Z.div_pos; lia. }
  assert (Hs : 0 <= Z.sgn c) by (apply Z.sgn_nonneg; exact Hc).
  apply Z.mul_nonneg_nonneg; [exact Hs|].
  destruct (_ <? _); [exact Hq|].
  destruct (_ =? _); [destruct (Z.even _)|]; lia.
Qed.

Lemma _fix_nonneg d : 0 <= Decimal.coef d -> 0 <= Decimal.coef (Decimal._fix d).
Proof.
  intros Hc. unfold Decimal._fix. cbv zeta.
  destruct (_ <=? Decimal.prec); [exact Hc|].
  pose proof (round_half_even_nonneg (Decimal.coef d)
                (Decimal.ndigits (Decimal.coef d) - Decimal.prec) Hc) as Hr.
  destruct (_ <=? Decimal.prec); cbn [Decimal.coef]; [exact Hr|].
  apply Z.div_pos; lia.
Qed.

(** A difference that was not refused as an overdraft is not negative. *)
Lemma sub_not_negative x y :
  Decimal.ltb x y = false ->
  Decimal.ltb (Decimal.sub x y) (Decimal.of_int 0) = false.
Proof.
  intros Hlt.
  assert (Hd : 0 <= Decimal.coef (Decimal.sub x y)).
  { unfold Decimal.sub. cbv zeta. apply _fix_nonneg. cbn [Decimal.coef].
    unfold Decimal.ltb, Decimal.cmp in Hlt. cbv zeta in Hlt.
    destruct (Z.compare_spec
                (Decimal.scaled x (Z.min (Decimal.exp x) (Decimal.exp y)))
                (Decimal.scaled y (Z.min (Decimal.exp x) (Decimal.exp y))));
      try discriminate; lia. }
  unfold Decimal.ltb, Decimal.cmp, Decimal.scaled. cbv zeta.
  cbn [Decimal.coef Decimal.exp Decimal.of_int].
  set (r := Decimal.sub x y) in *.
  assert (Hp : 0 <= 10 ^ (Decimal.exp r - Z.min (Decimal.exp r) 0))
    by (apply Z.pow_nonneg; lia).
  destruct (Z.compare_spec
              (Decimal.coef r * 10 ^ (Decimal.exp r - Z.min (Decimal.exp r) 0))
              (0 * 10 ^ (0 - Z.min (Decimal.exp r) 0)));
    try reflexivity.
  exfalso. nia.
Qed.

(** X22.  A successful auto-debit keeps the balance invariant that
    [Account.clean] states: if every account row passed [clean] before,
    every row passes it after.  The debited account cannot have gone
    negative unless its type allows it. *)
Theorem auto_debit_keeps_accounts_clean now a d tx a' d' :
  keyed_by_id d ->
  (forall k acc, accounts d !! k = Some acc -> Account.clean acc = Ok tt) ->
  TransactionService.execute_auto_debit now a d = (Ok tx, a', d') ->
  forall k acc, accounts d' !! k = Some acc -> Account.clean acc = Ok tt.
Proof.
  intros Hkey Hclean.
  unfold TransactionService.execute_auto_debit,
    TransactionService.execute_auto_debit_body.
  destruct (AutoDebit.can_execute a (Dates.dt_date now));
    cbn [negb]; [|discriminate].
  unfold TransactionService.try_block.
  destruct (accounts d !! AutoDebit.account a) as [account|] eqn:Hacc;
    [|discriminate].
  destruct (Decimal.ltb (Account.balance account) (AutoDebit.amount a)
            && negb (AccountType.allows_negative_balance
                       (Account.account_type account))) eqn:Hfunds;
    [discriminate|].
  destruct (AutoDebit.calculate_next_execution _) as [next|e];
    [|discriminate].
  intros H. injection H as <- <- <-. intros k acc.
  unfold TransactionService.save_execution_fields, save_balance.
  cbn [accounts set_auto_debits set_accounts set_next_id insert_transaction
       set_transactions Account.id Account.set_balance Account.balance].
  rewrite (Hkey _ _ Hacc).
  destruct (decide (k = AutoDebit.account a)) as [->|Hne].
  - rewrite lookup_alter_eq, Hacc. cbn [fmap option_fmap option_map].
    intros H. injection H as <-. unfold Account.clean.
    cbn [Account.balance Account.account_type Account.set_balance].
    apply andb_false_iff in Hfunds. destruct Hfunds as [Hlt|Hneg].
    + rewrite (sub_not_negative _ _ Hlt). reflexivity.
    + rewrite Hneg, andb_false_r. reflexivity.
  - rewrite lookup_alter_ne by congruence. apply Hclean.
Qed.

Lemma sample_tables_keyed : keyed_by_id Sample.with_debits.
Proof.
  intros k a. cbn [accounts Sample.with_debits set_auto_debits Sample.tables].
  intros H.
  apply lookup_insert_Some in H. destruct H as [[<- <-]|[_ H]]; [reflexivity|].
  apply lookup_insert_Some in H. destruct H as [[<- <-]|[_ H]]; [reflexivity|].
  apply lookup_singleton_Some in H. destruct H as [<- <-]. reflexivity.
Qed.

Lemma sample_accounts_clean k acc :
  accounts Sample.with_debits !! k = Some acc -> Account.clean acc = Ok tt.
Proof.
  cbn [accounts Sample.with_debits set_auto_debits Sample.tables].
  intros H.
  apply lookup_insert_Some in H. destruct H as [[<- <-]|[_ H]]; [reflexivity|].
  apply lookup_insert_Some in H. destruct H as [[<- <-]|[_ H]]; [reflexivity|].
  apply lookup_singleton_Some in H. destruct H as [<- <-]. reflexivity.
Qed.

Lemma auto_debit_keeps_accounts_clean_witness :
  Account.clean
    (Account.set_balance Sample.test_account (Decimal.money 990000)) = Ok tt.
Proof.
  apply (auto_debit_keeps_accounts_clean Sample.noon Sample.gym_debit
           Sample.with_debits _ _ _ sample_tables_keyed sample_accounts_clean
           eq_refl 10).
  vm_compute. reflexivity.
Defined.

(* --------------------------------------------------------------------- *)
(** ** The balance projection *)

(** With the next date inside the horizon the loop of a debit cannot
    leave by its condition: it runs until the bound breaks it. *)
Lemma debit_loop_to_bound debit projection_date next :
  AutoDebit.calculate_next_execution debit = Ok next ->
  Dates.date_leb next projection_date = true ->
  forall k fuel n current bal events,
    (1 <= k)%nat -> (k <= fuel)%nat -> n = 366 - Z.of_nat k ->
    Dates.date_leb current projection_date = true ->
    exists bal' added,
      Projection.debit_loop fuel debit projection_date current n bal events
      = Ok (bal', events ++ added)
      /\ length added = k.
Proof.
  intros Hnext Hin. induction k as [|k IH]; [lia|].
  intros fuel n current bal events _ Hfuel Hn Hcur.
  destruct fuel as [|fuel]; [lia|].
  cbn [Projection.debit_loop]. rewrite Hcur, Hnext.
  destruct k as [|k].
  - replace (365 <? n + 1) with true by (symmetry; apply Z.ltb_lt; lia).
    eexists _, [_]. split; reflexivity.
  - replace (365 <? n + 1) with false by (symmetry; apply Z.ltb_ge; lia).
    destruct (IH fuel (n + 1) next
                (Decimal.sub bal (AutoDebit.amount debit))
                (events ++ [Projection.mk_event current
                              Projection.auto_debit_event
                              (AutoDebit.name debit)
                              (Projection.neg (AutoDebit.amount debit))
                              (Decimal.sub bal (AutoDebit.amount debit))]))
      as (bal' & added & Hloop & Hlen); try lia; try exact Hin.
    rewrite Hloop. eexists bal', (_ :: added).
    split; [rewrite <- app_assoc; reflexivity|]. simpl. lia.
Qed.

(** With the next date past the horizon the loop ends after one turn. *)
Lemma debit_loop_once debit projection_date next :
  AutoDebit.calculate_next_execution debit = Ok next ->
  Dates.date_leb next projection_date = false ->
  forall fuel current bal events,
    (1 <= fuel)%nat ->
    Dates.date_leb current projection_date = true ->
    exists bal' added,
      Projection.debit_loop fuel debit projection_date current 0 bal events
      = Ok (bal', events ++ added)
      /\ length added = 1%nat.
Proof.
  intros Hnext Hout fuel current bal events Hfuel Hcur.
  destruct fuel as [|[|fuel]]; [lia| |];
    cbn [Projection.debit_loop]; rewrite Hcur, Hnext;
    change (365 <? 0 + 1) with false; cbv iota; try rewrite Hout;
    eexists _, [_]; split; reflexivity.
Qed.

Lemma loop_bound_366 : Projection.loop_bound = Z.to_nat 366.
Proof. reflexivity. Qed.

Lemma debit_loop_count debit projection_date current bal events next :
  AutoDebit.calculate_next_execution debit = Ok next ->
  Dates.date_leb current projection_date = true ->
  exists bal' added,
    Projection.debit_loop Projection.loop_bound debit projection_date
      current 0 bal events
    = Ok (bal', events ++ added)
    /\ length added = projected_runs projection_date debit.
Proof.
  intros Hnext Hcur. unfold projected_runs. rewrite Hnext.
  pose proof loop_bound_366 as Hb.
  destruct (Dates.date_leb next projection_date) eqn:Hin.
  - apply (debit_loop_to_bound debit projection_date next Hnext Hin
             Projection.loop_bound Projection.loop_bound 0 current bal
             events); try exact Hcur; lia.
  - apply (debit_loop_once debit projection_date next Hnext Hin);
      [lia | exact Hcur].
Qed.

Lemma debits_loop_count today projection_date debits :
  Dates.date_leb today projection_date = true ->
  (forall debit, In debit debits ->
     Dates.date_leb (AutoDebit.next_execution debit) projection_date = true
     /\ exists next, AutoDebit.calculate_next_execution debit = Ok next) ->
  forall bal events,
  exists bal' added,
    Projection.debits_loop today projection_date debits bal events
    = Ok (bal', events ++ added)
    /\ length added
       = list_sum (List.map (projected_runs projection_date) debits).
Proof.
  intros Htoday. induction debits as [|debit rest IH]; intros Hall bal events.
  - exists bal, []. rewrite app_nil_r. split; reflexivity.
  - cbn [Projection.debits_loop]. cbv zeta.
    destruct (Hall debit (or_introl eq_refl)) as [Hdue [next Hnext]].
    assert (Hcur : Dates.date_leb
                     (Projection.date_max (AutoDebit.next_execution debit) today)
                     projection_date = true).
    { unfold Projection.date_max. destruct (Dates.date_ltb _ _); assumption. }
    destruct (debit_loop_count debit projection_date _ bal events next
                Hnext Hcur) as (bal1 & added1 & -> & Hlen1).
    destruct (IH (fun x Hx => Hall x (or_intror Hx)) bal1 (events ++ added1))
      as (bal2 & added2 & -> & Hlen2).
    exists bal2, (added1 ++ added2).
    split; [rewrite app_assoc; reflexivity|].
    rewrite length_app, Hlen1, Hlen2. reflexivity.
Qed.

Lemma installments_loop_count rows : forall bal events,
  length (Projection.installments_loop rows bal events).2
  = (length events + length rows)%nat.
Proof.
  induction rows as [|t rows IH]; intros bal events.
  - simpl. lia.
  - cbn [Projection.installments_loop]. cbv zeta. rewrite IH, length_app.
    simpl. lia.
Qed.

Lemma insert_event_length ev l :
  length (Projection.insert_event ev l) = S (length l).
Proof.
  induction l as [|x l IH]; [reflexivity|].
  simpl. destruct (Dates.date_ltb _ _); simpl; congruence.
Qed.

Lemma sort_events_length l : length (Projection.sort_events l) = length l.
Proof.
  unfold Projection.sort_events.
  assert (H : forall acc,
            length (List.fold_left
                      (fun acc ev => Projection.insert_event ev acc) l acc)
            = (length acc + length l)%nat).
  { induction l as [|x l IH]; intros acc; [simpl; lia|].
    cbn [List.fold_left]. rewrite IH, insert_event_length. simpl. lia. }
  rewrite H. reflexivity.
Qed.

Lemma add_days_from d n : Dates.date_leb d (Dates.add_days d n) = true.
Proof.
  destruct n as [|n]; [apply date_leb_refl|].
  apply date_ltb_leb, add_days_later. lia.
Qed.

(** X25.  The balance projection over a horizon that is a date of the
    calendar, for an account whose due debits carry no negative anchor
    day and last ran before the year 9999, answers, and its event list
    holds one entry per pending installment and, for each debit, as many
    entries as [projected_runs] says: the debit's loop moves to the date
    [calculate_next_execution] gives, which is the same at every turn, so
    the debit is counted once when that date lies past the horizon and
    366 times, up to the loop's bound, when it does not. *)
Theorem projection_event_count now account days_ahead d :
  let projection_date := Dates.add_days (Dates.dt_date now) days_ahead in
  let debits := Projection.future_debits account projection_date d in
  Z.of_nat days_ahead <= 999999999 ->
  Dates.year projection_date <= 9999 ->
  (forall debit k, In debit debits ->
                   AutoDebit.day_of_month debit = Some k -> 0 <= k) ->
  (forall debit last, In debit debits ->
                      AutoDebit.last_execution debit = Some last ->
                      Dates.year last <= 9998) ->
  exists r,
    Projection.get_balance_projection now account days_ahead d = Ok r
    /\ Projection.projection_date r = projection_date
    /\ Projection.current_balance r = Account.balance account
    /\ length (Projection.events r)
       = (list_sum (List.map (projected_runs projection_date) debits)
          + length (Projection.pending_installments account projection_date d))%nat.
Proof.
  intros projection_date debits Hdays Hhorizon Hanchor Hlast.
  unfold Projection.get_balance_projection, Projection.timedelta,
    DateArith.plus_days, DateArith.MAXYEAR. cbv zeta.
  replace (999999999 <? Z.of_nat days_ahead) with false
    by (symmetry; apply Z.ltb_ge; exact Hdays).
  fold projection_date.
  replace (Dates.year projection_date <=? 9999) with true
    by (symmetry; apply Z.leb_le; exact Hhorizon).
  fold debits.
  destruct (debits_loop_count (Dates.dt_date now) projection_date debits
              (add_days_from _ _)) with (bal := Account.balance account)
                                        (events := @nil Projection.event)
    as (bal' & added & -> & Hlen).
  { intros debit Hin. split.
    - subst debits. unfold Projection.future_debits in Hin.
      apply filter_In in Hin. destruct Hin as [_ Hp].
      apply andb_true_iff in Hp. tauto.
    - apply calculate_next_execution_total.
      + intros k Hk. exact (Hanchor debit k Hin Hk).
      + intros last Hl. exact (Hlast debit last Hin Hl). }
  pose proof (installments_loop_count
                (Projection.pending_installments account projection_date d)
                bal' ([] ++ added)) as Hinst.
  destruct (Projection.installments_loop _ bal' ([] ++ added))
    as [bal2 events2].
  cbn [snd] in Hinst.
  eexists. split; [reflexivity|].
  cbn [Projection.projection_date Projection.current_balance
       Projection.events].
  split; [reflexivity|]. split; [reflexivity|].
  rewrite sort_events_length, Hinst. cbn [app]. rewrite Hlen. reflexivity.
Qed.

Lemma projection_event_count_witness :
  exists r,
    Projection.get_balance_projection Sample.noon Sample.test_account 30
      Sample.with_debits = Ok r
    /\ Projection.projection_date r = Dates.mkdate 2024 3 1
    /\ Projection.current_balance r = Decimal.money 1000000
    /\ length (Projection.events r) = 732%nat.
Proof.
  destruct (projection_event_count Sample.noon Sample.test_account 30
              Sample.with_debits) as (r & Hr & Hd & Hb & Hl).
  - vm_compute. discriminate.
  - vm_compute. discriminate.
  - intros debit k Hin Hk; vm_compute in Hin;
    destruct Hin as [<-|[<-|[]]]; vm_compute in Hk;
    first [discriminate | injection Hk as <-; discriminate].
  - intros debit last Hin Hk; vm_compute in Hin;
    destruct Hin as [<-|[<-|[]]]; vm_compute in Hk;
    first [discriminate | injection Hk as <-; vm_compute; discriminate].
  - exists r. split; [exact Hr|].
    split; [rewrite Hd; vm_compute; reflexivity|].
    split; [exact Hb|].
    rewrite Hl; vm_compute; reflexivity.
Defined.

(* --------------------------------------------------------------------- *)
(** ** The user's total balance *)





(* --------------------------------------------------------------------- *)
(** ** The serializer and the model validate alike *)

(** X27.  [TransactionSerializer.validate] and [Transaction.clean] accept
    the same transactions: data passes the serializer for a user exactly
    when the transaction built from it for that user passes the model's
    own check.  The two run their checks in a different order and word
    their errors differently. *)
Theorem validate_agrees_with_clean request_user data :
  is_ok (TransactionSerializer.validate request_user data)
  = is_ok (TransactionModel.clean (TransactionModel.of_data request_user data)).
Proof.
  unfold TransactionSerializer.validate, TransactionModel.clean,
    TransactionModel.of_data.
  cbn [TransactionModel.user TransactionModel.account
       TransactionModel.category TransactionModel.transaction_type
       TransactionModel.target_account].
  destruct (negb (Account.user (TransactionSerializer.account data)
                  =? request_user)); [reflexivity|].
  destruct (negb (Category.user (TransactionSerializer.category data)
                  =? request_user)); [reflexivity|].
  cbv zeta.
  destruct (TransactionSerializer.transaction_type data);
    cbn [TxType.eqb orb andb].
  - destruct (TxType.eqb _ TxType.income); reflexivity.
  - destruct (TxType.eqb _ TxType.expense); reflexivity.
  - destruct (TransactionSerializer.target_account data) as [[target|]|];
      try reflexivity.
    destruct (negb (Account.user target =? request_user)); [reflexivity|].
    destruct (Account.id target =? _); reflexivity.
Qed.

(* --------------------------------------------------------------------- *)
(** ** The manual [execute] action *)

(** X28.  The [execute] action, whatever the query string of the
    request.  It fails exactly as the lookup does: with 404 when the
    caller owns no debit with that key among the rows the request's
    filters keep, or with the rejection of the query string; and then it
    writes nothing.  A 400, whether from the view's own guard or from an
    exception of the service, leaves every table as it was, the debit's
    failed attempts included.  A 200 has appended exactly the
    transaction it shows, as its row holds it, and the transaction is
    tied to a debit with the key asked for. *)
Theorem execute_action_outcome now q request_user pk d :
  match AutoDebitViewSet.execute now q request_user pk d with
  | (Raise e, d') =>
      d' = d
      /\ AutoDebitViewSet.get_object q request_user pk d = Raise e
      /\ (e = Http404 \/ e = Filters.invalid_filter)
      /\ (e = Http404 <->
          AutoDebitViewSet.filterset_valid q d = true
          /\ forall a, In a (auto_debits d) -> AutoDebit.id a = pk ->
                       AutoDebitViewSet.reaches q request_user a = false)
  | (Ok (Http400 _), d') => d' = d
  | (Ok (Http200 tx), d') =>
      transactions d' = transactions d ++ [Transaction.as_stored tx]
      /\ Transaction.auto_debit tx = Some pk
      /\ Transaction.is_confirmed tx = true
  end.
Proof.
  unfold AutoDebitViewSet.execute.
  destruct (AutoDebitViewSet.get_object q request_user pk d) as [a|e] eqn:Hget.
  - destruct (debit_lookup_Ok _ _ _ _ _ Hget) as (_ & _ & Hid & _).
    destruct (negb (AutoDebit.can_execute a (Dates.dt_date now)));
      [reflexivity|].
    destruct (execute_auto_debit_outcome now a d)
      as [(tx & a' & d' & Hex & Htx)|(e & a' & Hex)]; rewrite Hex.
    + split; [exact Htx|].
      unfold TransactionService.execute_auto_debit,
        TransactionService.execute_auto_debit_body in Hex.
      destruct (negb (AutoDebit.can_execute a (Dates.dt_date now)));
        [discriminate|].
      unfold TransactionService.try_block in Hex.
      destruct (accounts d !! AutoDebit.account a); [|discriminate].
      destruct (_ && _); [discriminate|].
      destruct (AutoDebit.calculate_next_execution _); [|discriminate].
      injection Hex as <- _ _.
      cbn [Transaction.auto_debit Transaction.is_confirmed].
      rewrite Hid. split; reflexivity.
    + reflexivity.
  - split; [reflexivity|]. split; [reflexivity|].
    split; [apply (debit_lookup_Raise _ _ _ _ _ Hget)|].
    rewrite <- debit_lookup_404, Hget.
    split; intros H; congruence.
Qed.
